(** * mujoco_py.builder: build, cache and load of the cymj extension,
      and the runtime callback compiler.

    A shallow embedding of [mujoco_py/builder.py].  Python code that touches
    the file system, the environment or an external tool is written in a
    state-and-exception monad over an explicit [world]; the tools themselves
    (distutils, cffi, patchelf, ldd, install_name_tool, the extension
    loader) are fields of a [host] record, so every statement holds for
    whatever those tools do.  The library calls the module makes ([os],
    [shutil], [subprocess], [glob], [lockfile]) are written out with the
    failures the module can meet: a refused unlink, a directory that cannot
    be made, a lock that cannot be taken, a program that is not installed. *)

From Stdlib Require Import ZArith NArith String Ascii List Lia.
From Stdlib.Strings Require Import Byte.
From stdpp Require Import base option list gmap strings pretty sorting.

Local Open Scope string_scope.
Local Open Scope Z_scope.

(** ** Strings and [os.path] (posixpath) *)

Module Str.

Definition LF : string := String (ascii_of_nat 10) EmptyString.

Definition chars (s : string) : list ascii := list_ascii_of_string s.
Definition of_chars (l : list ascii) : string := string_of_list_ascii l.

(** [s.startswith(p)] *)
Definition startswith (p s : string) : bool := String.prefix p s.

(** [s.endswith(p)] *)
Definition endswith (p s : string) : bool :=
  String.prefix (String.rev p) (String.rev s).

(** [sub in s] *)
Fixpoint contains (sub s : string) : bool :=
  String.prefix sub s ||
  match s with
  | EmptyString => false
  | String _ s' => contains sub s'
  end.

(** [s.rfind(c)] for a one-character [c]: the highest index holding [c],
    or [-1]. *)
Fixpoint rfind_from (c : ascii) (l : list ascii) (i : Z) (best : Z) : Z :=
  match l with
  | [] => best
  | x :: l' => rfind_from c l' (i + 1) (if Ascii.eqb x c then i else best)
  end.
Definition rfind (c : ascii) (s : string) : Z := rfind_from c (chars s) 0 (-1).

(** [s[:i]] and [s[i:]] for [0 <= i]. *)
Definition upto (i : Z) (s : string) : string := of_chars (take (Z.to_nat i) (chars s)).
Definition from (i : Z) (s : string) : string := of_chars (drop (Z.to_nat i) (chars s)).

(** [s.split(c)] for a one-character separator. *)
Fixpoint split_go (c : ascii) (l : list ascii) (cur : list ascii) : list string :=
  match l with
  | [] => [of_chars (rev cur)]
  | x :: l' =>
      if Ascii.eqb x c then of_chars (rev cur) :: split_go c l' []
      else split_go c l' (x :: cur)
  end.
Definition split (c : ascii) (s : string) : list string := split_go c (chars s) [].

(** [sep.join(parts)] *)
Definition join (sep : string) (parts : list string) : string := String.concat sep parts.

(** [s in l] for a list of strings. *)
Definition mem (s : string) (l : list string) : bool := bool_decide (s ∈ l).

(** [s.rstrip(c)] for a one-character [c]. *)
Fixpoint rstrip_rev (c : ascii) (l : list ascii) : list ascii :=
  match l with
  | x :: l' => if Ascii.eqb x c then rstrip_rev c l' else l
  | [] => []
  end.
Definition rstrip (c : ascii) (s : string) : string :=
  of_chars (rev (rstrip_rev c (rev (chars s)))).

End Str.

Module Path.

Definition sep : string := "/".

(** [os.path.join(a, b)] *)
Definition join (a b : string) : string :=
  if Str.startswith sep b then b
  else if String.eqb a "" || Str.endswith sep a then a +:+ b
  else a +:+ sep +:+ b.

(** [os.path.splitext(p)]: the extension starts at the last dot of the
    last component; leading dots of that component do not count. *)
Definition splitext (p : string) : string * string :=
  let sepIndex := Str.rfind "/"%char p in
  let dotIndex := Str.rfind "."%char p in
  if bool_decide (sepIndex < dotIndex) then
    let name := take (Z.to_nat (dotIndex - (sepIndex + 1)))
                     (drop (Z.to_nat (sepIndex + 1)) (Str.chars p)) in
    if forallb (fun c => Ascii.eqb c "."%char) name then (p, "")
    else (Str.upto dotIndex p, Str.from dotIndex p)
  else (p, "").

(** [os.path.normpath(path)] *)
Fixpoint norm_comps (initial : bool) (comps : list string) (acc : list string)
  : list string :=
  match comps with
  | [] => rev acc
  | comp :: rest =>
      if String.eqb comp "" || String.eqb comp "." then norm_comps initial rest acc
      else if negb (String.eqb comp "..") then norm_comps initial rest (comp :: acc)
      else match acc with
           | [] => if initial then norm_comps initial rest acc
                   else norm_comps initial rest (comp :: acc)
           | top :: acc' =>
               if String.eqb top ".." then norm_comps initial rest (comp :: acc)
               else norm_comps initial rest acc'
           end
  end.

Definition normpath (path : string) : string :=
  if String.eqb path "" then "." else
  let slashes :=
    if Str.startswith "/" path then
      if Str.startswith "//" path && negb (Str.startswith "///" path)
      then "//" else "/"
    else "" in
  let comps := norm_comps (negb (String.eqb slashes "")) (Str.split "/"%char path) [] in
  let res := slashes +:+ Str.join "/" comps in
  if String.eqb res "" then "." else res.

(** [os.path.abspath(path)] in a process whose working directory is [cwd]. *)
Definition abspath (cwd path : string) : string :=
  normpath (if Str.startswith "/" path then path else join cwd path).

(** [os.path.split(p)]: the head loses its trailing slashes unless it is
    the root. *)
Definition split (p : string) : string * string :=
  let i := Str.rfind "/"%char p + 1 in
  let head := Str.upto i p in
  let tail := Str.from i p in
  (if negb (String.eqb head "")
      && negb (forallb (fun c => Ascii.eqb c "/"%char) (Str.chars head))
   then Str.rstrip "/"%char head else head,
   tail).

(** [os.path.dirname(p)] *)
Definition dirname (p : string) : string := fst (split p).

End Path.

(** ** Exceptions *)

Inductive errno := ENOENT | EACCES | EPERM | EEXIST | EISDIR | ENOTDIR | EBUSY | EIO.

(** The exception classes the module raises, catches or lets through.
    [OSError e] stands for the subclass Python picks from the error number
    (PEP 3151): [FileNotFoundError], [PermissionError], ...  [LockFailed]
    is [lockfile.LockFailed], [MujocoException] the class this module
    defines.  [Waits] is not an exception: it marks a call that never comes
    back, [LinkLockFile.acquire] polling without a timeout for a lock file
    that only another process removes; no [except] clause sees it and no
    statement after it runs. *)
Inductive exn :=
| OSError (e : errno)
| ShutilError (msg : string)
| ImportError (msg : string)
| RuntimeError (msg : string)
| AssertionError (msg : string)
| Exception (msg : string)
| CalledProcessError (argv : list string)
| ToolError (msg : string)
| LockFailed (lock_file : string)
| MujocoException (msg : string)
| UnicodeDecodeError
| KeyboardInterrupt
| Waits (lock_file : string).

Definition is_OSError (e : exn) : bool :=
  match e with OSError _ | ShutilError _ => true | _ => false end.

Definition is_PermissionError (e : exn) : bool :=
  match e with OSError EACCES | OSError EPERM => true | _ => false end.

Definition is_ImportError (e : exn) : bool :=
  match e with ImportError _ => true | _ => false end.

(** Everything but the exit-style [BaseException]s. *)
Definition is_Exception (e : exn) : bool :=
  match e with KeyboardInterrupt | Waits _ => false | _ => true end.

Definition is_FileExistsError (e : exn) : bool :=
  match e with OSError EEXIST => true | _ => false end.

Inductive result (A : Type) :=
| Ok (a : A)
| Raise (e : exn).
Arguments Ok {A} a.
Arguments Raise {A} e.

(** ** The world a call runs in *)

(** A directory entry.  [guard] is the error number the operating system
    answers an [unlink] of this file with, if it refuses. *)
Inductive node :=
| RegFile (data : string) (mtime : Z) (guard : option errno)
| Dir (mtime : Z).

Definition node_mtime (n : node) : Z :=
  match n with RegFile _ t _ => t | Dir t => t end.

Definition is_file (o : option node) : bool :=
  match o with Some (RegFile _ _ _) => true | _ => false end.

Definition is_dir (o : option node) : bool :=
  match o with Some (Dir _) => true | _ => false end.

Definition node_data (o : option node) : option string :=
  match o with Some (RegFile d _ _) => Some d | _ => None end.

Inductive event :=
| EvPrint (msg : string)
| EvMakedirs (path : string)
| EvAcquire (lock : string)
| EvRelease (lock : string)
| EvRemove (path : string) (refused : option errno)
| EvToolchain (build_base : string)
| EvCompile (name source : string)
| EvSubprocess (argv : list string)
| EvLoad (name path : string).

Record world := World {
  fs : gmap string node;
  environ : gmap string string;
  cwd : string;
  clock : Z;
  rng : nat;
  held : list string;
  trace : list event;
  (** paths at which the operating system refuses this process a new
      directory or lock file, with the error number it answers: [EACCES]
      below a directory the process may not write, [EROFS] on a read-only
      file system *)
  barred : gmap string errno;
}.

Definition set_fs (f : gmap string node) (w : world) : world :=
  World f (environ w) (cwd w) (clock w) (rng w) (held w) (trace w) (barred w).
Definition set_environ (e : gmap string string) (w : world) : world :=
  World (fs w) e (cwd w) (clock w) (rng w) (held w) (trace w) (barred w).
Definition set_clock (t : Z) (w : world) : world :=
  World (fs w) (environ w) (cwd w) t (rng w) (held w) (trace w) (barred w).
Definition set_rng (n : nat) (w : world) : world :=
  World (fs w) (environ w) (cwd w) (clock w) n (held w) (trace w) (barred w).
Definition set_held (h : list string) (w : world) : world :=
  World (fs w) (environ w) (cwd w) (clock w) (rng w) h (trace w) (barred w).
Definition log (ev : event) (w : world) : world :=
  World (fs w) (environ w) (cwd w) (clock w) (rng w) (held w) (trace w ++ [ev]) (barred w).

(** ** The monad of Python statements *)

Definition M (A : Type) : Type := world -> result A * world.

Definition ret {A} (a : A) : M A := fun w => (Ok a, w).
Definition raise {A} (e : exn) : M A := fun w => (Raise e, w).
Definition bind {A B} (m : M A) (k : A -> M B) : M B :=
  fun w => match m w with
           | (Ok a, w') => k a w'
           | (Raise e, w') => (Raise e, w')
           end.

Notation "'let*' x ':=' m 'in' k" := (bind m (fun x => k))
  (at level 10, x name, m at level 100, k at level 200).
Notation "m ';;;' k" := (bind m (fun _ => k))
  (at level 100, k at level 200, right associativity).

(** [try: body  except <class> as e: handler e]: the handler runs in the
    world the body left when it raised. *)
Definition try_except {A} (body : M A) (catches : exn -> bool) (handler : exn -> M A) : M A :=
  fun w => match body w with
           | (Raise e, w') => if catches e then handler e w' else (Raise e, w')
           | r => r
           end.

Definition get {A} (f : world -> A) : M A := fun w => (Ok (f w), w).
Definition modify (f : world -> world) : M unit := fun w => (Ok tt, f w).
Definition emit (ev : event) : M unit := modify (log ev).
Definition print (msg : string) : M unit := emit (EvPrint msg).

(** [for x in l: body x] *)
Fixpoint for_each {A} (l : list A) (body : A -> M unit) : M unit :=
  match l with
  | [] => ret tt
  | x :: l' => body x ;;; for_each l' body
  end.

(** Python truth value of a string *)
Definition truthy (o : option string) : bool :=
  match o with Some s => negb (String.eqb s "") | None => false end.

(** ** [os], [os.path], [shutil], [glob] and [lockfile] *)

Definition exists_ (p : string) : M bool := get (fun w => bool_decide (is_Some (fs w !! p))).

Definition getmtime (p : string) : M Z :=
  fun w => match fs w !! p with
           | Some n => (Ok (node_mtime n), w)
           | None => (Raise (OSError ENOENT), w)
           end.

(** [os.remove(p)] *)
Definition os_remove (p : string) : M unit :=
  fun w => match fs w !! p with
           | None => (Raise (OSError ENOENT), log (EvRemove p (Some ENOENT)) w)
           | Some (Dir _) => (Raise (OSError EISDIR), log (EvRemove p (Some EISDIR)) w)
           | Some (RegFile _ _ (Some e)) => (Raise (OSError e), log (EvRemove p (Some e)) w)
           | Some (RegFile _ _ None) => (Ok tt, log (EvRemove p None) (set_fs (delete p (fs w)) w))
           end.

(** [shutil.copyfile(src, dst)]: contents only, stamped with the current time. *)
Definition copyfile (src dst : string) : M unit :=
  fun w =>
    if String.eqb src dst then (Raise (ShutilError "same file"), w) else
    match fs w !! src with
    | None => (Raise (OSError ENOENT), w)
    | Some (Dir _) => (Raise (OSError EISDIR), w)
    | Some (RegFile d _ _) =>
        match fs w !! dst with
        | Some (Dir _) => (Raise (OSError EISDIR), w)
        | Some (RegFile _ _ g) => (Ok tt, set_fs (<[dst := RegFile d (clock w) g]> (fs w)) w)
        | None => (Ok tt, set_fs (<[dst := RegFile d (clock w) None]> (fs w)) w)
        end
    end.

(** [os.rename(src, dst)] (POSIX): the entry replaces the destination. *)
Definition os_rename (src dst : string) : M unit :=
  fun w =>
    match fs w !! src with
    | None => (Raise (OSError ENOENT), w)
    | Some n =>
        match n, fs w !! dst with
        | RegFile _ _ _, Some (Dir _) => (Raise (OSError EISDIR), w)
        | Dir _, Some (RegFile _ _ _) => (Raise (OSError ENOTDIR), w)
        | _, _ => (Ok tt, set_fs (<[dst := n]> (delete src (fs w))) w)
        end
    end.

(** [os.path.basename(p)] *)
Definition basename (p : string) : string := Str.from (Str.rfind "/"%char p + 1) p.

(** [shutil.move(src, dst)] on one file system: into [dst] when it is a
    directory (refusing to replace an entry there), else a rename. *)
Definition move (src dst : string) : M string :=
  let* dst_entry := get (fun w => fs w !! dst) in
  if is_dir dst_entry then
    let real_dst := Path.join dst (basename src) in
    let* taken := exists_ real_dst in
    if taken then raise (ShutilError ("Destination path '" +:+ real_dst +:+ "' already exists"))
    else os_rename src real_dst ;;; ret real_dst
  else os_rename src dst ;;; ret dst.

(** The entry at [p]; the root is a directory that is always there. *)
Definition entry (f : gmap string node) (p : string) : option node :=
  if negb (String.eqb p "") && forallb (fun c => Ascii.eqb c "/"%char) (Str.chars p)
  then Some (Dir 0) else f !! p.

(** [os.mkdir(name)].  A relative name without a directory part is made in
    the working directory, which is there. *)
Definition os_mkdir (name : string) : M unit :=
  fun w =>
    match entry (fs w) name with
    | Some _ => (Raise (OSError EEXIST), w)
    | None =>
        let parent := Path.dirname name in
        match (if String.eqb parent "" then Some (Dir 0) else entry (fs w) parent) with
        | None => (Raise (OSError ENOENT), w)
        | Some (RegFile _ _ _) => (Raise (OSError ENOTDIR), w)
        | Some (Dir _) =>
            match barred w !! name with
            | Some e => (Raise (OSError e), w)
            | None => (Ok tt, set_fs (<[name := Dir (clock w)]> (fs w)) w)
            end
        end
    end.

(** The last step of [os.makedirs(name, exist_ok=True)]: an [OSError] of
    [mkdir] counts only when [name] is not a directory afterwards. *)
Definition mkdir_exist_ok (name : string) : M unit :=
  try_except (os_mkdir name) is_OSError
    (fun e => let* d := get (fun w => is_dir (entry (fs w) name)) in
              if d then ret tt else raise e).

(** The body of [os.makedirs(name, exist_ok=True)]: a missing head is made
    first, by the same rule, and a [FileExistsError] from that is passed
    over.  The head is shorter than the name, so the length of the name
    bounds the recursion. *)
Fixpoint makedirs (fuel : nat) (name : string) : M unit :=
  let '(head, tail) := Path.split name in
  let '(head, tail) := if String.eqb tail "" then Path.split head else (head, tail) in
  let* finished :=
    (if negb (String.eqb head "") && negb (String.eqb tail "") then
       let* there := get (fun w => bool_decide (is_Some (entry (fs w) head))) in
       if there then ret false else
       match fuel with
       | O => ret false
       | S fuel' =>
           try_except (makedirs fuel' head) is_FileExistsError (fun _ => ret tt) ;;;
           ret (String.eqb tail ".")
       end
     else ret false) in
  if finished then ret tt else mkdir_exist_ok name.

(** [os.makedirs(p, exist_ok=True)] *)
Definition os_makedirs (p : string) : M unit :=
  emit (EvMakedirs p) ;;; makedirs (String.length p) p.

(** [os.environ.get(var)] *)
Definition getenv (var : string) : M (option string) := get (fun w => environ w !! var).

(** [LockBase.__init__]: the lock file of [path]. *)
Definition lock_file (path : string) (w : world) : string :=
  Path.abspath (cwd w) path +:+ ".lock".

(** Why [LinkLockFile.acquire] does not come back with the lock, if it does
    not.  It first creates a per-process file beside the lock file, which
    fails with [LockFailed] when the directory is missing, is not a
    directory or may not be written; it then links that file to the lock
    file, and as long as a lock file is there (another process holds the
    lock, or a crashed one left it) it sleeps and tries again.  A bar at
    the lock file's name stands for a directory that may not be written. *)
Definition lock_refusal (path : string) (w : world) : option exn :=
  let lf := lock_file path w in
  if negb (is_dir (entry (fs w) (Path.dirname lf))) then Some (LockFailed lf)
  else if bool_decide (is_Some (barred w !! lf)) then Some (LockFailed lf)
  else if bool_decide (is_Some (fs w !! lf)) then Some (Waits lf)
  else None.

(** [with LockFile(path): body].  When the lock is taken the body runs and
    the lock is released on every exit of the body.  The two files of the
    lock live from acquire to release only and no statement of the module
    names them: [held] stands for them, they are not entered in [fs]. *)
Definition with_LockFile {A} (path : string) (body : M A) : M A :=
  fun w =>
    match lock_refusal path w with
    | Some e => (Raise e, w)
    | None =>
        let w1 := log (EvAcquire path) (set_held (path :: held w) w) in
        let '(r, w2) := body w1 in
        (r, log (EvRelease path) (set_held (tail (held w2)) w2))
    end.

(** A name that [glob] reads letter by letter and in the working directory:
    not empty, without a separator and without the metacharacters
    [*], [?] and [[]. *)
Definition plain_name (name : string) : bool :=
  negb (String.eqb name "")
  && forallb (fun c => negb (bool_decide (c ∈ Str.chars "/*?["))) (Str.chars name).

(** [glob.glob(prefix + '*')] for a plain [prefix]: the entries whose name
    continues [prefix] within one directory level. *)
Definition glob_match (prefix k : string) : bool :=
  Str.startswith prefix k
  && negb (Str.contains "/" (Str.from (Z.of_nat (String.length prefix)) k)).

Definition glob_prefix (prefix : string) (f : gmap string node) : list string :=
  filter (fun k => Is_true (glob_match prefix k)) (elements (dom f)).

(** ** The host: process constants and external tools *)

(** [distutils.core.Extension], the fields the builders set. *)
Record Extension := MkExtension {
  ext_name : string;
  sources : list string;
  include_dirs : list string;
  libraries : list string;
  library_dirs : list string;
  extra_compile_args : list string;
  extra_link_args : list string;
  language : string;
  define_macros : list (string * option string);
  runtime_library_dirs : list string;
}.

(** A module object as far as this file looks into it: [module.lib.__fun]. *)
Record pymodule := MkModule {
  mod_name : string;
  mod_file : string;
  lib_fun : Z;
}.

Record host := Host {
  (** [sys.platform] *)
  sys_platform : string;
  (** [str(sys.version_info.major) + str(sys.version_info.minor)] *)
  python_version : string;
  (** [mujoco_py.version.get_version()] *)
  get_version : string;
  (** [abspath(dirname(__file__))] *)
  CYMJ_DIR_PATH : string;
  (** [np.get_include()] *)
  numpy_include : string;
  (** [sys.modules['glfw'].__file__] when glfw is already imported *)
  glfw_file : option string;
  (** the module global [mujoco_path] that [discover_mujoco()] returned *)
  mujoco_path_global : string;
  (** is this program found on the search path ([type cmd] exits 0 in the
      shell, [Popen] starts it) *)
  has_command : string -> bool;
  (** [dist.run_commands()] followed by [get_outputs()]: the distutils and
      Cython run for an extension with a build base, from an environment
      and a file system to a file system and the built path or an error *)
  run_commands : Extension -> string -> gmap string string -> gmap string node
                 -> gmap string node * result string;
  (** [ffibuilder.compile()] for a module name, a source and the
      (include, library dir, library) lists *)
  cffi_compile : string -> string -> list string * list string * list string
                 -> gmap string node -> gmap string node * result string;
  (** [ExtensionFileLoader(name, path).load_module()] on the entry found at [path] *)
  load_module : string -> string -> option node -> result pymodule;
  (** a tool that edits the file named last on its command line, given the
      words before it and the file's contents; [None] is a non-zero exit *)
  edit_tool : list string -> string -> option string;
  (** a tool that prints about that file; [None] is a non-zero exit *)
  query_tool : list string -> string -> option string;
  (** the [n]-th draw of [random.choice] over 26 letters *)
  random_draw : nat -> nat;
  (** [glob.glob(pattern)] for a pattern whose name part holds a glob
      metacharacter or a separator: the pattern language is not modelled,
      the host answers *)
  glob_magic : string -> gmap string node -> list string;
}.

Inductive BuilderClass :=
| MacExtensionBuilder
| LinuxCPUExtensionBuilder
| LinuxGPUExtensionBuilder
| WindowsExtensionBuilder.

Definition class_name (c : BuilderClass) : string :=
  match c with
  | MacExtensionBuilder => "MacExtensionBuilder"
  | LinuxCPUExtensionBuilder => "LinuxCPUExtensionBuilder"
  | LinuxGPUExtensionBuilder => "LinuxGPUExtensionBuilder"
  | WindowsExtensionBuilder => "WindowsExtensionBuilder"
  end.

(** A builder instance: its class and the attributes [__init__] sets. *)
Record builder := MkBuilder {
  klass : BuilderClass;
  mujoco_path : string;
  version : string;
  extension : Extension;
}.

Definition set_extension (e : Extension) (b : builder) : builder :=
  MkBuilder (klass b) (mujoco_path b) (version b) e.

(** Arguments of [build_callback_fn] as Python passes them. *)
Inductive pyobj :=
| PyList (items : list string)
| PyTuple (items : list string)
| PyStr (s : string)
| PyNone
| PyOther (str : string).

(** [str.lower()] on ASCII *)
Definition lower_char (c : ascii) : ascii :=
  let n := nat_of_ascii c in
  if (65 <=? n)%nat && (n <=? 90)%nat then ascii_of_nat (n + 32) else c.
Definition lower (s : string) : string := Str.of_chars (map lower_char (Str.chars s)).

(** [repr] of a string without quotes or backslashes, and [str] of a list of such. *)
Definition repr_str (s : string) : string := "'" +:+ s +:+ "'".
Definition str_list (l : list string) : string := "[" +:+ Str.join ", " (map repr_str l) +:+ "]".

Definition py_str (o : pyobj) : string :=
  match o with
  | PyList l => str_list l
  | PyTuple [x] => "(" +:+ repr_str x +:+ ",)"
  | PyTuple l => "(" +:+ Str.join ", " (map repr_str l) +:+ ")"
  | PyStr s => s
  | PyNone => "None"
  | PyOther s => s
  end.

Definition errno_str (e : errno) : string :=
  match e with
  | ENOENT => "[Errno 2] No such file or directory"
  | EACCES => "[Errno 13] Permission denied"
  | EPERM => "[Errno 1] Operation not permitted"
  | EEXIST => "[Errno 17] File exists"
  | EISDIR => "[Errno 21] Is a directory"
  | ENOTDIR => "[Errno 20] Not a directory"
  | EBUSY => "[Errno 16] Device or resource busy"
  | EIO => "[Errno 5] Input/output error"
  end.

Definition exn_str (e : exn) : string :=
  match e with
  | OSError n => errno_str n
  | ShutilError m | ImportError m | RuntimeError m | AssertionError m
  | Exception m | ToolError m => m
  | CalledProcessError argv => "Command " +:+ str_list argv +:+ " returned non-zero exit status"
  | LockFailed p => "failed to create " +:+ p
  | MujocoException m => m
  | UnicodeDecodeError => "'utf-8' codec can't decode bytes"
  | KeyboardInterrupt => ""
  | Waits _ => ""
  end.

Definition is_digit (c : ascii) : bool :=
  let n := nat_of_ascii c in (48 <=? n)%nat && (n <=? 57)%nat.

(** The pattern ['/usr/lib/nvidia-[0-9][0-9][0-9]'] *)
Definition nvidia_pattern (k : string) : bool :=
  Str.startswith "/usr/lib/nvidia-" k &&
  match Str.chars (Str.from 16 k) with
  | [a; b; c] => is_digit a && is_digit b && is_digit c
  | _ => false
  end.

Definition glob_nvidia (f : gmap string node) : list string :=
  filter (fun k => Is_true (nvidia_pattern k)) (elements (dom f)).

(** [sorted(paths)]: strings in code-point order *)
Definition sorted (l : list string) : list string := merge_sort String.le l.

Definition ascii_lowercase : list ascii := Str.chars "abcdefghijklmnopqrstuvwxyz".

(** ** The program *)

Section Program.

Context (H : host).

Definition lockpath : string := Path.join "/mujoco_py_apptainer" "mujocopy-buildlock".

(** [subprocess.check_call(argv)] for a tool that edits the file named
    last in [argv].  A program the system does not find is
    [FileNotFoundError]; a non-zero exit is [CalledProcessError]. *)
Definition check_call (argv : list string) : M unit :=
  emit (EvSubprocess argv) ;;;
  fun w =>
    if negb (has_command H (hd "" argv)) then (Raise (OSError ENOENT), w) else
    let file := List.last argv "" in
    match fs w !! file with
    | Some (RegFile d _ g) =>
        match edit_tool H (removelast argv) d with
        | Some d' => (Ok tt, set_fs (<[file := RegFile d' (clock w) g]> (fs w)) w)
        | None => (Raise (CalledProcessError argv), w)
        end
    | _ => (Raise (CalledProcessError argv), w)
    end.

(** [subprocess.check_output(argv).decode('utf-8')] for a tool that reads
    the file named last in [argv] *)
Definition check_output (argv : list string) : M string :=
  emit (EvSubprocess argv) ;;;
  fun w =>
    if negb (has_command H (hd "" argv)) then (Raise (OSError ENOENT), w) else
    match fs w !! List.last argv "" with
    | Some (RegFile d _ _) =>
        match query_tool H (removelast argv) d with
        | Some out => (Ok out, w)
        | None => (Raise (CalledProcessError argv), w)
        end
    | _ => (Raise (CalledProcessError argv), w)
    end.

Definition get_nvidia_lib_dir : M (option string) :=
  emit (EvSubprocess ["type nvidia-smi"]) ;;;
  let exists_nvidia_smi := has_command H "nvidia-smi" in
  if negb exists_nvidia_smi then ret None else
  let docker_path := "/usr/local/nvidia/lib64" in
  let* docker := exists_ docker_path in
  if docker then ret (Some docker_path) else
  let* paths := get (fun w => glob_nvidia (fs w)) in
  let paths := sorted paths in
  match last paths with
  | None => ret None
  | Some latest =>
      (if bool_decide (1 < length paths)%nat
       then print ("Choosing the latest nvidia driver: " +:+ latest
                   +:+ ", among " +:+ str_list paths)
       else ret tt) ;;;
      ret (Some latest)
  end.

Definition _ensure_set_env_var (var_name lib_path : string) : M unit :=
  let* value := getenv var_name in
  let* here := get cwd in
  let paths := Str.split ":"%char (default "" value) in
  let paths := map (Path.abspath here) paths in
  if negb (Str.mem lib_path paths) then
    raise (Exception (Str.LF +:+ "Missing path to your environment variable. " +:+ Str.LF
                      +:+ "Current values " +:+ var_name +:+ "=" +:+ default "" value +:+ Str.LF
                      +:+ "Please add following line to .bashrc:" +:+ Str.LF
                      +:+ "export " +:+ var_name +:+ "=$" +:+ var_name +:+ ":" +:+ lib_path))
  else ret tt.

Definition load_dynamic_ext (name path : string) : M pymodule :=
  emit (EvLoad name path) ;;;
  fun w => (load_module H name path (fs w !! path), w).

Definition fix_shared_library (so_file name library_path : string) : M unit :=
  check_call ["patchelf"; "--remove-rpath"; so_file] ;;;
  let* ldd_output := check_output ["ldd"; so_file] in
  (if Str.contains name ldd_output
   then check_call ["patchelf"; "--remove-needed"; name; so_file]
   else ret tt) ;;;
  check_call ["patchelf"; "--add-needed"; library_path; so_file].

Definition final_path (raw_cext_dll_path : string) : string :=
  let '(root, ext) := Path.splitext raw_cext_dll_path in
  root +:+ "_final" +:+ ext.

Definition manually_link_libraries (mujoco_path raw_cext_dll_path : string) : M string :=
  let final_cext_dll_path := final_path raw_cext_dll_path in
  let* present := exists_ final_cext_dll_path in
  let* fresh :=
    (if present then
       let* tf := getmtime final_cext_dll_path in
       let* tr := getmtime raw_cext_dll_path in
       ret (bool_decide (tr <= tf))
     else ret false) in
  if fresh then ret final_cext_dll_path else
  let tmp_final_cext_dll_path := final_cext_dll_path +:+ "~" in
  copyfile raw_cext_dll_path tmp_final_cext_dll_path ;;;
  let mj_bin_path := Path.join mujoco_path "bin" in
  let from_mujoco_path := "@executable_path/libmujoco200.dylib" in
  let to_mujoco_path := mj_bin_path +:+ "/libmujoco200.dylib" in
  check_call ["install_name_tool"; "-change"; from_mujoco_path; to_mujoco_path;
              tmp_final_cext_dll_path] ;;;
  let from_glfw_path := "libglfw.3.dylib" in
  let to_glfw_path := Path.join mj_bin_path "libglfw.3.dylib" in
  check_call ["install_name_tool"; "-change"; from_glfw_path; to_glfw_path;
              tmp_final_cext_dll_path] ;;;
  os_rename tmp_final_cext_dll_path final_cext_dll_path ;;;
  ret final_cext_dll_path.

(** *** class MujocoExtensionBuilder and its subclasses *)

Definition build_base (c : BuilderClass) : string := lower (class_name c).

Definition base_init (c : BuilderClass) (mujoco_path : string) : builder :=
  MkBuilder c mujoco_path
    (get_version H +:+ "_" +:+ python_version H +:+ "_" +:+ build_base c)
    (MkExtension "mujoco_py.cymj"
       [Path.join (CYMJ_DIR_PATH H) "cymj.pyx"]
       [CYMJ_DIR_PATH H; Path.join mujoco_path "include"; numpy_include H]
       ["mujoco200"]
       [Path.join mujoco_path "bin"]
       ["-fopenmp"; "-w"]
       ["-fopenmp"]
       "c" [] []).

Definition add_sources (l : list string) (e : Extension) : Extension :=
  MkExtension (ext_name e) (sources e ++ l) (include_dirs e) (libraries e) (library_dirs e)
    (extra_compile_args e) (extra_link_args e) (language e) (define_macros e)
    (runtime_library_dirs e).
Definition add_include_dirs (l : list string) (e : Extension) : Extension :=
  MkExtension (ext_name e) (sources e) (include_dirs e ++ l) (libraries e) (library_dirs e)
    (extra_compile_args e) (extra_link_args e) (language e) (define_macros e)
    (runtime_library_dirs e).
Definition add_libraries (l : list string) (e : Extension) : Extension :=
  MkExtension (ext_name e) (sources e) (include_dirs e) (libraries e ++ l) (library_dirs e)
    (extra_compile_args e) (extra_link_args e) (language e) (define_macros e)
    (runtime_library_dirs e).
Definition set_define_macros (l : list (string * option string)) (e : Extension) : Extension :=
  MkExtension (ext_name e) (sources e) (include_dirs e) (libraries e) (library_dirs e)
    (extra_compile_args e) (extra_link_args e) (language e) l (runtime_library_dirs e).
Definition set_runtime_library_dirs (l : list string) (e : Extension) : Extension :=
  MkExtension (ext_name e) (sources e) (include_dirs e) (libraries e) (library_dirs e)
    (extra_compile_args e) (extra_link_args e) (language e) (define_macros e) l.

(** [Builder(mujoco_path)] *)
Definition new_builder (c : BuilderClass) (mujoco_path : string) : M builder :=
  let b := base_init c mujoco_path in
  let bin := Path.join mujoco_path "bin" in
  match c with
  | WindowsExtensionBuilder =>
      let* path := getenv "PATH" in
      match path with
      | None => raise (Exception "KeyError: 'PATH'")
      | Some p =>
          modify (fun w => set_environ (<["PATH" := p +:+ ";" +:+ bin]> (environ w)) w) ;;;
          ret (set_extension
                 (add_sources [CYMJ_DIR_PATH H +:+ "/gl/dummyshim.c"] (extension b)) b)
      end
  | LinuxCPUExtensionBuilder =>
      ret (set_extension
             (set_runtime_library_dirs [bin]
                (add_libraries ["glewosmesa"; "OSMesa"; "GL"]
                   (add_sources [Path.join (Path.join (CYMJ_DIR_PATH H) "gl") "osmesashim.c"]
                      (extension b)))) b)
  | LinuxGPUExtensionBuilder =>
      ret (set_extension
             (set_runtime_library_dirs [bin]
                (add_libraries ["glewegl"]
                   (add_include_dirs [CYMJ_DIR_PATH H +:+ "/vendor/egl"]
                      (add_sources [CYMJ_DIR_PATH H +:+ "/gl/eglshim.c"] (extension b))))) b)
  | MacExtensionBuilder =>
      ret (set_extension
             (set_runtime_library_dirs [bin]
                (set_define_macros [("ONMAC", None)]
                   (add_libraries ["glfw.3"]
                      (add_sources [CYMJ_DIR_PATH H +:+ "/gl/dummyshim.c"] (extension b))))) b)
  end.

Definition generated_dir : string := Path.join (CYMJ_DIR_PATH H) "generated".

(** The scratch directory of a build: [build.build_base] *)
Definition pyxbld_dir (b : builder) : string :=
  Path.join generated_dir ("_pyxbld_" +:+ version b).

Definition get_so_file_path (b : builder) : string :=
  Path.join generated_dir ("cymj_" +:+ version b +:+ "_" +:+ python_version H +:+ ".so").

(** [MujocoExtensionBuilder._build_impl] *)
Definition base_build_impl (b : builder) : M string :=
  emit (EvToolchain (pyxbld_dir b)) ;;;
  fun w =>
    let '(f', r) := run_commands H (extension b) (pyxbld_dir b) (environ w) (fs w) in
    (r, set_fs f' w).

Definition c_compilers : list string :=
  ["/usr/local/bin/gcc-6"; "/usr/local/bin/gcc-7"; "/usr/local/bin/gcc-8";
   "/opt/local/bin/gcc-mp-6"; "/opt/local/bin/gcc-mp-7"; "/opt/local/bin/gcc-mp-8"].

(** [distutils.spawn.find_executable] on an absolute path *)
Definition find_executable (f : gmap string node) (c : string) : bool := is_file (f !! c).

Definition _build_impl (b : builder) : M string :=
  match klass b with
  | WindowsExtensionBuilder => base_build_impl b
  | LinuxCPUExtensionBuilder =>
      let* so_file_path := base_build_impl b in
      fix_shared_library so_file_path "libmujoco200.so" "libmujoco200.so" ;;;
      fix_shared_library so_file_path "libglewosmesa.so" "libglewosmesa.so" ;;;
      ret so_file_path
  | LinuxGPUExtensionBuilder =>
      let* so_file_path := base_build_impl b in
      fix_shared_library so_file_path "libOpenGL.so" "libOpenGL.so.0" ;;;
      fix_shared_library so_file_path "libEGL.so" "libEGL.so.1" ;;;
      fix_shared_library so_file_path "libmujoco200.so" "libmujoco200.so" ;;;
      fix_shared_library so_file_path "libglewegl.so" "libglewegl.so" ;;;
      ret so_file_path
  | MacExtensionBuilder =>
      let* cc := getenv "CC" in
      let* so_file_path :=
        (if negb (truthy cc) then
           let* files := get fs in
           match List.find (find_executable files) c_compilers with
           | None =>
               raise (RuntimeError
                        ("Could not find GCC executable." +:+ Str.LF +:+ Str.LF
                         +:+ "HINT: On OS X, install GCC with "
                         +:+ "`brew install gcc`. or "
                         +:+ "`port install gcc`."))
           | Some available_c_compiler =>
               modify (fun w => set_environ (<["CC" := available_c_compiler]> (environ w)) w) ;;;
               let* so := base_build_impl b in
               modify (fun w => set_environ (delete "CC" (environ w)) w) ;;;
               ret so
           end
         else base_build_impl b) in
      manually_link_libraries (mujoco_path b) so_file_path
  end.

(** [MujocoExtensionBuilder.build] *)
Definition build (b : builder) : M string :=
  let* built_so_file_path := _build_impl b in
  let new_so_file_path := get_so_file_path b in
  move built_so_file_path new_so_file_path ;;;
  ret new_so_file_path.

End Program.

Section Coordinator.

Context (H : host).

Definition glfw_warning : string :=
  Str.LF +:+ "WARNING: Existing glfw python module detected!" +:+ Str.LF +:+ Str.LF
  +:+ "MuJoCo comes with its own version of GLFW, so it's preferable to use that one."
  +:+ Str.LF +:+ Str.LF
  +:+ "The easy solution is to `import mujoco_py` _before_ `import glfw`." +:+ Str.LF.

(** Lines 65-82 of [load_cython_ext]: the class bound to [Builder]. *)
Definition select_builder (mujoco_path : string) : M BuilderClass :=
  let lib_path := Path.join mujoco_path "bin" in
  if String.eqb (sys_platform H) "darwin" then ret MacExtensionBuilder
  else if String.eqb (sys_platform H) "linux" then
    _ensure_set_env_var "LD_LIBRARY_PATH" lib_path ;;;
    let* force_cpu := getenv "MUJOCO_PY_FORCE_CPU" in
    let* gpu :=
      (match force_cpu with
       | None => let* d := get_nvidia_lib_dir H in ret (bool_decide (is_Some d))
       | Some _ => ret false
       end) in
    if gpu then
      let* d := get_nvidia_lib_dir H in
      (* a [None] here fails the membership test like any missing path *)
      _ensure_set_env_var "LD_LIBRARY_PATH" (default "None" d) ;;;
      ret LinuxGPUExtensionBuilder
    else ret LinuxCPUExtensionBuilder
  else if Str.startswith "win" (sys_platform H) then
    let var := "PATH" in
    let* value := getenv var in
    if match value with
       | None => true
       | Some v => negb (Str.mem lib_path (Str.split ";"%char v))
       end
    then raise (Exception ("Please add mujoco library to your PATH:" +:+ Str.LF
                           +:+ "set " +:+ var +:+ "=" +:+ lib_path +:+ ";%" +:+ var +:+ "%"))
    else ret WindowsExtensionBuilder
  else raise (RuntimeError ("Unsupported platform " +:+ sys_platform H)).

(** Lines 55-85: the glfw warning, the builder and its artifact path. *)
Definition resolve_builder (mujoco_path : string) : M builder :=
  let* here := get cwd in
  (match glfw_file H with
   | Some file =>
       if Str.contains "mujoco" (Path.abspath here file) then print glfw_warning else ret tt
   | None => ret tt
   end) ;;;
  let* Builder := select_builder mujoco_path in
  new_builder H Builder mujoco_path.

(** Lines 90-99: the forced rebuild. *)
Definition force_rebuild_purge (cext_so_path : string) : M unit :=
  let* force_rebuild := getenv "MUJOCO_PY_FORCE_REBUILD" in
  if truthy force_rebuild then
    os_makedirs lockpath ;;;
    with_LockFile lockpath
      (print ("Removing old mujoco_py cext " +:+ cext_so_path) ;;;
       try_except (os_remove cext_so_path) is_OSError (fun _ => ret tt))
  else ret tt.

(** Lines 105-108: the one rebuild, under the lock. *)
Definition rebuild_and_load (builder : builder) : M pymodule :=
  with_LockFile lockpath
    (let* cext_so_path := build H builder in
     load_dynamic_ext H "cymj" cext_so_path).

(** Lines 100-109: load what is cached, else rebuild. *)
Definition load_or_rebuild (builder : builder) (cext_so_path : string) : M pymodule :=
  let* present := exists_ cext_so_path in
  let* mod_ :=
    (if present then
       try_except
         (let* m := load_dynamic_ext H "cymj" cext_so_path in ret (Some m))
         is_ImportError
         (fun _ => print "Import error. Trying to rebuild mujoco_py." ;;; ret None)
     else ret None) in
  match mod_ with
  | Some m => ret m
  | None => rebuild_and_load builder
  end.

Definition load_cython_ext (mujoco_path : string) : M pymodule :=
  let* builder := resolve_builder mujoco_path in
  let cext_so_path := get_so_file_path H builder in
  force_rebuild_purge cext_so_path ;;;
  load_or_rebuild builder cext_so_path.

(** *** The runtime callback compiler *)

(** [glob.glob(name + '*')] *)
Definition glob_star (name : string) (f : gmap string node) : list string :=
  if plain_name name then glob_prefix name f else glob_magic H (name +:+ "*") f.

Definition build_fn_cleanup (name : string) : M unit :=
  let* debug := getenv "MUJOCO_PY_DEBUG_FN_BUILDER" in
  if negb (truthy debug) then
    let* files := get (fun w => glob_star name (fs w)) in
    for_each files (fun f =>
      try_except (os_remove f) is_PermissionError
        (fun e => print ("Error removing " +:+ f +:+ ", continuing anyway: " +:+ exn_str e)))
  else ret tt.

(** [isinstance(userdata_names, (list, tuple))], with the items when it holds *)
Definition list_or_tuple (o : pyobj) : option (list string) :=
  match o with
  | PyList l | PyTuple l => Some l
  | _ => None
  end.

(** ['_fn_' + ''.join(choice(ascii_lowercase) for _ in range(15))], with
    the draws taken from position [n] of the generator on *)
Definition fresh_name (n : nat) : string :=
  let letter k := nth (random_draw H (n + k) mod 26)%nat ascii_lowercase "a"%char in
  "_fn_" +:+ Str.of_chars (map letter (seq 0 15)).

Definition random_name : M string :=
  fun w => (Ok (fresh_name (rng w)), set_rng (rng w + 15)%nat w).

(** The loop over [enumerate(userdata_names)], from index [i] on *)
Fixpoint add_defines (source_string : string) (i : nat) (names : list string) : string :=
  match names with
  | [] => source_string
  | data_name :: rest =>
      add_defines
        (source_string +:+ ("#define " +:+ data_name +:+ " d->userdata[" +:+ pretty i +:+ "]"
                            +:+ Str.LF))
        (S i) rest
  end.

Definition make_source (function_string : string) (userdata_names : list string) : string :=
  let source_string := "#include <mujoco.h>" +:+ Str.LF in
  let source_string := add_defines source_string 0 userdata_names in
  let source_string := source_string +:+ function_string in
  source_string +:+ (Str.LF +:+ "uintptr_t __fun = (uintptr_t) fun;").

(** [ffibuilder.compile(verbose=True)] after [set_source] *)
Definition ffi_compile (name source_string : string) : M string :=
  emit (EvCompile name source_string) ;;;
  fun w =>
    let opts := ([Path.join (mujoco_path_global H) "include"],
                 [Path.join (mujoco_path_global H) "bin"],
                 ["mujoco200"]) in
    let '(f', r) := cffi_compile H name source_string opts (fs w) in
    (r, set_fs f' w).

Definition build_callback_fn (function_string : string) (userdata_names : pyobj) : M Z :=
  match list_or_tuple userdata_names with
  | None => raise (AssertionError ("invalid userdata_names: " +:+ py_str userdata_names))
  | Some names =>
      let* name := random_name in
      let source_string := make_source function_string names in
      let* library_path :=
        try_except (ffi_compile name source_string) is_Exception
          (fun e => build_fn_cleanup name ;;; raise e) in
      (if String.eqb (sys_platform H) "darwin" then
         let* fixed_library_path := manually_link_libraries H (mujoco_path_global H) library_path in
         move fixed_library_path library_path ;;; ret tt
       else ret tt) ;;;
      let* module_ := load_dynamic_ext H name library_path in
      build_fn_cleanup name ;;;
      ret (lib_fun module_)
  end.

End Coordinator.

(** ** Concrete hosts and worlds, for running the program *)

Module Demo.

Definition toolchain_ok (e : Extension) (base : string) (env : gmap string string)
    (f : gmap string node) : gmap string node * result string :=
  let out := base +:+ "/lib/cymj.so" in
  (<[out := RegFile "ELF" 7 None]> f, Ok out).

Definition toolchain_fails (e : Extension) (base : string) (env : gmap string string)
    (f : gmap string node) : gmap string node * result string :=
  (<[base +:+ "/temp/cymj.o" := RegFile "partial" 7 None]> f,
   Raise (ToolError "command 'gcc' failed with exit status 1")).

Definition compile_ok (name source : string) (opts : list string * list string * list string)
    (f : gmap string node) : gmap string node * result string :=
  (<[name +:+ ".so" := RegFile "lib" 7 None]>
     (<[name +:+ ".o" := RegFile "obj" 7 None]>
        (<[name +:+ ".c" := RegFile source 7 None]> f)),
   Ok (name +:+ ".so")).

(** The shared library comes out, and the operating system refuses to
    unlink it with [busy]. *)
Definition compile_guarded (busy : errno) (name source : string)
    (opts : list string * list string * list string)
    (f : gmap string node) : gmap string node * result string :=
  (<[name +:+ ".so" := RegFile "lib" 7 (Some busy)]>
     (<[name +:+ ".c" := RegFile source 7 None]> f),
   Ok (name +:+ ".so")).

Definition compile_fails (name source : string) (opts : list string * list string * list string)
    (f : gmap string node) : gmap string node * result string :=
  (<[name +:+ ".c" := RegFile source 7 None]> f,
   Raise (ToolError "VerificationError: LinkError")).

(** A loader that rejects files whose contents start with [truncated]. *)
Definition loader (name path : string) (n : option node) : result pymodule :=
  match n with
  | Some (RegFile d _ _) =>
      if Str.startswith "truncated" d
      then Raise (ImportError "file too short")
      else Ok (MkModule name path 4096)
  | _ => Raise (ImportError "cannot open shared object file")
  end.

Definition editor (argv : list string) (d : string) : option string :=
  Some (d +:+ "|" +:+ Str.join " " argv).

Definition reader (argv : list string) (d : string) : option string :=
  Some "libmujoco200.so => /opt/mujoco200/bin/libmujoco200.so".

Definition host_on (platform : string) (smi : bool)
    (tc : Extension -> string -> gmap string string -> gmap string node
          -> gmap string node * result string)
    (cc : string -> string -> list string * list string * list string
          -> gmap string node -> gmap string node * result string) : host :=
  Host platform "36" "2.0.2.5" "/site/mujoco_py" "/site/numpy/core/include" None
       "/opt/mujoco200" (fun c => if String.eqb c "nvidia-smi" then smi else true)
       tc cc loader editor reader (fun n => n) (fun _ _ => []).

Definition linux : host := host_on "linux" true toolchain_ok compile_ok.
Definition linux_no_smi : host := host_on "linux" false toolchain_ok compile_ok.
Definition linux_broken_gcc : host := host_on "linux" true toolchain_fails compile_fails.
Definition linux_busy : host := host_on "linux" true toolchain_ok (compile_guarded EBUSY).
Definition linux_denied : host := host_on "linux" true toolchain_ok (compile_guarded EACCES).
Definition mac : host := host_on "darwin" false toolchain_ok compile_ok.
Definition freebsd : host := host_on "freebsd12" false toolchain_ok compile_ok.

Definition world_of (f : gmap string node) (env : gmap string string) : world :=
  World f env "/home/user" 10 0 [] [] ∅.

Definition ld_env : gmap string string := {[ "LD_LIBRARY_PATH" := "/opt/mujoco200/bin" ]}.

Definition three_drivers : gmap string node :=
  {[ "/usr/lib/nvidia-415" := Dir 1; "/usr/lib/nvidia-450" := Dir 1;
     "/usr/lib/nvidia-410" := Dir 1 ]}.

Definition cpu_so : string := "/site/mujoco_py/generated/cymj_2.0.2.5_36_linuxcpuextensionbuilder_36.so".

Definition cpu_builder : builder :=
  match new_builder linux LinuxCPUExtensionBuilder "/opt/mujoco200" (world_of ∅ ∅) with
  | (Ok b, _) => b
  | _ => base_init linux LinuxCPUExtensionBuilder "/opt/mujoco200"
  end.

Definition cpu_env : gmap string string := <["MUJOCO_PY_FORCE_CPU" := "1"]> ld_env.

(** A cached artifact, and a forced rebuild requested. *)
Definition forced_world : world :=
  world_of {[ cpu_so := RegFile "ELF" 3 None ]} (<["MUJOCO_PY_FORCE_REBUILD" := "1"]> cpu_env).

(** A cached artifact cut short by a crashed build, on a machine where
    the lock directory is there. *)
Definition truncated_world : world :=
  world_of {[ cpu_so := RegFile "truncated" 3 None; "/mujoco_py_apptainer" := Dir 1 ]}
    cpu_env.

(** A raw Mach-O build output, not yet fixed up. *)
Definition raw_world : world := world_of {[ "/b/lib/cymj.so" := RegFile "macho" 20 None ]} ∅.

End Demo.

(** ** Vocabulary of the statements *)

Local Open Scope list_scope.

(** Every event a computation appends to the trace satisfies [P]. *)
Definition emits {A} (P : event -> Prop) (m : M A) : Prop :=
  forall w, exists evs, trace (snd (m w)) = trace w ++ evs /\ Forall P evs.

Definition is_toolchain (ev : event) : bool :=
  match ev with EvToolchain _ => true | _ => false end.

Definition is_remove (ev : event) : bool :=
  match ev with EvRemove _ _ => true | _ => false end.

Definition is_lock_or_build (ev : event) : bool :=
  match ev with
  | EvAcquire _ | EvRelease _ | EvToolchain _ | EvMakedirs _ | EvLoad _ _ | EvRemove _ _ => true
  | _ => false
  end.

(** How many times distutils ran in a trace. *)
Definition toolchain_runs (evs : list event) : nat := length (filter (fun ev => Is_true (is_toolchain ev)) evs).

(** The entry can be unlinked. *)
Definition removable (o : option node) : bool :=
  match o with Some (RegFile _ _ None) => true | _ => false end.

(** The entry is a file whose unlink the system refuses with a permission error. *)
Definition denied (o : option node) : bool :=
  match o with
  | Some (RegFile _ _ (Some e)) => is_PermissionError (OSError e)
  | _ => false
  end.

(** [p] lies below directory [d]. *)
Definition under_dir (d p : string) : Prop := exists rest, p = d +:+ "/" +:+ rest.

(** The compilation unit as the documentation lays it out: header, one
    define per name, the function, the pointer capture. *)
Definition define_line (i : nat) (name : string) : string :=
  "#define " +:+ name +:+ " d->userdata[" +:+ pretty i +:+ "]" +:+ Str.LF.

Definition compilation_unit (function_string : string) (names : list string) : string :=
  ("#include <mujoco.h>" +:+ Str.LF)
  +:+ String.concat "" (imap define_line names)
  +:+ function_string
  +:+ (Str.LF +:+ "uintptr_t __fun = (uintptr_t) fun;").

Definition no_toolchain (ev : event) : Prop := is_toolchain ev = false.

(** The directory the build lock lives in. *)
Definition lock_dir : string := "/mujoco_py_apptainer".

(** A directory is at [p], or nothing is and one can be made there. *)
Definition can_make (w : world) (p : string) : bool :=
  match fs w !! p with
  | Some (Dir _) => true
  | Some (RegFile _ _ _) => false
  | None => bool_decide (barred w !! p = None)
  end.

(** No lock file of [path] is there and one can be made. *)
Definition lock_free (path : string) (w : world) : bool :=
  bool_decide (barred w !! lock_file path w = None)
  && bool_decide (fs w !! lock_file path w = None).

(** A computation runs distutils at most once. *)
Definition at_most_one_run {A} (m : M A) : Prop :=
  forall w, exists evs, trace (snd (m w)) = trace w ++ evs /\ (toolchain_runs evs <= 1)%nat.

(** The directory part [os.path.join] puts before a relative name. *)
Definition dir_prefix (a : string) : string :=
  if String.eqb a "" || Str.endswith Path.sep a then a else a +:+ Path.sep.

(** Whatever [m] does, the entry at [q] is afterwards what it was. *)
Definition preserves {A} (q : string) (m : M A) : Prop :=
  forall w, fs (snd (m w)) !! q = fs w !! q.

(** The body of the loop in [build_fn_cleanup]. *)
Definition remove_or_log (f : string) : M unit :=
  try_except (os_remove f) is_PermissionError
    (fun e => print ("Error removing " +:+ f +:+ ", continuing anyway: " +:+ exn_str e)).

(** The refusal to unlink [k] was printed. *)
Definition refusal_logged (k : string) (evs : list event) : Prop :=
  exists e, is_PermissionError e = true
            /\ In (EvPrint ("Error removing " +:+ k +:+ ", continuing anyway: " +:+ exn_str e)) evs.

(** A computation that leaves the environment variables alone. *)
Definition keeps_environ {A} (m : M A) : Prop := forall w, environ (snd (m w)) = environ w.

Definition no_remove (ev : event) : Prop := is_remove ev = false.

(** The assumption on distutils: a run leaves the entry at path [c] alone
    and, when it succeeds, names an output below the scratch directory. *)
Definition toolchain_confined (H : host) (b : builder) (c : string) : Prop :=
  forall env f,
    fst (run_commands H (extension b) (pyxbld_dir H b) env f) !! c = f !! c
    /\ forall p, snd (run_commands H (extension b) (pyxbld_dir H b) env f) = Ok p ->
                 under_dir (pyxbld_dir H b) p.

(** What follows a successful compilation: lines 485-492. *)
Definition load_and_clean (H : host) (name library_path : string) : M Z :=
  (if String.eqb (sys_platform H) "darwin" then
     let* fixed_library_path := manually_link_libraries H (mujoco_path_global H) library_path in
     move fixed_library_path library_path ;;; ret tt
   else ret tt) ;;;
  let* module_ := load_dynamic_ext H name library_path in
  build_fn_cleanup H name ;;;
  ret (lib_fun module_).

(** Lines 485-489: fix the library on darwin, then load it. *)
Definition fix_and_load (H : host) (name library_path : string) : M pymodule :=
  (if String.eqb (sys_platform H) "darwin" then
     let* fixed_library_path := manually_link_libraries H (mujoco_path_global H) library_path in
     move fixed_library_path library_path ;;; ret tt
   else ret tt) ;;;
  load_dynamic_ext H name library_path.

(** The world in which [ffibuilder.compile] has just returned or raised. *)
Definition compiled (H : host) (function_string : string) (names : list string) (w : world)
  : result string * world :=
  ffi_compile H (fresh_name H (rng w)) (make_source function_string names)
    (set_rng (rng w + 15)%nat w).

(** Lines 169-193 of [manually_link_libraries]: regenerate the final
    artifact from the raw one. *)
Definition relink (H : host) (mujoco_path raw : string) : M string :=
  copyfile raw (final_path raw +:+ "~") ;;;
  check_call H (["install_name_tool"; "-change"; "@executable_path/libmujoco200.dylib";
                 Path.join mujoco_path "bin" +:+ "/libmujoco200.dylib"]
                ++ [final_path raw +:+ "~"]) ;;;
  check_call H (["install_name_tool"; "-change"; "libglfw.3.dylib";
                 Path.join (Path.join mujoco_path "bin") "libglfw.3.dylib"]
                ++ [final_path raw +:+ "~"]) ;;;
  os_rename (final_path raw +:+ "~") (final_path raw) ;;;
  ret (final_path raw).

(** ** The rest of the module: compiler flags, warnings, the functions table *)

(** [l.remove(x)]: [l] without its first [x]; [None] is ValueError. *)
Fixpoint list_remove (x : string) (l : list string) : option (list string) :=
  match l with
  | [] => None
  | y :: l' => if String.eqb y x then Some l' else option_map (cons y) (list_remove x l')
  end.

(** The try block of [custom_build_ext.build_extensions] on
    [self.compiler.compiler_so]; [None] is a compiler object without that
    attribute.  AttributeError and ValueError are both passed over. *)
Definition strip_strict_prototypes (compiler_so : option (list string))
  : option (list string) :=
  match compiler_so with
  | None => None
  | Some flags => Some (default flags (list_remove "-Wstrict-prototypes" flags))
  end.

(** Strict UTF-8 as [bytes.decode()] checks it: shortest forms only, no
    surrogates, nothing above U+10FFFF, no sequence cut short. *)
Fixpoint utf8_valid (l : list N) : bool :=
  let cont b := ((128 <=? b) && (b <=? 191))%N in
  match l with
  | [] => true
  | b0 :: r0 =>
      if (b0 <? 128)%N then utf8_valid r0
      else if ((194 <=? b0) && (b0 <=? 223))%N then
        match r0 with
        | b1 :: r1 => cont b1 && utf8_valid r1
        | _ => false
        end
      else if ((224 <=? b0) && (b0 <=? 239))%N then
        match r0 with
        | b1 :: b2 :: r2 =>
            (if (b0 =? 224)%N then ((160 <=? b1) && (b1 <=? 191))%N
             else if (b0 =? 237)%N then ((128 <=? b1) && (b1 <=? 159))%N
             else cont b1)
            && cont b2 && utf8_valid r2
        | _ => false
        end
      else if ((240 <=? b0) && (b0 <=? 244))%N then
        match r0 with
        | b1 :: b2 :: b3 :: r3 =>
            (if (b0 =? 240)%N then ((144 <=? b1) && (b1 <=? 191))%N
             else if (b0 =? 244)%N then ((128 <=? b1) && (b1 <=? 143))%N
             else cont b1)
            && cont b2 && cont b3 && utf8_valid r3
        | _ => false
        end
      else false
  end.

(** [warn_bytes.decode()]: the text, kept in its UTF-8 form, or [None] for
    UnicodeDecodeError.  The patterns searched for below are ASCII, and an
    ASCII byte never lies inside a longer sequence, so searching and
    appending on the UTF-8 form agree with Python's on the text. *)
Definition decode (warn_bytes : list Byte.byte) : option string :=
  if utf8_valid (map Byte.to_N warn_bytes) then Some (string_of_list_byte warn_bytes)
  else None.

(** [user_warning_raise_exception(warn_bytes)]: the exception it raises
    (every path through it ends in a [raise]). *)
Definition user_warning_raise_exception (warn_bytes : list Byte.byte) : exn :=
  match decode warn_bytes with
  | None => UnicodeDecodeError
  | Some warn =>
      if Str.contains "Pre-allocated constraint buffer is full" warn
      then MujocoException (warn +:+ "Increase njmax in mujoco XML")
      else if Str.contains "Pre-allocated contact buffer is full" warn
      then MujocoException (warn +:+ "Increase njconmax in mujoco XML")
      else if Str.contains "Unknown warning type" warn
      then MujocoException (warn +:+ "Check for NaN in simulation.")
      else MujocoException ("Got MuJoCo Warning: " +:+ warn)
  end.

(** The warning callbacks a simulation can hold. *)
Inductive warning_callback :=
| user_warning_raise_exception_cb
| user_warning_ignore_exception_cb
| other_callback (id : nat).

(** [cymj]'s callback slot as this module uses it: a state with a getter
    and a setter. *)
Record callback_slot := MkSlot {
  slot_state : Type;
  get_warning_callback : slot_state -> warning_callback;
  set_warning_callback : warning_callback -> slot_state -> slot_state;
}.

(** [with ignore_mujoco_warnings(): body]: [__enter__] keeps the callback
    found and installs the ignoring one, [__exit__] puts the kept one back
    and lets an exception of the body through. *)
Definition with_ignore_mujoco_warnings {A} (C : callback_slot)
    (body : slot_state C -> result A * slot_state C)
  : slot_state C -> result A * slot_state C :=
  fun s =>
    let prev_user_warning := get_warning_callback C s in
    let s1 := set_warning_callback C user_warning_ignore_exception_cb s in
    let '(r, s2) := body s1 in
    (r, set_warning_callback C prev_user_warning s2).

(** Lines 513-520: every attribute of [cymj] whose name starts with [_mj]
    is set on [functions] under the name without its first character. *)
Definition expose_step {V} (cymj : gmap string V) (functions : gmap string V)
    (func_name : string) : gmap string V :=
  if Str.startswith "_mj" func_name then
    match cymj !! func_name with
    | Some f => <[Str.from 1 func_name := f]> functions
    | None => functions
    end
  else functions.

Definition expose_functions {V} (cymj : gmap string V) : gmap string V :=
  foldl (expose_step cymj) ∅ (elements (dom cymj)).

(** A computation that leaves a component of the world alone. *)
Definition keeps {A X} (proj : world -> X) (m : M A) : Prop :=
  forall w, proj (snd (m w)) = proj w.

(** A component that files, environment and trace do not enter. *)
Definition apart {X} (proj : world -> X) : Prop :=
  (forall w ev, proj (log ev w) = proj w)
  /\ (forall w f, proj (set_fs f w) = proj w)
  /\ (forall w e, proj (set_environ e w) = proj w).

Definition is_lock_event (ev : event) : bool :=
  match ev with EvAcquire _ | EvRelease _ => true | _ => false end.

(** Replays the lock events of a trace from a state (holding the build
    lock or not): [None] when the lock is taken while held, released while
    free, or when distutils runs or a file is removed while it is free. *)
Fixpoint lock_walk (holding : bool) (evs : list event) : option bool :=
  match evs with
  | [] => Some holding
  | EvAcquire _ :: rest => if holding then None else lock_walk true rest
  | EvRelease _ :: rest => if holding then lock_walk false rest else None
  | EvToolchain _ :: rest | EvRemove _ _ :: rest =>
      if holding then lock_walk true rest else None
  | _ :: rest => lock_walk holding rest
  end.

(** Events that need no lock and do not change it. *)
Definition is_neutral (ev : event) : bool :=
  match ev with
  | EvAcquire _ | EvRelease _ | EvToolchain _ | EvRemove _ _ => false
  | _ => true
  end.

(** A computation whose events take the lock state from [b1] to [b2]. *)
Definition walks {A} (b1 b2 : bool) (m : M A) : Prop :=
  forall w, exists evs, trace (snd (m w)) = trace w ++ evs /\ lock_walk b1 evs = Some b2.

Module Samples.

(** A callback slot that is just the callback held. *)
Definition plain_slot : callback_slot :=
  MkSlot warning_callback (fun s => s) (fun c _ => c).

(** A body that installs a callback of its own and then fails. *)
Definition rude_body (s : warning_callback) : result unit * warning_callback :=
  (Raise (RuntimeError "simulation diverged"), other_callback 7).

(** The GPU builder of the sample linux host, for another MuJoCo directory. *)
Definition gpu_builder : builder :=
  match new_builder Demo.linux LinuxGPUExtensionBuilder "/opt/mujoco210"
          (Demo.world_of ∅ ∅) with
  | (Ok b, _) => b
  | _ => base_init Demo.linux LinuxGPUExtensionBuilder "/opt/mujoco210"
  end.

(** The macOS builder of the sample mac host, and a machine where only
    gcc-7 of the known compilers is installed and CC is unset. *)
Definition mac_builder : builder :=
  match new_builder Demo.mac MacExtensionBuilder "/opt/mujoco200"
          (Demo.world_of ∅ ∅) with
  | (Ok b, _) => b
  | _ => base_init Demo.mac MacExtensionBuilder "/opt/mujoco200"
  end.

Definition mac_world : world :=
  Demo.world_of {[ "/usr/local/bin/gcc-7" := RegFile "gcc" 1 None ]} ∅.

(** A cffi whose library comes out cut short, so that the loader rejects
    it. *)
Definition compile_truncated (name source : string)
    (opts : list string * list string * list string)
    (f : gmap string node) : gmap string node * result string :=
  (<[name +:+ ".so" := RegFile "truncated" 7 None]>
     (<[name +:+ ".c" := RegFile source 7 None]> f),
   Ok (name +:+ ".so")).

Definition linux_bad_lib : host :=
  Demo.host_on "linux" true Demo.toolchain_ok compile_truncated.

(** A forced rebuild of an artifact that the system does not let the
    caller unlink. *)
Definition refused_world : world :=
  Demo.world_of {[ Demo.cpu_so := RegFile "ELF" 3 (Some EACCES);
                   "/mujoco_py_apptainer" := Dir 1 ]}
    (<["MUJOCO_PY_FORCE_REBUILD" := "1"]> Demo.cpu_env).

(** A mac on which install_name_tool is there and exits non-zero. *)
Definition mac_bad_tool : host :=
  Host "darwin" "36" "2.0.2.5" "/site/mujoco_py" "/site/numpy/core/include" None
       "/opt/mujoco200" (fun _ => true) Demo.toolchain_ok Demo.compile_ok Demo.loader
       (fun _ _ => None) Demo.reader (fun n => n) (fun _ _ => []).

(** A raw build output beside a file that happens to bear the staging name. *)
Definition staged_world : world :=
  Demo.world_of {[ "/b/lib/cymj.so" := RegFile "macho" 20 None;
                   "/b/lib/cymj_final.so~" := RegFile "notes" 5 None ]} ∅.

(** A cffi that gives up after writing the source file, on a system that
    refuses to unlink that file with [busy]. *)
Definition compile_fails_guarded (busy : errno) (name source : string)
    (opts : list string * list string * list string)
    (f : gmap string node) : gmap string node * result string :=
  (<[name +:+ ".c" := RegFile source 7 (Some busy)]> f,
   Raise (ToolError "VerificationError: LinkError")).

Definition linux_fails_busy : host :=
  Demo.host_on "linux" true Demo.toolchain_ok (compile_fails_guarded EBUSY).

End Samples.

(** The commands of [fix_shared_library] in the order it issues them;
    [found] is whether the output of ldd mentions [name]. *)
Definition fix_commands (so_file name library_path : string) (found : bool)
  : list (list string) :=
  ["patchelf"; "--remove-rpath"; so_file] :: ["ldd"; so_file]
  :: (if found then [["patchelf"; "--remove-needed"; name; so_file]] else [])
  ++ [["patchelf"; "--add-needed"; library_path; so_file]].

(** ** The library functions on sample inputs *)

Example splitext_so : Path.splitext "/a/b.c/cymj.cpython-36m.so" = ("/a/b.c/cymj.cpython-36m", ".so").
Proof. reflexivity. Qed.
Example splitext_hidden : Path.splitext "/a/.bashrc" = ("/a/.bashrc", "").
Proof. reflexivity. Qed.
Example splitext_dir_dot : Path.splitext "/a.b/c" = ("/a.b/c", "").
Proof. reflexivity. Qed.
Example normpath_dots : Path.normpath "/a/./b/../c//d/" = "/a/c/d".
Proof. reflexivity. Qed.
Example abspath_rel : Path.abspath "/home/u" "../m/bin" = "/home/m/bin".
Proof. reflexivity. Qed.
Example join_abs : Path.join "/a" "/b" = "/b".
Proof. reflexivity. Qed.
Example join_rel : Path.join "/a" "b" = "/a/b".
Proof. reflexivity. Qed.

Example nvidia_pattern_yes : nvidia_pattern "/usr/lib/nvidia-450" = true.
Proof. reflexivity. Qed.
Example nvidia_pattern_long : nvidia_pattern "/usr/lib/nvidia-4500" = false.
Proof. reflexivity. Qed.
Example sorted_three :
  sorted ["/usr/lib/nvidia-450"; "/usr/lib/nvidia-410"; "/usr/lib/nvidia-415"]
  = ["/usr/lib/nvidia-410"; "/usr/lib/nvidia-415"; "/usr/lib/nvidia-450"].
Proof. vm_compute. reflexivity. Qed.
Example lower_class : lower "LinuxGPUExtensionBuilder" = "linuxgpuextensionbuilder".
Proof. reflexivity. Qed.

Example make_source_my_sum :
  make_source "void fun(const mjModel* m, mjData* d) {}" ["my_sum"; "other"]
  = "#include <mujoco.h>" +:+ Str.LF
    +:+ "#define my_sum d->userdata[0]" +:+ Str.LF
    +:+ "#define other d->userdata[1]" +:+ Str.LF
    +:+ "void fun(const mjModel* m, mjData* d) {}" +:+ Str.LF
    +:+ "uintptr_t __fun = (uintptr_t) fun;".
Proof. vm_compute. reflexivity. Qed.

Example final_path_so : final_path "/b/lib/cymj.cpython-36m.so" = "/b/lib/cymj.cpython-36m_final.so".
Proof. reflexivity. Qed.

(** ** Laws of the monad and of the primitives *)

Section Laws.

Context {A B : Type}.

Lemma bind_ok (m : M A) (k : A -> M B) w a w' :
  m w = (Ok a, w') -> bind m k w = k a w'.
Proof. intros E. unfold bind. by rewrite E. Qed.

Lemma bind_raise (m : M A) (k : A -> M B) w e w' :
  m w = (Raise e, w') -> bind m k w = (Raise e, w').
Proof. intros E. unfold bind. by rewrite E. Qed.

Lemma emits_ret P (a : A) : emits P (ret a).
Proof. intros w. exists []. by rewrite app_nil_r. Qed.

Lemma emits_raise P e : emits P (@raise A e).
Proof. intros w. exists []. by rewrite app_nil_r. Qed.

Lemma emits_get P (f : world -> A) : emits P (get f).
Proof. intros w. exists []. by rewrite app_nil_r. Qed.

Lemma emits_bind P (m : M A) (k : A -> M B) :
  emits P m -> (forall a, emits P (k a)) -> emits P (bind m k).
Proof.
  intros Hm Hk w. unfold bind. destruct (Hm w) as (evs & E & F).
  destruct (m w) as [[a|e] w']; simpl in *.
  - destruct (Hk a w') as (evs' & E' & F').
    exists (evs ++ evs'). rewrite E', E, app_assoc. split; [done | by apply Forall_app].
  - by exists evs.
Qed.

Lemma emits_try_except P (m : M A) c h :
  emits P m -> (forall e, emits P (h e)) -> emits P (try_except m c h).
Proof.
  intros Hm Hh w. unfold try_except. destruct (Hm w) as (evs & E & F).
  destruct (m w) as [[a|e] w']; simpl in *; [by exists evs |].
  destruct (c e); [| by exists evs].
  destruct (Hh e w') as (evs' & E' & F').
  exists (evs ++ evs'). rewrite E', E, app_assoc. split; [done | by apply Forall_app].
Qed.

Lemma emits_with_LockFile (P : event -> Prop) path (m : M A) :
  P (EvAcquire path) -> P (EvRelease path) -> emits P m -> emits P (with_LockFile path m).
Proof.
  intros Pa Pr Hm w. unfold with_LockFile.
  destruct (lock_refusal path w); [exists []; cbn [snd]; by rewrite app_nil_r |].
  destruct (Hm (log (EvAcquire path) (set_held (path :: held w) w))) as (evs & E & F).
  destruct (m _) as [r w2]; simpl in *.
  exists (EvAcquire path :: evs ++ [EvRelease path]).
  rewrite E, <- !app_assoc. split; [done |].
  constructor; [done |]. apply Forall_app. split; [done | by constructor].
Qed.

End Laws.

Lemma emits_emit P ev : P ev -> emits P (emit ev).
Proof. intros Pev w. exists [ev]. split; [done | by constructor]. Qed.

Lemma emits_modify_env P (f : world -> gmap string string) :
  emits P (modify (fun w => set_environ (f w) w)).
Proof. intros w. exists []. by rewrite app_nil_r. Qed.

Lemma emits_for_each {A} P (l : list A) (body : A -> M unit) :
  (forall x, emits P (body x)) -> emits P (for_each l body).
Proof.
  intros Hb. induction l as [|x l IH]; simpl.
  - apply emits_ret.
  - apply emits_bind; auto.
Qed.

Lemma emits_exists_ P p : emits P (exists_ p).
Proof. apply emits_get. Qed.

Lemma emits_getenv P v : emits P (getenv v).
Proof. apply emits_get. Qed.

Lemma emits_getmtime P p : emits P (getmtime p).
Proof. intros w. exists []. rewrite app_nil_r. unfold getmtime. by case_match. Qed.

Lemma emits_copyfile P a b : emits P (copyfile a b).
Proof. intros w. exists []. rewrite app_nil_r. unfold copyfile. by repeat case_match. Qed.

Lemma emits_os_rename P a b : emits P (os_rename a b).
Proof. intros w. exists []. rewrite app_nil_r. unfold os_rename. by repeat case_match. Qed.

Lemma emits_move P a b : emits P (move a b).
Proof.
  unfold move. apply emits_bind; [apply emits_get |]. intros o.
  destruct (is_dir o).
  - apply emits_bind; [apply emits_exists_ |]. intros [|]; [apply emits_raise |].
    apply emits_bind; [apply emits_os_rename | intros; apply emits_ret].
  - apply emits_bind; [apply emits_os_rename | intros; apply emits_ret].
Qed.

Lemma emits_os_remove (P : event -> Prop) p : (forall r, P (EvRemove p r)) -> emits P (os_remove p).
Proof.
  intros Pr w. unfold os_remove.
  repeat case_match; simpl; eexists [_]; (split; [reflexivity | by constructor]).
Qed.

Lemma set_fs_set_fs f g w : set_fs f (set_fs g w) = set_fs f w.
Proof. reflexivity. Qed.

Lemma set_fs_fs w : set_fs (fs w) w = w.
Proof. by destruct w. Qed.

Lemma only_fs_ret {A} (a : A) w : exists f, snd (ret a w) = set_fs f w.
Proof. exists (fs w). symmetry. apply set_fs_fs. Qed.

Lemma only_fs_raise {A} e w : exists f, snd (@raise A e w) = set_fs f w.
Proof. exists (fs w). symmetry. apply set_fs_fs. Qed.

Lemma only_fs_get {A} (g : world -> A) w : exists f, snd (get g w) = set_fs f w.
Proof. exists (fs w). symmetry. apply set_fs_fs. Qed.

Lemma only_fs_bind {A B} (m : M A) (k : A -> M B) :
  (forall w, exists f, snd (m w) = set_fs f w) ->
  (forall a w, exists f, snd (k a w) = set_fs f w) ->
  forall w, exists f, snd (bind m k w) = set_fs f w.
Proof.
  intros Hm Hk w. unfold bind. destruct (Hm w) as [f E].
  destruct (m w) as [[a|e] w1]; cbn [snd] in *; subst w1; [| by exists f].
  destruct (Hk a (set_fs f w)) as [f' E']. exists f'. by rewrite E'.
Qed.

Lemma only_fs_try_except {A} (m : M A) c h :
  (forall w, exists f, snd (m w) = set_fs f w) ->
  (forall e w, exists f, snd (h e w) = set_fs f w) ->
  forall w, exists f, snd (try_except m c h w) = set_fs f w.
Proof.
  intros Hm Hh w. unfold try_except. destruct (Hm w) as [f E].
  destruct (m w) as [[a|e] w1]; cbn [snd] in *; subst w1; [by exists f |].
  destruct (c e); [| by exists f].
  destruct (Hh e (set_fs f w)) as [f' E']. exists f'. by rewrite E'.
Qed.

Lemma os_mkdir_only_fs name w : exists f, snd (os_mkdir name w) = set_fs f w.
Proof.
  unfold os_mkdir.
  destruct (entry (fs w) name); [apply (only_fs_raise (A := unit)) |].
  destruct (if (Path.dirname name =? "")%string then _ else _) as [[d t g|t]|];
    try apply (only_fs_raise (A := unit)).
  destruct (barred w !! name); [apply (only_fs_raise (A := unit)) |].
  by eexists.
Qed.

Lemma makedirs_only_fs fuel : forall name w, exists f, snd (makedirs fuel name w) = set_fs f w.
Proof.
  assert (Last : forall name w, exists f, snd (mkdir_exist_ok name w) = set_fs f w).
  { intros name. apply only_fs_try_except; [apply os_mkdir_only_fs |].
    intros e. apply only_fs_bind; [apply only_fs_get |].
    intros [|]; [apply only_fs_ret | apply only_fs_raise]. }
  induction fuel as [|fuel IH]; intros name; cbn [makedirs];
    destruct (Path.split name) as [head tail];
    destruct (if (tail =? "")%string then Path.split head else (head, tail)) as [head' tail'];
    (apply only_fs_bind; [| intros [|]; [apply only_fs_ret | apply Last]]);
    (destruct (negb (head' =? "")%string && negb (tail' =? "")%string);
     [| apply only_fs_ret]);
    (apply only_fs_bind; [apply only_fs_get |]);
    (intros [|]; [apply only_fs_ret |]).
  - apply only_fs_ret.
  - apply only_fs_bind; [| intros _; apply only_fs_ret].
    apply only_fs_try_except; [apply IH | intros _; apply only_fs_ret].
Qed.

Lemma emits_os_makedirs (P : event -> Prop) p : P (EvMakedirs p) -> emits P (os_makedirs p).
Proof.
  intros Pm. unfold os_makedirs. apply emits_bind; [by apply emits_emit |].
  intros _ w. exists []. rewrite app_nil_r.
  destruct (makedirs_only_fs (String.length p) p w) as [f ->].
  split; [reflexivity | constructor].
Qed.

(** ** What the program's functions append to the trace *)

Section Traces.

Context (H : host) (P : event -> Prop).

Lemma emits_check_call argv : P (EvSubprocess argv) -> emits P (check_call H argv).
Proof.
  intros Pa. unfold check_call. apply emits_bind; [by apply emits_emit |].
  intros _ w. exists []. rewrite app_nil_r. by repeat case_match.
Qed.

Lemma emits_check_output argv : P (EvSubprocess argv) -> emits P (check_output H argv).
Proof.
  intros Pa. unfold check_output. apply emits_bind; [by apply emits_emit |].
  intros _ w. exists []. rewrite app_nil_r. by repeat case_match.
Qed.

Lemma emits_load_dynamic_ext name path :
  P (EvLoad name path) -> emits P (load_dynamic_ext H name path).
Proof.
  intros Pa. unfold load_dynamic_ext. apply emits_bind; [by apply emits_emit |].
  intros _ w. exists []. by rewrite app_nil_r.
Qed.

Lemma emits_fix_shared_library so name lib :
  (forall argv, P (EvSubprocess argv)) -> emits P (fix_shared_library H so name lib).
Proof.
  intros Ps. unfold fix_shared_library.
  apply emits_bind; [by apply emits_check_call |]. intros _.
  apply emits_bind; [by apply emits_check_output |]. intros out.
  apply emits_bind; [| intros _; by apply emits_check_call].
  destruct (Str.contains name out); [by apply emits_check_call | apply emits_ret].
Qed.

Lemma emits_manually_link_libraries mp raw :
  (forall argv, P (EvSubprocess argv)) -> emits P (manually_link_libraries H mp raw).
Proof.
  intros Ps. unfold manually_link_libraries.
  apply emits_bind; [apply emits_exists_ |]. intros present.
  apply emits_bind.
  { destruct present; [| apply emits_ret].
    apply emits_bind; [apply emits_getmtime |]. intros tf.
    apply emits_bind; [apply emits_getmtime |]. intros tr. apply emits_ret. }
  intros [|]; [apply emits_ret |].
  apply emits_bind; [apply emits_copyfile |]. intros _.
  apply emits_bind; [by apply emits_check_call |]. intros _.
  apply emits_bind; [by apply emits_check_call |]. intros _.
  apply emits_bind; [apply emits_os_rename |]. intros _. apply emits_ret.
Qed.

Lemma emits_base_build_impl b :
  P (EvToolchain (pyxbld_dir H b)) -> emits P (base_build_impl H b).
Proof.
  intros Pt. unfold base_build_impl. apply emits_bind; [by apply emits_emit |].
  intros _ w. exists []. rewrite app_nil_r. by destruct (run_commands _ _ _ _ _).
Qed.

Lemma emits_build_fn_cleanup name :
  (forall p r, P (EvRemove p r)) -> (forall msg, P (EvPrint msg)) ->
  emits P (build_fn_cleanup H name).
Proof.
  intros Pr Pp. unfold build_fn_cleanup.
  apply emits_bind; [apply emits_getenv |]. intros dbg.
  destruct (negb (truthy dbg)); [| apply emits_ret].
  apply emits_bind; [apply emits_get |]. intros files.
  apply emits_for_each. intros f.
  apply emits_try_except; [by apply emits_os_remove |].
  intros e. by apply emits_emit.
Qed.

Lemma emits_ffi_compile name src : P (EvCompile name src) -> emits P (ffi_compile H name src).
Proof.
  intros Pc. unfold ffi_compile. apply emits_bind; [by apply emits_emit |].
  intros _ w. exists []. rewrite app_nil_r. by destruct (cffi_compile _ _ _ _ _).
Qed.

End Traces.

(** ** Strings *)

Lemma str_app_cons (c : ascii) (s t : string) : String c s +:+ t = String c (s +:+ t).
Proof. reflexivity. Qed.

Lemma str_app_nil_r (s : string) : s +:+ "" = s.
Proof. induction s as [|c s IH]; [done | by rewrite str_app_cons, IH]. Qed.

Lemma str_app_assoc (a b c : string) : (a +:+ b) +:+ c = a +:+ (b +:+ c).
Proof. induction a as [|x a IH]; [done | by rewrite !str_app_cons, IH]. Qed.

Lemma str_app_length (a b : string) :
  String.length (a +:+ b) = (String.length a + String.length b)%nat.
Proof. induction a as [|x a IH]; [done | by rewrite str_app_cons; simpl; rewrite IH]. Qed.

Lemma concat_empty_cons (x : string) (l : list string) :
  String.concat "" (x :: l) = x +:+ String.concat "" l.
Proof. destruct l; simpl; [by rewrite str_app_nil_r | done]. Qed.

(** ** The compilation unit of a callback *)

Lemma add_defines_spec (names : list string) : forall (acc : string) (i : nat),
  add_defines acc i names
  = acc +:+ String.concat "" (imap (fun k => define_line (i + k)) names).
Proof.
  induction names as [|n names IH]; intros acc i.
  - simpl. by rewrite str_app_nil_r.
  - rewrite imap_cons, concat_empty_cons. simpl add_defines. rewrite IH.
    rewrite str_app_assoc. unfold define_line at 2. rewrite Nat.add_0_r.
    do 2 f_equal. f_equal. apply imap_ext. intros k x _. simpl.
    by rewrite Nat.add_succ_r.
Qed.

Lemma make_source_spec (function_string : string) (names : list string) :
  make_source function_string names = compilation_unit function_string names.
Proof.
  unfold make_source, compilation_unit. rewrite add_defines_spec.
  by rewrite !str_app_assoc.
Qed.

(** ** The runtime callback compiler *)

Section Callback.

Context (H : host).

Lemma build_callback_fn_unfold function_string o names w :
  list_or_tuple o = Some names ->
  build_callback_fn H function_string o w
  = match compiled H function_string names w with
    | (Ok library_path, w1) => load_and_clean H (fresh_name H (rng w)) library_path w1
    | (Raise e, w1) =>
        if is_Exception e
        then (build_fn_cleanup H (fresh_name H (rng w)) ;;; raise e) w1
        else (Raise e, w1)
    end.
Proof.
  intros L. unfold build_callback_fn, compiled. rewrite L.
  unfold bind at 1, random_name at 1. unfold bind at 1, try_except.
  destruct (ffi_compile _ _ _ _) as [[p|e] w1]; [done |].
  destruct (is_Exception e); [| done].
  unfold bind, raise. by destruct (build_fn_cleanup _ _ w1) as [[[]|e'] w2].
Qed.

Lemma compiled_trace function_string names w :
  trace (snd (compiled H function_string names w))
  = trace w ++ [EvCompile (fresh_name H (rng w)) (make_source function_string names)].
Proof.
  unfold compiled, ffi_compile, bind, emit, modify. simpl.
  by destruct (cffi_compile _ _ _ _ _).
Qed.

Lemma emits_load_and_clean name p : emits (fun _ => True) (load_and_clean H name p).
Proof.
  unfold load_and_clean. apply emits_bind.
  { destruct (String.eqb _ _); [| apply emits_ret].
    apply emits_bind; [by apply emits_manually_link_libraries |]. intros fixed.
    apply emits_bind; [apply emits_move | intros; apply emits_ret]. }
  intros _. apply emits_bind; [by apply emits_load_dynamic_ext |]. intros m.
  apply emits_bind; [by apply emits_build_fn_cleanup | intros; apply emits_ret].
Qed.

Lemma build_callback_fn_reaches_compiler function_string o names w :
  list_or_tuple o = Some names ->
  exists rest,
    trace (snd (build_callback_fn H function_string o w))
    = trace w ++ EvCompile (fresh_name H (rng w)) (make_source function_string names) :: rest.
Proof.
  intros L. rewrite (build_callback_fn_unfold _ _ _ _ L).
  pose proof (compiled_trace function_string names w) as T.
  destruct (compiled H function_string names w) as [[p|e] w1]; simpl in T.
  - destruct (emits_load_and_clean (fresh_name H (rng w)) p w1) as (evs & E & _).
    exists evs. by rewrite E, T, <- app_assoc.
  - destruct (is_Exception e); [| exists []; simpl; by rewrite T].
    assert (Em : emits (fun _ => True)
                   (build_fn_cleanup H (fresh_name H (rng w)) ;;; @raise Z e)).
    { apply emits_bind; [by apply emits_build_fn_cleanup | intros; apply emits_raise]. }
    destruct (Em w1) as (evs & E & _). exists evs. by rewrite E, T, <- app_assoc.
Qed.

(** C6: the unit handed to the compiler is the header line, then one
    [#define name d->userdata[i]] line per name in index order (none for an
    empty sequence), then the caller's function text unchanged, then the
    one declaration storing the function's address in [__fun]. *)
Theorem callback_source_layout (function_string : string) (o : pyobj)
    (names : list string) (w : world) :
  o = PyList names \/ o = PyTuple names ->
  make_source function_string names
  = ("#include <mujoco.h>" +:+ Str.LF)
    +:+ String.concat ""
          (imap (fun i name => "#define " +:+ name +:+ " d->userdata[" +:+ pretty i +:+ "]"
                               +:+ Str.LF) names)
    +:+ function_string
    +:+ (Str.LF +:+ "uintptr_t __fun = (uintptr_t) fun;")
  /\ exists rest,
       trace (snd (build_callback_fn H function_string o w))
       = trace w ++ EvCompile (fresh_name H (rng w)) (make_source function_string names) :: rest.
Proof.
  intros Ho. split; [apply make_source_spec |].
  apply build_callback_fn_reaches_compiler. by destruct Ho; subst.
Qed.

(** C10: an argument that is neither a list nor a tuple raises
    AssertionError with the world untouched (no name drawn, nothing
    compiled, no file or trace change); a list or a tuple, empty or not,
    passes the assertion: the name is drawn and the compiler is reached. *)
Theorem userdata_names_assertion (function_string : string) (o : pyobj) (w : world) :
  ((forall l, o <> PyList l) /\ (forall l, o <> PyTuple l) ->
     build_callback_fn H function_string o w
     = (Raise (AssertionError ("invalid userdata_names: " +:+ py_str o)), w))
  /\ (forall l, o = PyList l \/ o = PyTuple l ->
        exists rest,
          trace (snd (build_callback_fn H function_string o w))
          = trace w ++ EvCompile (fresh_name H (rng w)) (make_source function_string l) :: rest).
Proof.
  split.
  - intros [NL NT]. destruct o as [l|l| | |]; try done.
    + by destruct (NL l).
    + by destruct (NT l).
  - intros l Ho. apply build_callback_fn_reaches_compiler. by destruct Ho; subst.
Qed.

End Callback.

(** ** Runs on concrete hosts *)

Lemma callback_source_layout_witness :
  (PyList ["my_sum"] = PyList ["my_sum"] \/ PyList ["my_sum"] = PyTuple ["my_sum"])
  /\ exists rest,
       trace (snd (build_callback_fn Demo.linux "void fun(const mjModel* m, mjData* d) {}"
                     (PyList ["my_sum"]) (Demo.world_of ∅ ∅)))
       = [] ++ EvCompile "_fn_abcdefghijklmno"
                 (make_source "void fun(const mjModel* m, mjData* d) {}" ["my_sum"]) :: rest.
Proof.
  split; [by left |].
  apply (callback_source_layout Demo.linux "void fun(const mjModel* m, mjData* d) {}"
           (PyList ["my_sum"]) ["my_sum"] (Demo.world_of ∅ ∅)).
  by left.
Defined.

Lemma userdata_names_assertion_witness :
  build_callback_fn Demo.linux "void fun() {}" (PyStr "my_sum") (Demo.world_of ∅ ∅)
  = (Raise (AssertionError "invalid userdata_names: my_sum"), Demo.world_of ∅ ∅)
  /\ exists rest,
       trace (snd (build_callback_fn Demo.linux "void fun() {}" (PyTuple []) (Demo.world_of ∅ ∅)))
       = [] ++ EvCompile "_fn_abcdefghijklmno" (make_source "void fun() {}" []) :: rest.
Proof.
  split.
  - apply (proj1 (userdata_names_assertion Demo.linux "void fun() {}" (PyStr "my_sum")
                    (Demo.world_of ∅ ∅))).
    split; intros l; discriminate.
  - apply (proj2 (userdata_names_assertion Demo.linux "void fun() {}" (PyTuple [])
                    (Demo.world_of ∅ ∅)) []).
    by right.
Defined.

(** ** The build coordinator *)

Section Coordinator_facts.

Context (H : host).

Lemma select_builder_unsupported (mujoco_path : string) (w : world) :
  sys_platform H <> "darwin" -> sys_platform H <> "linux" ->
  Str.startswith "win" (sys_platform H) = false ->
  select_builder H mujoco_path w
  = (Raise (RuntimeError ("Unsupported platform " +:+ sys_platform H)), w).
Proof.
  intros Hd Hl Hw. unfold select_builder.
  apply String.eqb_neq in Hd, Hl. by rewrite Hd, Hl, Hw.
Qed.

(** C9: on a platform that is not darwin, not linux and does not start
    with win, load_cython_ext raises the unsupported-platform RuntimeError
    out of the platform dispatch itself: no builder is constructed, the file
    system, the environment and the held locks are those of the start, and
    the trace gains at most the glfw warning (no lock, build, load or remove
    event). *)
Theorem unsupported_platform_is_fatal (mujoco_path : string) (w : world) :
  sys_platform H <> "darwin" -> sys_platform H <> "linux" ->
  Str.startswith "win" (sys_platform H) = false ->
  exists w',
    load_cython_ext H mujoco_path w
    = (Raise (RuntimeError ("Unsupported platform " +:+ sys_platform H)), w')
    /\ select_builder H mujoco_path w' = (Raise (RuntimeError ("Unsupported platform " +:+ sys_platform H)), w')
    /\ fs w' = fs w /\ environ w' = environ w /\ held w' = held w
    /\ exists evs, trace w' = trace w ++ evs
                   /\ Forall (fun ev => is_lock_or_build ev = false) evs.
Proof.
  intros Hd Hl Hw.
  unfold load_cython_ext, resolve_builder.
  unfold bind at 1. unfold bind at 1. unfold get at 1.
  unfold bind at 1.
  set (warn := match glfw_file H with
               | Some file => if Str.contains "mujoco" (Path.abspath (cwd w) file)
                              then print glfw_warning else ret tt
               | None => ret tt
               end).
  assert (Hwarn : exists w', warn w = (Ok tt, w') /\ fs w' = fs w /\ environ w' = environ w
                    /\ held w' = held w
                    /\ exists evs, trace w' = trace w ++ evs
                                   /\ Forall (fun ev => is_lock_or_build ev = false) evs).
  { subst warn. destruct (glfw_file H) as [file|].
    - destruct (Str.contains _ _).
      + eexists. split; [reflexivity |]. repeat split; try done.
        exists [EvPrint glfw_warning]. split; [done | by constructor].
      + exists w. repeat split; try done. exists []. by rewrite app_nil_r.
    - exists w. repeat split; try done. exists []. by rewrite app_nil_r. }
  destruct Hwarn as (w' & E & Hrest). rewrite E.
  unfold bind. rewrite (select_builder_unsupported mujoco_path w' Hd Hl Hw).
  exists w'. split; [done |]. split; [| done].
  by apply select_builder_unsupported.
Qed.

End Coordinator_facts.

Lemma unsupported_platform_is_fatal_witness :
  exists w',
    load_cython_ext Demo.freebsd "/opt/mujoco200" (Demo.world_of ∅ ∅)
    = (Raise (RuntimeError "Unsupported platform freebsd12"), w').
Proof.
  destruct (unsupported_platform_is_fatal Demo.freebsd "/opt/mujoco200" (Demo.world_of ∅ ∅))
    as (w' & E & _); [done | done | reflexivity |].
  exists w'. exact E.
Defined.

Section Resolution_traces.

Context (H : host) (P : event -> Prop).
Hypothesis P_subprocess : forall argv, P (EvSubprocess argv).
Hypothesis P_print : forall msg, P (EvPrint msg).

Lemma emits_get_nvidia_lib_dir : emits P (get_nvidia_lib_dir H).
Proof.
  unfold get_nvidia_lib_dir. apply emits_bind; [by apply emits_emit |]. intros _.
  destruct (negb _); [apply emits_ret |].
  apply emits_bind; [apply emits_exists_ |]. intros [|]; [apply emits_ret |].
  apply emits_bind; [apply emits_get |]. intros paths.
  destruct (last (sorted paths)); [| apply emits_ret].
  apply emits_bind; [| intros; apply emits_ret].
  case_bool_decide; [by apply emits_emit | apply emits_ret].
Qed.

Lemma emits_ensure_set_env_var var lib : emits P (_ensure_set_env_var var lib).
Proof.
  unfold _ensure_set_env_var. apply emits_bind; [apply emits_getenv |]. intros v.
  apply emits_bind; [apply emits_get |]. intros here.
  destruct (negb _); [apply emits_raise | apply emits_ret].
Qed.

Lemma emits_select_builder mp : emits P (select_builder H mp).
Proof.
  unfold select_builder.
  destruct (String.eqb _ "darwin"); [apply emits_ret |].
  destruct (String.eqb _ "linux").
  { apply emits_bind; [apply emits_ensure_set_env_var |]. intros _.
    apply emits_bind; [apply emits_getenv |]. intros force_cpu.
    apply emits_bind.
    { destruct force_cpu; [apply emits_ret |].
      apply emits_bind; [apply emits_get_nvidia_lib_dir | intros; apply emits_ret]. }
    intros [|]; [| apply emits_ret].
    apply emits_bind; [apply emits_get_nvidia_lib_dir |]. intros d.
    apply emits_bind; [apply emits_ensure_set_env_var | intros; apply emits_ret]. }
  destruct (Str.startswith _ _); [| apply emits_raise].
  apply emits_bind; [apply emits_getenv |]. intros v.
  destruct (match v with Some _ => _ | None => _ end); [apply emits_raise | apply emits_ret].
Qed.

Lemma emits_new_builder c mp : emits P (new_builder H c mp).
Proof.
  unfold new_builder. destruct c; try apply emits_ret.
  apply emits_bind; [apply emits_getenv |]. intros [p|]; [| apply emits_raise].
  apply emits_bind; [| intros; apply emits_ret].
  apply (emits_modify_env P (fun w => <["PATH" := p +:+ ";" +:+ Path.join mp "bin"]> (environ w))).
Qed.

Lemma emits_resolve_builder mp : emits P (resolve_builder H mp).
Proof.
  unfold resolve_builder. apply emits_bind; [apply emits_get |]. intros here.
  apply emits_bind.
  { destruct (glfw_file H); [| apply emits_ret].
    destruct (Str.contains _ _); [by apply emits_emit | apply emits_ret]. }
  intros _. apply emits_bind; [apply emits_select_builder |]. intros c.
  apply emits_new_builder.
Qed.

(** Everything a build appends apart from the distutils run itself. *)
Lemma emits__build_impl b :
  P (EvToolchain (pyxbld_dir H b)) -> emits P (_build_impl H b).
Proof.
  intros Pt. unfold _build_impl. destruct (klass b).
  - apply emits_bind; [apply emits_getenv |]. intros cc.
    apply emits_bind; [| intros; by apply emits_manually_link_libraries].
    destruct (negb (truthy cc)); [| by apply emits_base_build_impl].
    apply emits_bind; [apply emits_get |]. intros files.
    destruct (find _ _); [| apply emits_raise].
    apply emits_bind; [apply (emits_modify_env P (fun w => <["CC" := s]> (environ w))) |].
    intros _. apply emits_bind; [by apply emits_base_build_impl |]. intros so.
    apply emits_bind; [apply (emits_modify_env P (fun w => delete "CC" (environ w))) |].
    intros; apply emits_ret.
  - apply emits_bind; [by apply emits_base_build_impl |]. intros so.
    do 2 (apply emits_bind; [by apply emits_fix_shared_library |]; intros _).
    apply emits_ret.
  - apply emits_bind; [by apply emits_base_build_impl |]. intros so.
    do 4 (apply emits_bind; [by apply emits_fix_shared_library |]; intros _).
    apply emits_ret.
  - by apply emits_base_build_impl.
Qed.

Lemma emits_build b : P (EvToolchain (pyxbld_dir H b)) -> emits P (build H b).
Proof.
  intros Pt. unfold build. apply emits_bind; [by apply emits__build_impl |]. intros p.
  apply emits_bind; [apply emits_move | intros; apply emits_ret].
Qed.

End Resolution_traces.

(** ** Counting distutils runs *)

Lemma toolchain_runs_app (a b : list event) :
  toolchain_runs (a ++ b) = (toolchain_runs a + toolchain_runs b)%nat.
Proof. unfold toolchain_runs. by rewrite filter_app, length_app. Qed.

Lemma toolchain_runs_none (evs : list event) :
  Forall no_toolchain evs -> toolchain_runs evs = 0%nat.
Proof.
  unfold toolchain_runs, no_toolchain. induction 1 as [|ev evs Hev _ IH]; [done |].
  rewrite filter_cons. destruct (decide _) as [T|T]; [| done].
  rewrite Hev in T. done.
Qed.

Lemma one_run_after_quiet {A B} (m : M A) (k : A -> M B) :
  emits no_toolchain m -> (forall a, at_most_one_run (k a)) -> at_most_one_run (bind m k).
Proof.
  intros Hm Hk w. unfold bind. destruct (Hm w) as (evs & E & F).
  destruct (m w) as [[a|e] w']; simpl in *.
  - destruct (Hk a w') as (evs' & E' & L). exists (evs ++ evs').
    rewrite E', E, app_assoc, toolchain_runs_app, (toolchain_runs_none _ F). done.
  - exists evs. rewrite (toolchain_runs_none _ F). split; [done | lia].
Qed.

Lemma one_run_then_quiet {A B} (m : M A) (k : A -> M B) :
  at_most_one_run m -> (forall a, emits no_toolchain (k a)) -> at_most_one_run (bind m k).
Proof.
  intros Hm Hk w. unfold bind. destruct (Hm w) as (evs & E & L).
  destruct (m w) as [[a|e] w']; simpl in *.
  - destruct (Hk a w') as (evs' & E' & F). exists (evs ++ evs').
    rewrite E', E, app_assoc, toolchain_runs_app, (toolchain_runs_none _ F).
    split; [done | lia].
  - by exists evs.
Qed.

Lemma quiet_at_most_one_run {A} (m : M A) : emits no_toolchain m -> at_most_one_run m.
Proof.
  intros Hm w. destruct (Hm w) as (evs & E & F). exists evs.
  rewrite (toolchain_runs_none _ F). split; [done | lia].
Qed.

Section Build_runs.

Context (H : host).

Lemma base_build_impl_one_run b : at_most_one_run (base_build_impl H b).
Proof.
  intros w. exists [EvToolchain (pyxbld_dir H b)]. split; [| done].
  unfold base_build_impl, bind, emit, modify. simpl.
  by destruct (run_commands _ _ _ _ _).
Qed.

Lemma _build_impl_one_run b : at_most_one_run (_build_impl H b).
Proof.
  unfold _build_impl. destruct (klass b).
  - apply one_run_after_quiet; [apply emits_getenv |]. intros cc.
    apply one_run_then_quiet; [| intros; by apply emits_manually_link_libraries].
    destruct (negb (truthy cc)); [| apply base_build_impl_one_run].
    apply one_run_after_quiet; [apply emits_get |]. intros files.
    destruct (find _ _); [| apply quiet_at_most_one_run, emits_raise].
    apply one_run_after_quiet;
      [apply (emits_modify_env no_toolchain (fun w => <["CC" := s]> (environ w))) |].
    intros _. apply one_run_then_quiet; [apply base_build_impl_one_run |]. intros so.
    apply emits_bind;
      [apply (emits_modify_env no_toolchain (fun w => delete "CC" (environ w))) |].
    intros; apply emits_ret.
  - apply one_run_then_quiet; [apply base_build_impl_one_run |]. intros so.
    do 2 (apply emits_bind; [by apply emits_fix_shared_library |]; intros _).
    apply emits_ret.
  - apply one_run_then_quiet; [apply base_build_impl_one_run |]. intros so.
    do 4 (apply emits_bind; [by apply emits_fix_shared_library |]; intros _).
    apply emits_ret.
  - apply base_build_impl_one_run.
Qed.

Lemma build_one_run b : at_most_one_run (build H b).
Proof.
  unfold build. apply one_run_then_quiet; [apply _build_impl_one_run |]. intros p.
  apply emits_bind; [apply emits_move | intros; apply emits_ret].
Qed.

Lemma build_then_load_one_run b :
  at_most_one_run (let* cext_so_path := build H b in load_dynamic_ext H "cymj" cext_so_path).
Proof.
  apply one_run_then_quiet; [apply build_one_run |]. intros p.
  by apply emits_load_dynamic_ext.
Qed.

(** The shape of a locked region in the trace. *)
Lemma with_LockFile_run {A} path (m : M A) w r w2 :
  lock_refusal path w = None ->
  m (log (EvAcquire path) (set_held (path :: held w) w)) = (r, w2) ->
  with_LockFile path m w = (r, log (EvRelease path) (set_held (tail (held w2)) w2)).
Proof. intros F E. unfold with_LockFile. by rewrite F, E. Qed.

Lemma with_LockFile_refused {A} path (m : M A) w e :
  lock_refusal path w = Some e -> with_LockFile path m w = (Raise e, w).
Proof. intros F. unfold with_LockFile. by rewrite F. Qed.

End Build_runs.

(** ** Where the artifact and the scratch directory live *)

Lemma chars_app (a b : string) : Str.chars (a +:+ b) = Str.chars a ++ Str.chars b.
Proof.
  unfold Str.chars. induction a as [|c a IH]; [done |].
  rewrite str_app_cons. simpl. by rewrite IH.
Qed.

Lemma last_char_snoc (s : string) (c : ascii) :
  last (Str.chars (s +:+ String c "")) = Some c.
Proof. rewrite chars_app. apply last_snoc. Qed.

Lemma join_relative (a b : string) :
  Str.startswith Path.sep b = false -> Path.join a b = dir_prefix a +:+ b.
Proof.
  intros Hb. unfold Path.join, dir_prefix. rewrite Hb.
  destruct (_ || _); [done | by rewrite str_app_assoc].
Qed.

Section Artifact_paths.

Context (H : host).

Lemma get_so_file_path_shape b :
  get_so_file_path H b
  = dir_prefix (generated_dir H)
    +:+ ("cymj_" +:+ version b +:+ "_" +:+ python_version H +:+ ".so").
Proof. unfold get_so_file_path. by apply join_relative. Qed.

Lemma pyxbld_dir_shape b :
  pyxbld_dir H b = dir_prefix (generated_dir H) +:+ ("_pyxbld_" +:+ version b).
Proof. unfold pyxbld_dir. by apply join_relative. Qed.

Lemma get_so_file_path_last b : last (Str.chars (get_so_file_path H b)) = Some "o"%char.
Proof.
  rewrite get_so_file_path_shape.
  replace (dir_prefix (generated_dir H)
           +:+ ("cymj_" +:+ version b +:+ "_" +:+ python_version H +:+ ".so"))
    with ((dir_prefix (generated_dir H)
           +:+ ("cymj_" +:+ version b +:+ "_" +:+ python_version H +:+ ".s")) +:+ "o").
  - apply last_char_snoc.
  - rewrite !str_app_assoc. reflexivity.
Qed.

Lemma get_so_file_path_not_lock_dir b : lock_dir <> get_so_file_path H b.
Proof.
  intros E. pose proof (get_so_file_path_last b) as L. rewrite <- E in L. by vm_compute in L.
Qed.

Lemma get_so_file_path_not_lock b : lockpath <> get_so_file_path H b.
Proof.
  intros E. pose proof (get_so_file_path_last b) as L. rewrite <- E in L. by vm_compute in L.
Qed.

(** The artifact is not below the scratch directory of its own build. *)
Lemma get_so_file_path_outside_scratch b :
  ~ under_dir (pyxbld_dir H b) (get_so_file_path H b).
Proof.
  intros [rest E]. rewrite get_so_file_path_shape, pyxbld_dir_shape in E.
  rewrite !str_app_assoc in E. apply (inj (String.app _)) in E.
  rewrite !str_app_cons in E. discriminate E.
Qed.

End Artifact_paths.

(** ** The lock directory *)

Section Lock_directory.

Lemma split_lockpath : Path.split lockpath = (lock_dir, "mujocopy-buildlock").
Proof. vm_compute. reflexivity. Qed.

Lemma split_lock_dir : Path.split lock_dir = ("/", "mujoco_py_apptainer").
Proof. vm_compute. reflexivity. Qed.

Lemma lock_file_lockpath w : lock_file lockpath w = lockpath +:+ ".lock".
Proof.
  unfold lock_file, Path.abspath.
  change (Str.startswith "/" lockpath) with true. cbv iota.
  assert (Path.normpath lockpath = lockpath) as -> by (vm_compute; reflexivity).
  reflexivity.
Qed.

Lemma dirname_lock_file : Path.dirname (lockpath +:+ ".lock") = lock_dir.
Proof. vm_compute. reflexivity. Qed.

Lemma lock_names_differ :
  lock_dir <> lockpath /\ lockpath +:+ ".lock" <> lock_dir /\ lockpath +:+ ".lock" <> lockpath.
Proof. repeat split; intros E; by vm_compute in E. Qed.

Lemma makedirs_S fuel name :
  makedirs (S fuel) name
  = let '(head, tail) := Path.split name in
    let '(head, tail) := if String.eqb tail "" then Path.split head else (head, tail) in
    let* finished :=
      (if negb (String.eqb head "") && negb (String.eqb tail "") then
         let* there := get (fun w => bool_decide (is_Some (entry (fs w) head))) in
         if there then ret false else
           (try_except (makedirs fuel head) is_FileExistsError (fun _ => ret tt) ;;;
            ret (String.eqb tail "."))
       else ret false) in
    if finished then ret tt else mkdir_exist_ok name.
Proof. reflexivity. Qed.

Lemma makedirs_lock_dir fuel w : makedirs (S fuel) lock_dir w = mkdir_exist_ok lock_dir w.
Proof.
  rewrite makedirs_S, split_lock_dir. cbv beta iota zeta.
  change (("mujoco_py_apptainer" =? "")%string) with false. cbv iota.
  change (negb ("/" =? "")%string && negb ("mujoco_py_apptainer" =? "")%string) with true.
  cbv iota. unfold bind at 1. unfold bind at 1, get.
  change (entry (fs w) "/") with (Some (Dir 0)).
  rewrite bool_decide_eq_true_2 by eauto. reflexivity.
Qed.

(** [os.makedirs(lockpath, exist_ok=True)] step by step. *)
Lemma makedirs_lockpath w :
  makedirs (String.length lockpath) lockpath w
  = if bool_decide (is_Some (fs w !! lock_dir)) then mkdir_exist_ok lockpath w
    else (try_except (mkdir_exist_ok lock_dir) is_FileExistsError (fun _ => ret tt) ;;;
          mkdir_exist_ok lockpath) w.
Proof.
  change (String.length lockpath) with (S (S 37)).
  rewrite makedirs_S, split_lockpath. cbv beta iota zeta.
  change (("mujocopy-buildlock" =? "")%string) with false. cbv iota.
  change (negb (lock_dir =? "")%string && negb ("mujocopy-buildlock" =? "")%string) with true.
  cbv iota. change (("mujocopy-buildlock" =? ".")%string) with false.
  unfold bind at 1. unfold bind at 1, get.
  change (entry (fs w) lock_dir) with (fs w !! lock_dir).
  destruct (bool_decide (is_Some (fs w !! lock_dir))); [reflexivity |].
  unfold bind at 1 2, try_except.
  assert (E : makedirs (S 37) lock_dir w = mkdir_exist_ok lock_dir w)
    by apply makedirs_lock_dir.
  rewrite E.
  destruct (mkdir_exist_ok lock_dir w) as [[[]|e] w1]; [reflexivity |].
  destruct (is_FileExistsError e); reflexivity.
Qed.

(** [mkdir] with [exist_ok] at the two names of the lock directory. *)
Lemma mkdir_exist_ok_lock_dir w :
  mkdir_exist_ok lock_dir w
  = match fs w !! lock_dir with
    | Some (Dir _) => (Ok tt, w)
    | Some (RegFile _ _ _) => (Raise (OSError EEXIST), w)
    | None =>
        match barred w !! lock_dir with
        | Some e => (Raise (OSError e), w)
        | None => (Ok tt, set_fs (<[lock_dir := Dir (clock w)]> (fs w)) w)
        end
    end.
Proof.
  unfold mkdir_exist_ok, try_except, os_mkdir.
  change (entry (fs w) lock_dir) with (fs w !! lock_dir).
  change (Path.dirname lock_dir) with "/".
  change (("/" =? "")%string) with false. cbv iota.
  change (entry (fs w) "/") with (Some (Dir 0)). cbv iota.
  destruct (fs w !! lock_dir) as [[d t g|t]|] eqn:E.
  - change (is_OSError (OSError EEXIST)) with true. cbv iota.
    unfold bind, get. change (entry (fs w) lock_dir) with (fs w !! lock_dir).
    rewrite E. reflexivity.
  - change (is_OSError (OSError EEXIST)) with true. cbv iota.
    unfold bind, get. change (entry (fs w) lock_dir) with (fs w !! lock_dir).
    rewrite E. reflexivity.
  - destruct (barred w !! lock_dir) as [e|]; [| reflexivity].
    change (is_OSError (OSError e)) with true. cbv iota.
    unfold bind, get. change (entry (fs w) lock_dir) with (fs w !! lock_dir).
    rewrite E. reflexivity.
Qed.

Lemma mkdir_exist_ok_lockpath w :
  mkdir_exist_ok lockpath w
  = match fs w !! lockpath with
    | Some (Dir _) => (Ok tt, w)
    | Some (RegFile _ _ _) => (Raise (OSError EEXIST), w)
    | None =>
        match fs w !! lock_dir with
        | None => (Raise (OSError ENOENT), w)
        | Some (RegFile _ _ _) => (Raise (OSError ENOTDIR), w)
        | Some (Dir _) =>
            match barred w !! lockpath with
            | Some e => (Raise (OSError e), w)
            | None => (Ok tt, set_fs (<[lockpath := Dir (clock w)]> (fs w)) w)
            end
        end
    end.
Proof.
  unfold mkdir_exist_ok, try_except, os_mkdir.
  change (entry (fs w) lockpath) with (fs w !! lockpath).
  change (Path.dirname lockpath) with lock_dir.
  change ((lock_dir =? "")%string) with false. cbv iota.
  change (entry (fs w) lock_dir) with (fs w !! lock_dir).
  destruct (fs w !! lockpath) as [[d t g|t]|] eqn:E.
  - change (is_OSError (OSError EEXIST)) with true. cbv iota.
    unfold bind, get. change (entry (fs w) lockpath) with (fs w !! lockpath).
    rewrite E. reflexivity.
  - change (is_OSError (OSError EEXIST)) with true. cbv iota.
    unfold bind, get. change (entry (fs w) lockpath) with (fs w !! lockpath).
    rewrite E. reflexivity.
  - destruct (fs w !! lock_dir) as [[d t g|t]|].
    + change (is_OSError (OSError ENOTDIR)) with true. cbv iota.
      unfold bind, get. change (entry (fs w) lockpath) with (fs w !! lockpath).
      rewrite E. reflexivity.
    + destruct (barred w !! lockpath) as [e|]; [| reflexivity].
      change (is_OSError (OSError e)) with true. cbv iota.
      unfold bind, get. change (entry (fs w) lockpath) with (fs w !! lockpath).
      rewrite E. reflexivity.
    + change (is_OSError (OSError ENOENT)) with true. cbv iota.
      unfold bind, get. change (entry (fs w) lockpath) with (fs w !! lockpath).
      rewrite E. reflexivity.
Qed.

(** What [os.makedirs(lockpath)] leaves: the trace grows by its event, the
    file system changes at the two names at most, and nothing else does. *)
Lemma os_makedirs_lockpath_frame w :
  exists f,
    snd (os_makedirs lockpath w) = set_fs f (log (EvMakedirs lockpath) w)
    /\ forall q, q <> lock_dir -> q <> lockpath -> f !! q = fs w !! q.
Proof.
  unfold os_makedirs, bind, emit, modify. cbv beta iota.
  set (w0 := log (EvMakedirs lockpath) w).
  change (fs w) with (fs w0).
  rewrite makedirs_lockpath.
  assert (P : forall w1, fs w1 = fs w1 -> exists f,
            snd (mkdir_exist_ok lockpath w1) = set_fs f w1
            /\ forall q, q <> lockpath -> f !! q = fs w1 !! q).
  { intros w1 _. rewrite mkdir_exist_ok_lockpath.
    destruct (fs w1 !! lockpath) as [[d t g|t]|];
      try (exists (fs w1); split; [symmetry; apply set_fs_fs | done]).
    destruct (fs w1 !! lock_dir) as [[d t g|t]|];
      try (exists (fs w1); split; [symmetry; apply set_fs_fs | done]).
    destruct (barred w1 !! lockpath);
      [exists (fs w1); split; [symmetry; apply set_fs_fs | done] |].
    eexists. split; [reflexivity |]. intros q Hq. by rewrite lookup_insert_ne. }
  destruct (bool_decide (is_Some (fs w0 !! lock_dir))).
  - destruct (P w0 eq_refl) as (f & E & F). exists f. split; [exact E |].
    intros q _ Hq. by apply F.
  - unfold bind, try_except. rewrite mkdir_exist_ok_lock_dir.
    destruct (fs w0 !! lock_dir) as [[d t g|t]|].
    + change (is_FileExistsError (OSError EEXIST)) with true. cbv beta iota.
      unfold ret at 1. destruct (P w0 eq_refl) as (f & E & F). exists f.
      split; [exact E |]. intros q _ Hq. by apply F.
    + destruct (P w0 eq_refl) as (f & E & F). exists f.
      split; [exact E |]. intros q _ Hq. by apply F.
    + destruct (barred w0 !! lock_dir) as [e|].
      * destruct (is_FileExistsError (OSError e)).
        -- unfold ret at 1. destruct (P w0 eq_refl) as (f & E & F). exists f.
           split; [exact E |]. intros q _ Hq. by apply F.
        -- exists (fs w0). split; [symmetry; apply set_fs_fs | done].
      * destruct (P (set_fs (<[lock_dir := Dir (clock w0)]> (fs w0)) w0) eq_refl)
          as (f & E & F).
        exists f. split; [by rewrite E |].
        intros q Hd Hq. rewrite F by exact Hq. cbn [fs set_fs].
        by rewrite lookup_insert_ne.
Qed.

(** When a directory is there or can be made at both names, the call
    returns and both are directories afterwards. *)
Lemma os_makedirs_lockpath_ok w :
  can_make w lock_dir = true -> can_make w lockpath = true ->
  fst (os_makedirs lockpath w) = Ok tt
  /\ is_dir (fs (snd (os_makedirs lockpath w)) !! lock_dir) = true
  /\ is_dir (fs (snd (os_makedirs lockpath w)) !! lockpath) = true.
Proof.
  destruct lock_names_differ as (Ndp & _ & _).
  unfold can_make. intros Cd Cp.
  unfold os_makedirs, bind, emit, modify. cbv beta iota.
  set (w0 := log (EvMakedirs lockpath) w).
  change (fs w) with (fs w0) in Cd, Cp. change (barred w) with (barred w0) in Cd, Cp.
  rewrite makedirs_lockpath.
  destruct (fs w0 !! lock_dir) as [[d t g|t]|] eqn:Ed; [discriminate Cd | |].
  - rewrite bool_decide_eq_true_2 by eauto. rewrite mkdir_exist_ok_lockpath, Ed.
    destruct (fs w0 !! lockpath) as [[d' t' g'|t']|] eqn:Ep; [discriminate Cp | |].
    + cbn [fst snd]. by rewrite Ed, Ep.
    + apply bool_decide_eq_true in Cp. rewrite Cp. cbn [fst snd fs set_fs].
      rewrite lookup_insert_eq, lookup_insert_ne, Ed by done. done.
  - rewrite bool_decide_eq_false_2 by (by intros [? ?]).
    apply bool_decide_eq_true in Cd.
    unfold bind, try_except. rewrite mkdir_exist_ok_lock_dir, Ed, Cd.
    rewrite mkdir_exist_ok_lockpath. cbn [fs set_fs barred clock].
    rewrite lookup_insert_ne by done. rewrite lookup_insert_eq.
    destruct (fs w0 !! lockpath) as [[d' t' g'|t']|] eqn:Ep; [discriminate Cp | |].
    + cbn [fst snd fs set_fs]. rewrite lookup_insert_eq, lookup_insert_ne, Ep by done. done.
    + apply bool_decide_eq_true in Cp. rewrite Cp. cbn [fst snd fs set_fs].
      rewrite lookup_insert_eq, lookup_insert_ne, lookup_insert_eq by done. done.
Qed.

Lemma lock_refusal_lockpath w :
  lock_refusal lockpath w
  = if negb (is_dir (fs w !! lock_dir)) then Some (LockFailed (lockpath +:+ ".lock"))
    else if bool_decide (is_Some (barred w !! (lockpath +:+ ".lock")))
         then Some (LockFailed (lockpath +:+ ".lock"))
         else if bool_decide (is_Some (fs w !! (lockpath +:+ ".lock")))
              then Some (Waits (lockpath +:+ ".lock"))
              else None.
Proof.
  unfold lock_refusal. rewrite lock_file_lockpath, dirname_lock_file. reflexivity.
Qed.

Lemma lock_refusal_none w :
  lock_refusal lockpath w = None
  <-> is_dir (fs w !! lock_dir) = true /\ lock_free lockpath w = true.
Proof.
  rewrite lock_refusal_lockpath. unfold lock_free. rewrite lock_file_lockpath.
  destruct (is_dir (fs w !! lock_dir)); cbn [negb]; [| split; [discriminate | by intros [? _]]].
  destruct (barred w !! (lockpath +:+ ".lock")) as [e|].
  - rewrite bool_decide_eq_true_2 by eauto. split; [discriminate |].
    intros [_ F]. by rewrite bool_decide_eq_false_2 in F.
  - rewrite bool_decide_eq_false_2 by (by intros [? ?]).
    rewrite (bool_decide_eq_true_2 (None = None)) by done.
    destruct (fs w !! (lockpath +:+ ".lock")) as [n|].
    + rewrite bool_decide_eq_true_2 by eauto. split; [discriminate |].
      intros [_ F]. by rewrite bool_decide_eq_false_2 in F.
    + rewrite bool_decide_eq_false_2 by (by intros [? ?]).
      rewrite bool_decide_eq_true_2 by done. done.
Qed.

(** The refusal depends on the files, the bars and the working directory. *)
Lemma lock_refusal_indep path w w' :
  fs w' = fs w -> barred w' = barred w -> cwd w' = cwd w ->
  lock_refusal path w' = lock_refusal path w.
Proof. intros Ef Eb Ec. unfold lock_refusal, lock_file. by rewrite Ef, Eb, Ec. Qed.

End Lock_directory.

(** ** Forced rebuild, and recovery from an artifact that does not load *)

(** [try: os.remove(p)  except OSError: pass] never raises, whatever the
    system answers. *)
Lemma os_remove_swallowed (p : string) (w : world) :
  exists refused w',
    try_except (os_remove p) is_OSError (fun _ => ret tt) w = (Ok tt, w')
    /\ trace w' = trace w ++ [EvRemove p refused]
    /\ held w' = held w /\ environ w' = environ w
    /\ (fs w !! p = None -> refused = Some ENOENT /\ fs w' = fs w)
    /\ (removable (fs w !! p) = true -> refused = None /\ fs w' = delete p (fs w))
    /\ (is_Some (fs w !! p) -> removable (fs w !! p) = false ->
          is_Some refused /\ fs w' = fs w)
    /\ (forall q, q <> p -> fs w' !! q = fs w !! q).
Proof.
  unfold try_except, os_remove.
  destruct (fs w !! p) as [[d t [g|]|t]|] eqn:E; cbn [is_OSError removable];
    eexists _, _; (split; [reflexivity |]); cbn [trace log held environ fs set_fs];
    repeat split; try done; try (by intros [? ?]); try (by eexists).
  intros q Hq. by rewrite lookup_delete_ne.
Qed.

Section Coordinator_properties.

Context (H : host).

Lemma force_rebuild_purge_forced so w :
  truthy (environ w !! "MUJOCO_PY_FORCE_REBUILD") = true ->
  force_rebuild_purge so w
  = match os_makedirs lockpath w with
    | (Ok _, wd) =>
        with_LockFile lockpath
          (print ("Removing old mujoco_py cext " +:+ so) ;;;
           try_except (os_remove so) is_OSError (fun _ => ret tt)) wd
    | (Raise e, wd) => (Raise e, wd)
    end.
Proof.
  intros F. unfold force_rebuild_purge. unfold bind at 1, getenv, get. rewrite F.
  unfold bind at 1. by destruct (os_makedirs lockpath w) as [[[]|e] wd].
Qed.



End Coordinator_properties.




(** ** Which entries a computation leaves alone *)

Section Frame.

Context {A B : Type} (q : string).

Lemma preserves_ret (a : A) : preserves q (ret a).
Proof. by intros w. Qed.

Lemma preserves_raise e : preserves q (@raise A e).
Proof. by intros w. Qed.

Lemma preserves_get (f : world -> A) : preserves q (get f).
Proof. by intros w. Qed.

Lemma preserves_bind (m : M A) (k : A -> M B) :
  preserves q m -> (forall a, preserves q (k a)) -> preserves q (bind m k).
Proof.
  intros Hm Hk w. unfold bind. specialize (Hm w).
  destruct (m w) as [[a|e] w']; simpl in *; [| done].
  by rewrite Hk.
Qed.

Lemma preserves_try_except (m : M A) c h :
  preserves q m -> (forall e, preserves q (h e)) -> preserves q (try_except m c h).
Proof.
  intros Hm Hh w. unfold try_except. specialize (Hm w).
  destruct (m w) as [[a|e] w']; simpl in *; [done |].
  destruct (c e); [| done]. by rewrite Hh.
Qed.

Lemma preserves_with_LockFile path (m : M A) :
  preserves q m -> preserves q (with_LockFile path m).
Proof.
  intros Hm w. unfold with_LockFile.
  destruct (lock_refusal path w); [reflexivity |].
  specialize (Hm (log (EvAcquire path) (set_held (path :: held w) w))).
  by destruct (m _) as [r w2].
Qed.

End Frame.

Lemma preserves_emit q ev : preserves q (emit ev).
Proof. by intros w. Qed.

Lemma preserves_modify_env q (f : world -> gmap string string) :
  preserves q (modify (fun w => set_environ (f w) w)).
Proof. by intros w. Qed.

Lemma preserves_getmtime q p : preserves q (getmtime p).
Proof. intros w. unfold getmtime. by case_match. Qed.

Lemma preserves_copyfile q src dst : q <> dst -> preserves q (copyfile src dst).
Proof.
  intros Hq w. unfold copyfile. repeat case_match; simpl; try done;
    by rewrite lookup_insert_ne.
Qed.

Lemma preserves_os_rename q src dst : q <> src -> q <> dst -> preserves q (os_rename src dst).
Proof.
  intros Hs Hd w. unfold os_rename. repeat case_match; simpl; try done;
    by rewrite lookup_insert_ne, lookup_delete_ne.
Qed.

Lemma preserves_os_remove q p : q <> p -> preserves q (os_remove p).
Proof.
  intros Hq w. unfold os_remove. repeat case_match; simpl; try done.
  by rewrite lookup_delete_ne.
Qed.

Section Frame_program.

Context (H : host) (q : string).

Lemma preserves_check_call argv : q <> List.last argv "" -> preserves q (check_call H argv).
Proof.
  intros Hq. unfold check_call. apply preserves_bind; [apply preserves_emit |].
  intros _ w. repeat case_match; simpl; try done. by rewrite lookup_insert_ne.
Qed.

Lemma preserves_check_output argv : preserves q (check_output H argv).
Proof.
  unfold check_output. apply preserves_bind; [apply preserves_emit |].
  intros _ w. by repeat case_match.
Qed.

Lemma preserves_load_dynamic_ext name path : preserves q (load_dynamic_ext H name path).
Proof.
  unfold load_dynamic_ext. apply preserves_bind; [apply preserves_emit |]. by intros _ w.
Qed.

Lemma preserves_fix_shared_library so name lib :
  q <> so -> preserves q (fix_shared_library H so name lib).
Proof.
  intros Hq. unfold fix_shared_library.
  apply preserves_bind; [by apply preserves_check_call |]. intros _.
  apply preserves_bind; [apply preserves_check_output |]. intros out.
  apply preserves_bind; [| intros _; by apply preserves_check_call].
  destruct (Str.contains name out); [by apply preserves_check_call | apply preserves_ret].
Qed.

Lemma preserves_manually_link_libraries mp raw :
  q <> final_path raw -> q <> final_path raw +:+ "~" ->
  preserves q (manually_link_libraries H mp raw).
Proof.
  intros Hf Ht. unfold manually_link_libraries.
  apply preserves_bind; [apply preserves_get |]. intros present.
  apply preserves_bind.
  { destruct present; [| apply preserves_ret].
    apply preserves_bind; [apply preserves_getmtime |]. intros tf.
    apply preserves_bind; [apply preserves_getmtime |]. intros tr. apply preserves_ret. }
  intros [|]; [apply preserves_ret |].
  apply preserves_bind; [by apply preserves_copyfile |]. intros _.
  apply preserves_bind; [by apply preserves_check_call |]. intros _.
  apply preserves_bind; [by apply preserves_check_call |]. intros _.
  apply preserves_bind; [by apply preserves_os_rename |]. intros _. apply preserves_ret.
Qed.

End Frame_program.

(** ** The final artifact's name *)

Lemma of_chars_app (a b : list ascii) : Str.of_chars (a ++ b) = Str.of_chars a +:+ Str.of_chars b.
Proof.
  unfold Str.of_chars. induction a as [|c a IH]; [done |].
  simpl. by rewrite IH.
Qed.

Lemma upto_from (i : Z) (s : string) : Str.upto i s +:+ Str.from i s = s.
Proof.
  unfold Str.upto, Str.from. rewrite <- of_chars_app, take_drop.
  apply string_of_list_ascii_of_string.
Qed.

Lemma splitext_app (p : string) : fst (Path.splitext p) +:+ snd (Path.splitext p) = p.
Proof.
  unfold Path.splitext. case_bool_decide; simpl; [| apply str_app_nil_r].
  destruct (forallb _ _); simpl; [apply str_app_nil_r | apply upto_from].
Qed.

Lemma final_path_length (raw : string) :
  String.length (final_path raw) = (String.length raw + 6)%nat.
Proof.
  unfold final_path. pose proof (splitext_app raw) as E.
  destruct (Path.splitext raw) as [root ext]. simpl in E.
  rewrite <- E. rewrite !str_app_length. simpl. lia.
Qed.

Lemma final_path_fresh (raw : string) :
  final_path raw <> raw
  /\ final_path raw +:+ "~" <> raw
  /\ final_path raw +:+ "~" <> final_path raw.
Proof.
  pose proof (final_path_length raw) as L.
  repeat split; intros E; apply (f_equal String.length) in E;
    rewrite ?str_app_length in E; simpl in E; lia.
Qed.

(** ** Steps of the fixup, run forwards and read backwards *)

Lemma bind_inv_ok {A B} (m : M A) (k : A -> M B) w b w' :
  bind m k w = (Ok b, w') -> exists a w1, m w = (Ok a, w1) /\ k a w1 = (Ok b, w').
Proof.
  unfold bind. destruct (m w) as [[a|e] w1]; [| done]. intros E. by exists a, w1.
Qed.

Lemma copyfile_inv src dst w w' :
  copyfile src dst w = (Ok tt, w') ->
  exists d t g g',
    fs w !! src = Some (RegFile d t g)
    /\ w' = set_fs (<[dst := RegFile d (clock w) g']> (fs w)) w.
Proof.
  unfold copyfile. intros E. repeat case_match; simplify_eq; eauto 10.
Qed.

Lemma copyfile_run src dst w d t g :
  src <> dst -> fs w !! src = Some (RegFile d t g) -> is_dir (fs w !! dst) = false ->
  exists g', copyfile src dst w = (Ok tt, set_fs (<[dst := RegFile d (clock w) g']> (fs w)) w).
Proof.
  intros Hne Hs Hd. unfold copyfile. apply String.eqb_neq in Hne. rewrite Hne, Hs.
  destruct (fs w !! dst) as [[d' t' g'|t']|]; [by eauto | done | by eauto].
Qed.

Section Tool_steps.

Context (H : host).

Lemma check_call_inv argv w w' :
  check_call H argv w = (Ok tt, w') ->
  exists d t g d',
    has_command H (hd "" argv) = true
    /\ fs w !! List.last argv "" = Some (RegFile d t g)
    /\ edit_tool H (removelast argv) d = Some d'
    /\ w' = set_fs (<[List.last argv "" := RegFile d' (clock w) g]> (fs w))
              (log (EvSubprocess argv) w).
Proof.
  unfold check_call, bind, emit, modify. cbv beta iota. cbn [fs log clock].
  destruct (has_command H (hd "" argv)); cbn [negb]; [| discriminate].
  destruct (fs w !! List.last argv "") as [[d t g|t]|]; try discriminate.
  destruct (edit_tool H (removelast argv) d) as [d'|] eqn:Ed; [| discriminate].
  intros [= <-]. by exists d, t, g, d'.
Qed.

Lemma check_call_run argv w d t g d' :
  has_command H (hd "" argv) = true ->
  fs w !! List.last argv "" = Some (RegFile d t g) ->
  edit_tool H (removelast argv) d = Some d' ->
  check_call H argv w
  = (Ok tt, set_fs (<[List.last argv "" := RegFile d' (clock w) g]> (fs w))
              (log (EvSubprocess argv) w)).
Proof.
  intros Hc Hf He. unfold check_call, bind, emit, modify. cbv beta iota.
  cbn [fs log clock]. by rewrite Hc, Hf, He.
Qed.

End Tool_steps.

Lemma os_rename_inv src dst w w' :
  os_rename src dst w = (Ok tt, w') ->
  exists n, fs w !! src = Some n /\ w' = set_fs (<[dst := n]> (delete src (fs w))) w.
Proof.
  unfold os_rename. intros E. repeat case_match; simplify_eq; eauto.
Qed.

Lemma os_rename_file_run src dst w d t g :
  fs w !! src = Some (RegFile d t g) -> is_dir (fs w !! dst) = false ->
  os_rename src dst w = (Ok tt, set_fs (<[dst := RegFile d t g]> (delete src (fs w))) w).
Proof.
  intros Hs Hd. unfold os_rename. rewrite Hs.
  by destruct (fs w !! dst) as [[d' t' g'|t']|].
Qed.

(** ** The Mach-O fixup *)

Section Fixup.

Context (H : host) (mujoco_path raw : string).

Local Abbreviation final := (final_path raw).
Local Abbreviation tmp := (final_path raw +:+ "~").
Local Abbreviation change_mujoco :=
  ["install_name_tool"; "-change"; "@executable_path/libmujoco200.dylib";
   Path.join mujoco_path "bin" +:+ "/libmujoco200.dylib"].
Local Abbreviation change_glfw :=
  ["install_name_tool"; "-change"; "libglfw.3.dylib";
   Path.join (Path.join mujoco_path "bin") "libglfw.3.dylib"].

Lemma manually_link_libraries_unfold w :
  manually_link_libraries H mujoco_path raw w
  = match fs w !! final with
    | None => relink H mujoco_path raw w
    | Some nf =>
        match fs w !! raw with
        | None => (Raise (OSError ENOENT), w)
        | Some nr =>
            if bool_decide (node_mtime nr <= node_mtime nf) then (Ok final, w) else relink H mujoco_path raw w
        end
    end.
Proof.
  unfold manually_link_libraries. unfold bind at 1, exists_, get.
  destruct (fs w !! final) as [nf|] eqn:Ef.
  - rewrite bool_decide_eq_true_2 by eauto.
    unfold bind at 1. unfold bind at 1, getmtime at 1. rewrite Ef.
    unfold bind at 1, getmtime at 1.
    destruct (fs w !! raw) as [nr|]; [| done]. unfold ret at 1.
    by destruct (bool_decide _).
  - rewrite bool_decide_eq_false_2 by (by intros [? ?]). reflexivity.
Qed.

Lemma relink_inv w p w' :
  relink H mujoco_path raw w = (Ok p, w') ->
  p = final
  /\ exists d t g d1 d2 g',
       has_command H "install_name_tool" = true
       /\ fs w !! raw = Some (RegFile d t g)
       /\ edit_tool H change_mujoco d = Some d1
       /\ edit_tool H change_glfw d1 = Some d2
       /\ fs w' !! final = Some (RegFile d2 (clock w) g')
       /\ fs w' !! tmp = None
       /\ fs w' !! raw = Some (RegFile d t g)
       /\ trace w' = trace w ++ [EvSubprocess (change_mujoco ++ [tmp]);
                                 EvSubprocess (change_glfw ++ [tmp])].
Proof.
  destruct (final_path_fresh raw) as (Nfr & Ntr & Ntf).
  unfold relink. intros E.
  apply bind_inv_ok in E as ([] & w1 & Ec & E).
  apply copyfile_inv in Ec as (d & t & g & g0 & Hraw & ->).
  apply bind_inv_ok in E as ([] & w2 & E1 & E).
  apply check_call_inv in E1 as (d0 & t0 & g1 & d1 & Hc & Hl & He1 & ->).
  rewrite List.last_last in Hl. cbn [fs set_fs] in Hl. rewrite lookup_insert_eq in Hl.
  injection Hl as <- <- <-.
  rewrite removelast_last in He1.
  apply bind_inv_ok in E as ([] & w3 & E2 & E).
  apply check_call_inv in E2 as (d0' & t0' & g2 & d2 & _ & Hl & He2 & ->).
  rewrite List.last_last in Hl. cbn [fs set_fs log] in Hl. rewrite lookup_insert_eq in Hl.
  injection Hl as <- <- <-.
  rewrite removelast_last in He2.
  apply bind_inv_ok in E as ([] & w4 & E3 & E). apply os_rename_inv in E3 as (n & Hn & ->).
  cbn [fs set_fs log] in Hn. rewrite !List.last_last in Hn. rewrite lookup_insert_eq in Hn.
  injection Hn as <-.
  unfold ret in E. injection E as <- <-. split; [reflexivity |].
  exists d, t, g, d1, d2, g0. split; [exact Hc |]. split; [exact Hraw |].
  split; [exact He1 |]. split; [exact He2 |].
  cbn [fs set_fs log clock trace]. rewrite ?List.last_last.
  split; [apply lookup_insert_eq |]. split.
  - rewrite lookup_insert_ne by done. apply lookup_delete_eq.
  - split.
    + rewrite lookup_insert_ne by done. rewrite lookup_delete_ne by done.
      by rewrite !lookup_insert_ne by done.
    + by rewrite <- app_assoc.
Qed.

Lemma relink_run w d t g d1 d2 :
  fs w !! raw = Some (RegFile d t g) ->
  is_dir (fs w !! tmp) = false ->
  is_dir (fs w !! final) = false ->
  has_command H "install_name_tool" = true ->
  edit_tool H change_mujoco d = Some d1 ->
  edit_tool H change_glfw d1 = Some d2 ->
  exists w' g',
    relink H mujoco_path raw w = (Ok final, w')
    /\ fs w' !! final = Some (RegFile d2 (clock w) g')
    /\ fs w' !! tmp = None
    /\ trace w' = trace w ++ [EvSubprocess (change_mujoco ++ [tmp]);
                              EvSubprocess (change_glfw ++ [tmp])].
Proof.
  destruct (final_path_fresh raw) as (Nfr & Ntr & Ntf).
  intros Hraw Htmp Hfin Hc He1 He2. unfold relink.
  destruct (copyfile_run raw tmp w d t g) as (g' & Ec); [done | done | done |].
  rewrite (bind_ok _ _ _ _ _ Ec).
  erewrite bind_ok; cycle 1.
  { apply check_call_run with (d := d) (t := clock w) (g := g') (d' := d1).
    - exact Hc.
    - rewrite List.last_last. cbn [fs set_fs]. apply lookup_insert_eq.
    - by rewrite removelast_last. }
  erewrite bind_ok; cycle 1.
  { apply check_call_run with (d := d1) (t := clock w) (g := g') (d' := d2).
    - exact Hc.
    - rewrite !List.last_last. cbn [fs set_fs log]. apply lookup_insert_eq.
    - by rewrite removelast_last. }
  erewrite bind_ok; cycle 1.
  { apply os_rename_file_run with (d := d2) (t := clock w) (g := g').
    - rewrite !List.last_last. cbn [fs set_fs log clock]. apply lookup_insert_eq.
    - rewrite !List.last_last. cbn [fs set_fs log]. by rewrite !lookup_insert_ne by done. }
  eexists _, g'. split; [reflexivity |]. cbn [fs set_fs log trace].
  split; [apply lookup_insert_eq |]. split.
  - rewrite lookup_insert_ne by done. apply lookup_delete_eq.
  - by rewrite <- app_assoc.
Qed.

(** C3, as the code has it.  The fixup never writes its input: the final
    name differs from the raw name and the raw entry is left as it was
    whatever happens.  It writes the final name and a staging name (the
    final name plus a tilde), nothing else.  When a final entry exists and
    is not older than the raw one, the final path is returned with the
    world unchanged (no copy, no tool run).  Otherwise, when the two
    install_name_tool calls succeed, the final name afterwards holds the raw
    contents as rewritten by the first and then the second call, stamped
    with the time of the run, no staging entry is left, and the two calls
    are what the run did.  A run that returned has left a final entry, and a
    second run at any later clock returns the same path with the same
    contents. *)
Theorem manually_link_libraries_idempotent (w : world) :
  final_path raw <> raw
  /\ fs (snd (manually_link_libraries H mujoco_path raw w)) !! raw = fs w !! raw
  /\ (forall q, q <> final_path raw -> q <> final_path raw +:+ "~" ->
        fs (snd (manually_link_libraries H mujoco_path raw w)) !! q = fs w !! q)
  /\ (forall nf nr,
        fs w !! final_path raw = Some nf -> fs w !! raw = Some nr ->
        node_mtime nr <= node_mtime nf ->
        manually_link_libraries H mujoco_path raw w = (Ok (final_path raw), w))
  /\ (forall d t g d1 d2,
        fs w !! raw = Some (RegFile d t g) ->
        (forall nf, fs w !! final_path raw = Some nf -> node_mtime nf < t) ->
        is_dir (fs w !! final_path raw) = false ->
        is_dir (fs w !! (final_path raw +:+ "~")) = false ->
        has_command H "install_name_tool" = true ->
        edit_tool H change_mujoco d = Some d1 ->
        edit_tool H change_glfw d1 = Some d2 ->
        exists w1 g',
          manually_link_libraries H mujoco_path raw w = (Ok (final_path raw), w1)
          /\ fs w1 !! final_path raw = Some (RegFile d2 (clock w) g')
          /\ fs w1 !! (final_path raw +:+ "~") = None
          /\ trace w1 = trace w ++ [EvSubprocess (change_mujoco ++ [final_path raw +:+ "~"]);
                                    EvSubprocess (change_glfw ++ [final_path raw +:+ "~"])])
  /\ (forall p w1,
        manually_link_libraries H mujoco_path raw w = (Ok p, w1) ->
        p = final_path raw
        /\ is_Some (fs w1 !! final_path raw)
        /\ (w1 = w \/ fs w1 !! (final_path raw +:+ "~") = None)
        /\ forall t, exists w2,
             manually_link_libraries H mujoco_path raw (set_clock t w1) = (Ok p, w2)
             /\ node_data (fs w2 !! p) = node_data (fs w1 !! p)
             /\ fs w2 !! raw = fs w !! raw).
Proof.
  destruct (final_path_fresh raw) as (Nfr & Ntr & Ntf).
  assert (Fr : forall w0 q, q <> final_path raw -> q <> final_path raw +:+ "~" ->
                 fs (snd (manually_link_libraries H mujoco_path raw w0)) !! q = fs w0 !! q).
  { intros w0 q Hf Ht. by apply preserves_manually_link_libraries. }
  split; [done |]. split; [by apply Fr |]. split; [by apply Fr |]. split.
  { intros nf nr Hf Hr Hle. rewrite manually_link_libraries_unfold.
    rewrite Hf, Hr. by rewrite bool_decide_eq_true_2. }
  split.
  { intros d t g d1 d2 Hr Hold Hdf Hdt Hc He1 He2.
    destruct (relink_run w d t g d1 d2 Hr Hdt Hdf Hc He1 He2) as (w1 & g' & E & F & T & Tr).
    exists w1, g'. split; [| by split].
    rewrite manually_link_libraries_unfold, Hr.
    destruct (fs w !! final) as [nf|] eqn:Ef; [| exact E].
    specialize (Hold nf eq_refl). cbn [node_mtime].
    rewrite bool_decide_eq_false_2 by lia. exact E. }
  intros p w1 E.
  assert (Hraw1 : fs w1 !! raw = fs w !! raw).
  {
    specialize (Fr w raw). rewrite E in Fr. apply Fr; done. }
  { rewrite manually_link_libraries_unfold in E.
    assert (Second : forall t d tr g d1 d2 t' g',
              has_command H "install_name_tool" = true ->
              fs w1 !! raw = Some (RegFile d tr g) ->
              edit_tool H change_mujoco d = Some d1 ->
              edit_tool H change_glfw d1 = Some d2 ->
              fs w1 !! final = Some (RegFile d2 t' g') ->
              fs w1 !! tmp = None ->
              exists w2, manually_link_libraries H mujoco_path raw (set_clock t w1)
                         = (Ok final, w2)
                         /\ node_data (fs w2 !! final) = node_data (fs w1 !! final)).
    { intros t d tr g d1 d2 t' g' Hc Hr He1 He2 Hf Ht.
      pose proof (manually_link_libraries_unfold (set_clock t w1)) as Em.
      change (fs (set_clock t w1)) with (fs w1) in Em. rewrite Hf, Hr in Em. rewrite Em.
      case_bool_decide.
      - exists (set_clock t w1). cbn [fs set_clock]. by rewrite Hf.
      - destruct (relink_run (set_clock t w1) d tr g d1 d2) as (w2 & g2 & E2 & F2 & _);
          cbn [fs set_clock]; try done; [by rewrite Ht | by rewrite Hf |].
        exists w2. split; [done |]. by rewrite F2, Hf. }
    assert (Relinked : relink H mujoco_path raw w = (Ok p, w1) ->
              p = final /\ is_Some (fs w1 !! final)
              /\ (w1 = w \/ fs w1 !! tmp = None)
              /\ forall t, exists w2,
                manually_link_libraries H mujoco_path raw (set_clock t w1) = (Ok p, w2)
                /\ node_data (fs w2 !! p) = node_data (fs w1 !! p)
                /\ fs w2 !! raw = fs w !! raw).
    { intros Er.
      apply relink_inv in Er
        as (-> & d & tr & g & d1 & d2 & g' & Hc & Hr & He1 & He2 & Hf & Ht & Hr1 & _).
      split; [done |]. split; [by eexists |]. split; [by right |]. intros t.
      destruct (Second t d tr g d1 d2 (clock w) g') as (w2 & E2 & D2); try done.
      exists w2. split; [done |]. split; [done |].
      specialize (Fr (set_clock t w1) raw). rewrite E2 in Fr. cbn [snd fs set_clock] in Fr.
      rewrite Fr by done. by rewrite Hr1. }
    destruct (fs w !! final) as [nf|] eqn:Ef; [| by apply Relinked].
    destruct (fs w !! raw) as [nr|] eqn:Er; [| done].
    case_bool_decide as Hle; [| by apply Relinked].
    injection E as <- <-. split; [done |]. split; [by eexists |]. split; [by left |].
    intros t. exists (set_clock t w). split.
    - rewrite manually_link_libraries_unfold.
      change (fs (set_clock t w)) with (fs w). rewrite Ef, Er.
      by rewrite bool_decide_eq_true_2.
    - done. }
Qed.

End Fixup.

Lemma manually_link_libraries_idempotent_witness :
  exists w1 w2,
    manually_link_libraries Demo.mac "/opt/mujoco200" "/b/lib/cymj.so" Demo.raw_world
    = (Ok "/b/lib/cymj_final.so", w1)
    /\ node_data (fs w1 !! "/b/lib/cymj_final.so")
       = Demo.editor ["install_name_tool"; "-change"; "libglfw.3.dylib";
                      "/opt/mujoco200/bin/libglfw.3.dylib"]
           (default "" (Demo.editor ["install_name_tool"; "-change";
                                     "@executable_path/libmujoco200.dylib";
                                     "/opt/mujoco200/bin/libmujoco200.dylib"] "macho"))
    /\ fs w1 !! "/b/lib/cymj_final.so~" = None
    /\ manually_link_libraries Demo.mac "/opt/mujoco200" "/b/lib/cymj.so" (set_clock 99 w1)
       = (Ok "/b/lib/cymj_final.so", w2)
    /\ node_data (fs w2 !! "/b/lib/cymj_final.so") = node_data (fs w1 !! "/b/lib/cymj_final.so").
Proof.
  destruct (manually_link_libraries_idempotent Demo.mac "/opt/mujoco200" "/b/lib/cymj.so"
              Demo.raw_world) as (_ & _ & _ & _ & S & T).
  destruct (S "macho" 20 None
              (default "" (Demo.editor ["install_name_tool"; "-change";
                                        "@executable_path/libmujoco200.dylib";
                                        "/opt/mujoco200/bin/libmujoco200.dylib"] "macho"))
              (default "" (Demo.editor ["install_name_tool"; "-change"; "libglfw.3.dylib";
                                        "/opt/mujoco200/bin/libglfw.3.dylib"]
                 (default "" (Demo.editor ["install_name_tool"; "-change";
                                           "@executable_path/libmujoco200.dylib";
                                           "/opt/mujoco200/bin/libmujoco200.dylib"] "macho")))))
    as (w1 & g' & E1 & F1 & T1 & _).
  - vm_compute. reflexivity.
  - intros nf Hnf. vm_compute in Hnf. discriminate Hnf.
  - vm_compute. reflexivity.
  - vm_compute. reflexivity.
  - vm_compute. reflexivity.
  - vm_compute. reflexivity.
  - vm_compute. reflexivity.
  - destruct (T "/b/lib/cymj_final.so" w1 E1) as (_ & _ & _ & Again).
    destruct (Again 99) as (w2 & E2 & D2 & _).
    exists w1, w2. split; [exact E1 |]. split.
    { change (final_path "/b/lib/cymj.so") with "/b/lib/cymj_final.so" in F1.
      rewrite F1. vm_compute. reflexivity. }
    split; [exact T1 |]. split; [exact E2 | exact D2].
Defined.

(** C3 as claimed fails: the final artifact is not the only thing written.
    When install_name_tool fails, the copy made under the staging name is
    left behind and there is no final artifact; and a file that was there
    under the staging name is gone after a run that succeeded. *)
Lemma staging_file_is_written_too :
  (let r := manually_link_libraries Samples.mac_bad_tool "/opt/mujoco200" "/b/lib/cymj.so"
              Demo.raw_world in
   fst r = Raise (CalledProcessError
                    ["install_name_tool"; "-change"; "@executable_path/libmujoco200.dylib";
                     "/opt/mujoco200/bin/libmujoco200.dylib"; "/b/lib/cymj_final.so~"])
   /\ fs Demo.raw_world !! "/b/lib/cymj_final.so~" = None
   /\ fs (snd r) !! "/b/lib/cymj_final.so~" = Some (RegFile "macho" 10 None)
   /\ fs (snd r) !! "/b/lib/cymj_final.so" = None)
  /\ (let r := manually_link_libraries Demo.mac "/opt/mujoco200" "/b/lib/cymj.so"
                 Samples.staged_world in
      fst r = Ok "/b/lib/cymj_final.so"
      /\ fs Samples.staged_world !! "/b/lib/cymj_final.so~" = Some (RegFile "notes" 5 None)
      /\ fs (snd r) !! "/b/lib/cymj_final.so~" = None).
Proof.
  split; vm_compute; repeat split; reflexivity.
Qed.

(** ** Cleaning up after a callback build *)

Lemma keeps_environ_bind {A B} (m : M A) (k : A -> M B) :
  keeps_environ m -> (forall a, keeps_environ (k a)) -> keeps_environ (bind m k).
Proof.
  intros Hm Hk w. unfold bind. specialize (Hm w).
  destruct (m w) as [[a|e] w']; simpl in *; [| done]. by rewrite Hk.
Qed.

Lemma keeps_environ_os_rename a b : keeps_environ (os_rename a b).
Proof. intros w. unfold os_rename. by repeat case_match. Qed.

Lemma keeps_environ_copyfile a b : keeps_environ (copyfile a b).
Proof. intros w. unfold copyfile. by repeat case_match. Qed.

Lemma keeps_environ_move a b : keeps_environ (move a b).
Proof.
  unfold move. apply keeps_environ_bind; [done |]. intros o. destruct (is_dir o).
  - apply keeps_environ_bind; [done |]. intros [|]; [done |].
    apply keeps_environ_bind; [apply keeps_environ_os_rename | done].
  - apply keeps_environ_bind; [apply keeps_environ_os_rename | done].
Qed.

Lemma remove_or_log_inv f w w1 :
  remove_or_log f w = (Ok tt, w1) ->
  (removable (fs w !! f) = true
   /\ w1 = log (EvRemove f None) (set_fs (delete f (fs w)) w))
  \/ (denied (fs w !! f) = true /\ fs w1 = fs w
      /\ exists e, is_PermissionError (OSError e) = true
                   /\ w1 = log (EvPrint ("Error removing " +:+ f +:+ ", continuing anyway: "
                                         +:+ exn_str (OSError e)))
                             (log (EvRemove f (Some e)) w)).
Proof.
  unfold remove_or_log, try_except, os_remove.
  destruct (fs w !! f) as [[d t [e|]|t]|] eqn:E; cbv beta iota.
  - unfold removable, denied.
    destruct (is_PermissionError (OSError e)) eqn:Pe; intros Eq; [| discriminate Eq].
    right. split; [reflexivity |]. unfold print, emit, modify in Eq.
    injection Eq as <-. split; [reflexivity |]. exists e. split; [exact Pe | reflexivity].
  - intros Eq. injection Eq as <-. left. split; reflexivity.
  - change (is_PermissionError (OSError EISDIR)) with false. cbv iota.
    intros Eq. discriminate Eq.
  - change (is_PermissionError (OSError ENOENT)) with false. cbv iota.
    intros Eq. discriminate Eq.
Qed.

Lemma cleanup_loop_ok (l : list string) : forall w w',
  for_each l remove_or_log w = (Ok tt, w') ->
  environ w' = environ w
  /\ (exists evs, trace w' = trace w ++ evs)
  /\ (forall k, fs w' !! k = fs w !! k \/ (fs w' !! k = None /\ k ∈ l))
  /\ (forall k, k ∈ l ->
        fs w' !! k = None \/ (denied (fs w' !! k) = true /\ refusal_logged k (trace w'))).
Proof.
  induction l as [|f l IH]; intros w w' E.
  - simpl in E. unfold ret in E. simplify_eq.
    repeat split; [by exists []; rewrite app_nil_r | by left | by intros k Hk%elem_of_nil].
  - simpl in E. apply bind_inv_ok in E as ([] & w1 & E1 & E2).
    apply IH in E2 as (Env & (evs & Tr) & Sh & Done).
    apply remove_or_log_inv in E1 as [(Rm & ->) | (Dn & Fs & e & Pe & ->)].
    + repeat split.
      * by rewrite Env.
      * exists (EvRemove f None :: evs). rewrite Tr. simpl. by rewrite <- app_assoc.
      * intros k. destruct (Sh k) as [Eq | [N Hin]]; [| right; split; [done | by right]].
        simpl in Eq. destruct (decide (k = f)) as [-> | Hne].
        -- right. rewrite Eq, lookup_delete_eq. split; [done | by left].
        -- left. by rewrite Eq, lookup_delete_ne.
      * intros k [-> | Hin]%elem_of_cons; [| by apply Done].
        left. destruct (Sh f) as [Eq | [N _]]; [| done].
        simpl in Eq. by rewrite Eq, lookup_delete_eq.
    + repeat split.
      * by rewrite Env.
      * eexists (_ :: _ :: evs). rewrite Tr. simpl. by rewrite <- !app_assoc.
      * intros k. destruct (Sh k) as [Eq | [N Hin]]; [| right; split; [done | by right]].
        left. simpl in Eq. simpl in Fs. done.
      * intros k [-> | Hin]%elem_of_cons; [| by apply Done].
        destruct (Sh f) as [Eq | [N _]]; [| by left].
        right. simpl in Eq. rewrite Eq. split; [done |].
        exists (OSError e). split; [done |]. rewrite Tr. simpl.
        apply in_or_app. left. apply in_or_app. right. by left.
Qed.

Lemma elem_of_glob_prefix (name k : string) (f : gmap string node) :
  k ∈ glob_prefix name f <-> glob_match name k = true /\ is_Some (f !! k).
Proof.
  unfold glob_prefix. rewrite list_elem_of_filter, elem_of_elements, elem_of_dom.
  by rewrite Is_true_true.
Qed.

Lemma NoDup_glob_prefix (name : string) (f : gmap string node) : NoDup (glob_prefix name f).
Proof. unfold glob_prefix. apply NoDup_filter, NoDup_elements. Qed.

Lemma glob_star_plain (H : host) (name : string) (f : gmap string node) :
  plain_name name = true -> glob_star H name f = glob_prefix name f.
Proof. intros P. unfold glob_star. by rewrite P. Qed.

Lemma build_fn_cleanup_unfold (H : host) (name : string) (w : world) :
  build_fn_cleanup H name w
  = if truthy (environ w !! "MUJOCO_PY_DEBUG_FN_BUILDER") then (Ok tt, w)
    else for_each (glob_star H name (fs w)) remove_or_log w.
Proof.
  unfold build_fn_cleanup. unfold bind at 1, getenv, get.
  destruct (truthy _); reflexivity.
Qed.

(** The loop stops at the first refusal that is not a permission error,
    and that refusal is an [OSError]. *)
Lemma cleanup_loop_raise (l : list string) : forall w e w',
  for_each l remove_or_log w = (Raise e, w') ->
  is_OSError e = true /\ is_PermissionError e = false.
Proof.
  induction l as [|f l IH]; intros w e w' E; [discriminate E |].
  cbn [for_each] in E. unfold bind in E.
  destruct (remove_or_log f w) as [[[]|e1] w1] eqn:E1; [by apply IH in E |].
  injection E as <- <-.
  unfold remove_or_log, try_except, os_remove in E1.
  destruct (fs w !! f) as [[d t [g|]|t]|]; cbv beta iota in E1.
  - destruct (is_PermissionError (OSError g)) eqn:P; [discriminate E1 |].
    injection E1 as <- _. by split.
  - discriminate E1.
  - change (is_PermissionError (OSError EISDIR)) with false in E1. cbv iota in E1.
    injection E1 as <- _. by split.
  - change (is_PermissionError (OSError ENOENT)) with false in E1. cbv iota in E1.
    injection E1 as <- _. by split.
Qed.

(** What a cleanup that returned has done. *)
Lemma build_fn_cleanup_ok (H : host) (name : string) (w w' : world) :
  plain_name name = true ->
  build_fn_cleanup H name w = (Ok tt, w') ->
  environ w' = environ w
  /\ (truthy (environ w !! "MUJOCO_PY_DEBUG_FN_BUILDER") = true -> w' = w)
  /\ (truthy (environ w !! "MUJOCO_PY_DEBUG_FN_BUILDER") = false ->
      forall k, glob_match name k = true ->
        fs w' !! k = None \/ (denied (fs w' !! k) = true /\ refusal_logged k (trace w'))).
Proof.
  intros Plain. rewrite build_fn_cleanup_unfold, (glob_star_plain H name _ Plain).
  destruct (truthy _) eqn:D.
  - intros E. injection E as <-.
    split; [reflexivity |]. split; [intros _; reflexivity | intros Hd; discriminate Hd].
  - intros E. apply cleanup_loop_ok in E as (Env & _ & Sh & Done).
    split; [exact Env |]. split; [intros; discriminate |].
    intros _ k Hk. destruct (fs w !! k) as [n|] eqn:Ek.
    + apply Done. apply elem_of_glob_prefix. split; [exact Hk | by rewrite Ek].
    + left. destruct (Sh k) as [Eq | [N _]]; [by rewrite Eq | exact N].
Qed.

(** A refusal with a permission error never stops the loop. *)
Lemma cleanup_loop_run (l : list string) : forall w,
  NoDup l ->
  (forall k, k ∈ l -> removable (fs w !! k) = true \/ denied (fs w !! k) = true) ->
  exists w', for_each l remove_or_log w = (Ok tt, w').
Proof.
  induction l as [|f l IH]; intros w ND Hall.
  - by exists w.
  - apply NoDup_cons in ND as [Hnotin ND].
    assert (Step : exists w1, remove_or_log f w = (Ok tt, w1)
                              /\ forall k, k <> f -> fs w1 !! k = fs w !! k).
    { unfold remove_or_log, try_except, os_remove.
      destruct (Hall f) as [R | D]; [by left | |].
      - destruct (fs w !! f) as [[d t [e|]|t]|]; try discriminate R.
        eexists. split; [reflexivity |]. intros k Hk. cbn [fs set_fs log].
        by apply lookup_delete_ne.
      - destruct (fs w !! f) as [[d t [e|]|t]|]; try discriminate D.
        unfold denied in D. cbv beta iota. rewrite D.
        eexists. split; [reflexivity |]. by intros k Hk. }
    destruct Step as (w1 & E1 & Fr).
    destruct (IH w1 ND) as (w' & E').
    { intros k Hk. rewrite Fr; [by apply Hall; right |]. by intros ->. }
    exists w'. cbn [for_each]. by rewrite (bind_ok _ _ _ _ _ E1).
Qed.

Section Callback_cleanup.

Context (H : host).

(** The module name of a callback is a plain name. *)
Lemma fresh_name_plain (n : nat) : plain_name (fresh_name H n) = true.
Proof.
  unfold plain_name, fresh_name. apply andb_true_intro. split.
  - change ("_fn_" +:+ ?x) with (String "_" (String "f" (String "n" (String "_" x)))).
    reflexivity.
  - rewrite chars_app, forallb_app. apply andb_true_intro. split; [reflexivity |].
    unfold Str.chars, Str.of_chars. rewrite list_ascii_of_string_of_list_ascii.
    apply forallb_forall. intros c [k [<- _]]%in_map_iff.
    assert (All : forallb (fun c => negb (bool_decide (c ∈ Str.chars "/*?[")))
                    ascii_lowercase = true) by (vm_compute; reflexivity).
    rewrite forallb_forall in All. apply All. apply nth_In.
    change (length ascii_lowercase) with 26%nat.
    apply Nat.mod_upper_bound. discriminate.
Qed.

Lemma keeps_environ_check_call argv : keeps_environ (check_call H argv).
Proof. intros w. unfold check_call, bind, emit, modify. cbn. by repeat case_match. Qed.

Lemma keeps_environ_load_dynamic_ext name path : keeps_environ (load_dynamic_ext H name path).
Proof. by intros w. Qed.

Lemma keeps_environ_manually_link_libraries mp raw :
  keeps_environ (manually_link_libraries H mp raw).
Proof.
  unfold manually_link_libraries.
  apply keeps_environ_bind; [done |]. intros present.
  apply keeps_environ_bind.
  { destruct present; [| done].
    apply keeps_environ_bind; [intros w; unfold getmtime; by case_match |]. intros tf.
    apply keeps_environ_bind; [intros w; unfold getmtime; by case_match |]. done. }
  intros [|]; [done |].
  apply keeps_environ_bind; [apply keeps_environ_copyfile |]. intros _.
  apply keeps_environ_bind; [apply keeps_environ_check_call |]. intros _.
  apply keeps_environ_bind; [apply keeps_environ_check_call |]. intros _.
  apply keeps_environ_bind; [apply keeps_environ_os_rename | done].
Qed.

Lemma keeps_environ_fix_and_load name p : keeps_environ (fix_and_load H name p).
Proof.
  unfold fix_and_load. apply keeps_environ_bind; [| intros; apply keeps_environ_load_dynamic_ext].
  destruct (String.eqb _ _); [| done].
  apply keeps_environ_bind; [apply keeps_environ_manually_link_libraries |]. intros fixed.
  apply keeps_environ_bind; [apply keeps_environ_move | done].
Qed.

Lemma emits_fix_and_load name p : emits no_remove (fix_and_load H name p).
Proof.
  unfold fix_and_load. apply emits_bind; [| intros; by apply emits_load_dynamic_ext].
  destruct (String.eqb _ _); [| apply emits_ret].
  apply emits_bind; [by apply emits_manually_link_libraries |]. intros fixed.
  apply emits_bind; [apply emits_move | intros; apply emits_ret].
Qed.

Lemma load_and_clean_inv name p w1 ptr w' :
  load_and_clean H name p w1 = (Ok ptr, w') ->
  exists m w2, fix_and_load H name p w1 = (Ok m, w2)
               /\ build_fn_cleanup H name w2 = (Ok tt, w')
               /\ ptr = lib_fun m.
Proof.
  unfold load_and_clean, fix_and_load. intros E.
  apply bind_inv_ok in E as ([] & wa & Ea & E).
  apply bind_inv_ok in E as (m & w2 & El & E).
  apply bind_inv_ok in E as ([] & w3 & Ec & E).
  unfold ret in E. injection E as <- <-.
  exists m, w2. split; [| by split].
  by rewrite (bind_ok _ _ _ _ _ Ea).
Qed.

Lemma compiled_environ function_string names w :
  environ (snd (compiled H function_string names w)) = environ w.
Proof.
  unfold compiled, ffi_compile, bind, emit, modify. cbn.
  by destruct (cffi_compile _ _ _ _ _).
Qed.

End Callback_cleanup.

Section Callback_properties.

Context (H : host).

(** C7, as the code has it: when ffibuilder.compile raises an Exception e
    from a list or tuple of names, build_callback_fn runs build_fn_cleanup
    on that call's module name in the world the compiler left, and the call
    is exactly that cleanup followed by [raise e], so it never returns a
    pointer.  When the cleanup returns, the exception raised is e itself
    and, unless the debug variable is set, every entry named with the module
    name is gone or was refused with a logged permission error.  When the
    cleanup itself raises, which it does for a refusal that is an OSError
    but not a PermissionError, that error is what the call raises and e is
    lost. *)
Theorem failed_compile_cleans_up_and_reraises (function_string : string) (o : pyobj)
    (names : list string) (w w1 : world) (e : exn) :
  o = PyList names \/ o = PyTuple names ->
  compiled H function_string names w = (Raise e, w1) ->
  is_Exception e = true ->
  build_callback_fn H function_string o w
  = (build_fn_cleanup H (fresh_name H (rng w)) ;;; raise e) w1
  /\ (forall ptr, fst (build_callback_fn H function_string o w) <> Ok ptr)
  /\ (forall w2,
        build_fn_cleanup H (fresh_name H (rng w)) w1 = (Ok tt, w2) ->
        build_callback_fn H function_string o w = (Raise e, w2)
        /\ (truthy (environ w !! "MUJOCO_PY_DEBUG_FN_BUILDER") = false ->
            forall k, glob_match (fresh_name H (rng w)) k = true ->
              fs w2 !! k = None
              \/ (denied (fs w2 !! k) = true /\ refusal_logged k (trace w2))))
  /\ (forall e' w2,
        build_fn_cleanup H (fresh_name H (rng w)) w1 = (Raise e', w2) ->
        build_callback_fn H function_string o w = (Raise e', w2)
        /\ is_OSError e' = true /\ is_PermissionError e' = false).
Proof.
  intros Ho Ec He.
  assert (L : list_or_tuple o = Some names) by (by destruct Ho; subst).
  assert (E : build_callback_fn H function_string o w
              = (build_fn_cleanup H (fresh_name H (rng w)) ;;; raise e) w1).
  { rewrite (build_callback_fn_unfold _ _ _ _ _ L), Ec, He. reflexivity. }
  split; [exact E |]. split.
  - intros ptr. rewrite E. unfold bind, raise.
    destruct (build_fn_cleanup _ _ w1) as [[[]|e'] w2]; cbn; discriminate.
  - split.
    + intros w2 Ecl. split.
      * rewrite E. by rewrite (bind_ok _ _ _ _ _ Ecl).
      * intros Hd. apply build_fn_cleanup_ok in Ecl as (_ & _ & Post);
          [| apply fresh_name_plain].
        apply Post. pose proof (compiled_environ H function_string names w) as Env.
        rewrite Ec in Env. cbn in Env. by rewrite Env.
    + intros e' w2 Ecl. split.
      * rewrite E. by apply bind_raise.
      * rewrite build_fn_cleanup_unfold in Ecl.
        destruct (truthy _); [discriminate Ecl |].
        by apply cleanup_loop_raise in Ecl.
Qed.

(** C8, as the code has it: after a build_callback_fn call that returned a
    pointer with the debug variable unset or empty, every entry whose name
    continues the call's module name is deleted, or its unlink was refused
    with a PermissionError and that refusal was printed; with the debug
    variable set to a non-empty value os.remove is never called; and a
    cleanup whose every refusal is a PermissionError returns normally, for a
    plain module name as for any list that glob gives without repeats. *)
Theorem callback_cleanup_spares_only_denied_files (function_string : string) (o : pyobj)
    (w : world) :
  (forall ptr w',
     build_callback_fn H function_string o w = (Ok ptr, w') ->
     (truthy (environ w !! "MUJOCO_PY_DEBUG_FN_BUILDER") = false ->
        forall k, glob_match (fresh_name H (rng w)) k = true ->
          fs w' !! k = None \/ (denied (fs w' !! k) = true /\ refusal_logged k (trace w')))
     /\ (truthy (environ w !! "MUJOCO_PY_DEBUG_FN_BUILDER") = true ->
           exists evs, trace w' = trace w ++ evs /\ Forall no_remove evs))
  /\ (forall name,
        plain_name name = true ->
        (forall k, glob_match name k = true -> is_Some (fs w !! k) ->
           removable (fs w !! k) = true \/ denied (fs w !! k) = true) ->
        exists w', build_fn_cleanup H name w = (Ok tt, w'))
  /\ (forall name,
        NoDup (glob_star H name (fs w)) ->
        (forall k, k ∈ glob_star H name (fs w) ->
           removable (fs w !! k) = true \/ denied (fs w !! k) = true) ->
        exists w', build_fn_cleanup H name w = (Ok tt, w')).
Proof.
  split.
  - intros ptr w' E.
    destruct (list_or_tuple o) as [names|] eqn:L;
      [| unfold build_callback_fn in E; rewrite L in E; discriminate E].
    rewrite (build_callback_fn_unfold _ _ _ _ _ L) in E.
    pose proof (compiled_environ H function_string names w) as Env.
    pose proof (compiled_trace H function_string names w) as Tr.
    destruct (compiled H function_string names w) as [[p|e] w1]; cbn in Env, Tr.
    2:{ destruct (is_Exception e); [| discriminate E].
        unfold bind, raise in E.
        destruct (build_fn_cleanup _ _ w1) as [[[]|e'] w2]; discriminate E. }
    apply load_and_clean_inv in E as (m & w2 & Efl & Ecl & _).
    pose proof (keeps_environ_fix_and_load H (fresh_name H (rng w)) p w1) as Env2.
    rewrite Efl in Env2. cbn in Env2.
    apply build_fn_cleanup_ok in Ecl as (_ & Dbg & Post); [| apply fresh_name_plain].
    rewrite Env2, Env in Dbg, Post. split; [exact Post |].
    intros Hd. rewrite (Dbg Hd).
    destruct (emits_fix_and_load H (fresh_name H (rng w)) p w1) as (evs & T & F).
    rewrite Efl in T. cbn in T.
    exists (EvCompile (fresh_name H (rng w)) (make_source function_string names) :: evs).
    split; [rewrite T, Tr; by rewrite <- app_assoc |].
    constructor; [reflexivity | exact F].
  - split.
    + intros name Plain Hall.
      rewrite build_fn_cleanup_unfold, (glob_star_plain H name _ Plain).
      destruct (truthy _); [by exists w |].
      apply cleanup_loop_run; [apply NoDup_glob_prefix |].
      intros k [Hm Hs]%elem_of_glob_prefix. by apply Hall.
    + intros name ND Hall. rewrite build_fn_cleanup_unfold.
      destruct (truthy _); [by exists w |].
      by apply cleanup_loop_run.
Qed.

End Callback_properties.

Lemma failed_compile_cleans_up_and_reraises_witness :
  exists w2,
    build_callback_fn Demo.linux_broken_gcc "void fun() {}" (PyList []) (Demo.world_of ∅ ∅)
    = (Raise (ToolError "VerificationError: LinkError"), w2)
    /\ fs w2 !! "_fn_abcdefghijklmno.c" = None.
Proof.
  destruct (failed_compile_cleans_up_and_reraises Demo.linux_broken_gcc "void fun() {}"
              (PyList []) [] (Demo.world_of ∅ ∅)
              (snd (compiled Demo.linux_broken_gcc "void fun() {}" [] (Demo.world_of ∅ ∅)))
              (ToolError "VerificationError: LinkError")) as (_ & _ & After & _).
  - by left.
  - vm_compute. reflexivity.
  - reflexivity.
  - eexists. split.
    + apply After. vm_compute. reflexivity.
    + vm_compute. reflexivity.
Defined.

Lemma callback_cleanup_spares_only_denied_files_witness :
  let w' := snd (build_callback_fn Demo.linux_denied "void fun() {}" (PyList [])
                   (Demo.world_of ∅ ∅)) in
  (fs w' !! "_fn_abcdefghijklmno.c" = None
   \/ (denied (fs w' !! "_fn_abcdefghijklmno.c") = true
       /\ refusal_logged "_fn_abcdefghijklmno.c" (trace w')))
  /\ (fs w' !! "_fn_abcdefghijklmno.so" = None
      \/ (denied (fs w' !! "_fn_abcdefghijklmno.so") = true
          /\ refusal_logged "_fn_abcdefghijklmno.so" (trace w'))).
Proof.
  intros w'.
  destruct (callback_cleanup_spares_only_denied_files Demo.linux_denied "void fun() {}"
              (PyList []) (Demo.world_of ∅ ∅)) as (Post & _).
  destruct (Post 4096 w') as (Clean & _); [vm_compute; reflexivity |].
  split; apply Clean; vm_compute; reflexivity.
Defined.

(** C7 as claimed fails: the compiler gives up after writing the source
    file, the system refuses to unlink that file with "device or resource
    busy", and the call raises that refusal: the compiler's own error is
    not re-raised. *)
Lemma busy_partial_file_hides_the_compile_error :
  let w := Demo.world_of ∅ ∅ in
  fst (compiled Samples.linux_fails_busy "void fun() {}" [] w)
  = Raise (ToolError "VerificationError: LinkError")
  /\ fst (build_callback_fn Samples.linux_fails_busy "void fun() {}" (PyList []) w)
     = Raise (OSError EBUSY)
  /\ In (EvRemove "_fn_abcdefghijklmno.c" (Some EBUSY))
        (trace (snd (build_callback_fn Samples.linux_fails_busy "void fun() {}" (PyList []) w))).
Proof.
  vm_compute. split; [reflexivity |]. split; [reflexivity | tauto].
Qed.

(** C8 as claimed fails: a library that the system refuses to unlink with
    "device or resource busy" is compiled and loaded, the deletion fails, nothing
    is printed about it, and the call raises instead of returning the pointer. *)
Lemma busy_library_makes_the_call_fail :
  let r := build_callback_fn Demo.linux_busy "void fun() {}" (PyList []) (Demo.world_of ∅ ∅) in
  fst r = Raise (OSError EBUSY)
  /\ In (EvLoad "_fn_abcdefghijklmno" "_fn_abcdefghijklmno.so") (trace (snd r))
  /\ In (EvRemove "_fn_abcdefghijklmno.so" (Some EBUSY)) (trace (snd r))
  /\ Forall (fun ev => match ev with EvPrint _ => False | _ => True end) (trace (snd r)).
Proof.
  vm_compute. split; [reflexivity |]. split; [tauto |]. split; [tauto |].
  repeat constructor.
Qed.

(** ** The fixup stays inside the directory of its input *)

Lemma rfind_from_ge (c : ascii) (l : list ascii) : forall i best,
  best <= i -> best <= Str.rfind_from c l i best.
Proof.
  induction l as [|x l IH]; intros i best Hb; cbn [Str.rfind_from]; [lia |].
  destruct (Ascii.eqb x c).
  - specialize (IH (i + 1) i). lia.
  - specialize (IH (i + 1) best). lia.
Qed.

Lemma rfind_from_found (c : ascii) (a b : list ascii) : forall i best,
  i + Z.of_nat (length a) <= Str.rfind_from c (a ++ c :: b) i best.
Proof.
  induction a as [|x a IH]; intros i best; cbn [app Str.rfind_from length].
  - rewrite Ascii.eqb_refl. pose proof (rfind_from_ge c b (i + 1) i). lia.
  - specialize (IH (i + 1) (if Ascii.eqb x c then i else best)). lia.
Qed.

Lemma of_chars_chars (s : string) : Str.of_chars (Str.chars s) = s.
Proof. apply string_of_list_ascii_of_string. Qed.

Lemma splitext_root_under (d rest : string) :
  exists rest', fst (Path.splitext (d +:+ "/" +:+ rest)) = d +:+ "/" +:+ rest'.
Proof.
  set (p := d +:+ "/" +:+ rest).
  unfold Path.splitext. fold p.
  case_bool_decide as Hlt; [| by exists rest].
  destruct (forallb _ _); [by exists rest |].
  cbn [fst]. unfold Str.upto.
  assert (Hc : Str.chars p = Str.chars d ++ "/"%char :: Str.chars rest).
  { subst p. by rewrite !chars_app. }
  assert (Hsep : Z.of_nat (length (Str.chars d)) <= Str.rfind "/"%char p).
  { unfold Str.rfind. rewrite Hc.
    pose proof (rfind_from_found "/"%char (Str.chars d) (Str.chars rest) 0 (-1)). lia. }
  set (n := Z.to_nat (Str.rfind "."%char p)) in *.
  assert (Hn : (length (Str.chars d ++ ["/"%char]) <= n)%nat).
  { rewrite length_app. cbn [length]. lia. }
  exists (Str.of_chars (take (n - length (Str.chars d ++ ["/"%char])) (Str.chars rest))).
  rewrite Hc.
  replace (Str.chars d ++ "/"%char :: Str.chars rest)
    with ((Str.chars d ++ ["/"%char]) ++ Str.chars rest) by (by rewrite <- app_assoc).
  rewrite take_app_ge by exact Hn.
  rewrite !of_chars_app, of_chars_chars. by rewrite str_app_assoc.
Qed.

Lemma final_path_under (d p : string) :
  under_dir d p -> under_dir d (final_path p) /\ under_dir d (final_path p +:+ "~").
Proof.
  intros [rest ->]. unfold final_path.
  destruct (splitext_root_under d rest) as (rest' & Er).
  destruct (Path.splitext (d +:+ "/" +:+ rest)) as [root ext]. cbn [fst] in Er. subst root.
  split.
  - exists (rest' +:+ "_final" +:+ ext). by rewrite !str_app_assoc.
  - exists (rest' +:+ "_final" +:+ ext +:+ "~"). by rewrite !str_app_assoc.
Qed.

(** ** Publishing a build *)

Lemma preserves_bind_post {A B} (q : string) (m : M A) (k : A -> M B) (Q : A -> Prop) :
  preserves q m ->
  (forall w a, fst (m w) = Ok a -> Q a) ->
  (forall a, Q a -> preserves q (k a)) ->
  preserves q (bind m k).
Proof.
  intros Hm Hq Hk w. unfold bind. specialize (Hm w). specialize (Hq w).
  destruct (m w) as [[a|e] w']; cbn in *; [| done].
  rewrite Hk; [done | by apply Hq].
Qed.

Lemma os_rename_raise src dst w e w' : os_rename src dst w = (Raise e, w') -> w' = w.
Proof.
  unfold os_rename. destruct (fs w !! src) as [[d t g|t]|];
    destruct (fs w !! dst) as [[d' t' g'|t']|]; intros E; by simplify_eq.
Qed.

Lemma rename_then_ret_raise src dst (r : string) w e w' :
  (os_rename src dst ;;; ret r) w = (Raise e, w') -> w' = w.
Proof.
  unfold bind. destruct (os_rename src dst w) as [[[]|e0] w0] eqn:E0; [discriminate |].
  intros E. injection E as _ <-. by apply os_rename_raise in E0.
Qed.

Lemma move_raise src dst w e w' : move src dst w = (Raise e, w') -> w' = w.
Proof.
  unfold move. unfold bind at 1, get at 1.
  destruct (is_dir (fs w !! dst)); [| apply rename_then_ret_raise].
  unfold bind at 1, exists_, get. destruct (bool_decide _).
  - unfold raise. intros E. by injection E.
  - apply rename_then_ret_raise.
Qed.

Section Publish.

Context (H : host) (b : builder).

Let canonical := get_so_file_path H b.
Let scratch := pyxbld_dir H b.

Hypothesis confined : toolchain_confined H b canonical.

Lemma outside_scratch p : under_dir scratch p -> canonical <> p.
Proof.
  intros U E. apply (get_so_file_path_outside_scratch H b).
  fold canonical scratch. by rewrite E.
Qed.

Lemma base_build_impl_frame : preserves canonical (base_build_impl H b).
Proof.
  intros w. unfold base_build_impl, bind, emit, modify. cbn.
  destruct (confined (environ w) (fs w)) as [Fr _]. fold scratch in Fr |- *.
  by destruct (run_commands _ _ _ _ _).
Qed.

Lemma base_build_impl_output w p :
  fst (base_build_impl H b w) = Ok p -> under_dir scratch p.
Proof.
  unfold base_build_impl, bind, emit, modify. cbn.
  destruct (confined (environ w) (fs w)) as [_ Out]. fold scratch in Out |- *.
  destruct (run_commands _ _ _ _ _) as [f' r]. cbn in *. apply Out.
Qed.

Lemma preserves_fix_under so name lib :
  under_dir scratch so -> preserves canonical (fix_shared_library H so name lib).
Proof. intros U. apply preserves_fix_shared_library. by apply outside_scratch. Qed.

Lemma _build_impl_frame : preserves canonical (_build_impl H b).
Proof.
  unfold _build_impl. destruct (klass b).
  - apply preserves_bind; [apply preserves_get |]. intros cc.
    apply (preserves_bind_post _ _ _ (under_dir scratch)).
    + destruct (negb (truthy cc)); [| apply base_build_impl_frame].
      apply preserves_bind; [apply preserves_get |]. intros files.
      destruct (find _ _); [| apply preserves_raise].
      apply preserves_bind;
        [apply (preserves_modify_env _ (fun w => <["CC" := s]> (environ w))) |].
      intros _. apply preserves_bind; [apply base_build_impl_frame |]. intros so.
      apply preserves_bind;
        [apply (preserves_modify_env _ (fun w => delete "CC" (environ w))) |].
      intros; apply preserves_ret.
    + intros w p. destruct (negb (truthy cc)); [| apply base_build_impl_output].
      unfold bind at 1, get. destruct (find _ _); [| discriminate].
      unfold bind at 1, modify. unfold bind at 1.
      pose proof (base_build_impl_output
                    (set_environ (<["CC" := s]> (environ w)) w)) as Out.
      destruct (base_build_impl H b _) as [[so|e] w1]; [| discriminate].
      cbn. intros E. injection E as <-. by apply Out.
    + intros so U. destruct (final_path_under _ _ U) as [Uf Ut].
      apply preserves_manually_link_libraries; by apply outside_scratch.
  - apply (preserves_bind_post _ _ _ (under_dir scratch));
      [apply base_build_impl_frame | apply base_build_impl_output |].
    intros so U.
    do 2 (apply preserves_bind; [by apply preserves_fix_under |]; intros _).
    apply preserves_ret.
  - apply (preserves_bind_post _ _ _ (under_dir scratch));
      [apply base_build_impl_frame | apply base_build_impl_output |].
    intros so U.
    do 4 (apply preserves_bind; [by apply preserves_fix_under |]; intros _).
    apply preserves_ret.
  - apply base_build_impl_frame.
Qed.

End Publish.


Lemma broken_gcc_confined :
  toolchain_confined Demo.linux_broken_gcc Demo.cpu_builder
    (get_so_file_path Demo.linux_broken_gcc Demo.cpu_builder).
Proof.
  intros env f. split; [| intros p E; discriminate E].
  change (<["/site/mujoco_py/generated/_pyxbld_2.0.2.5_36_linuxcpuextensionbuilder/temp/cymj.o"
            := RegFile "partial" 7 None]> f !! Demo.cpu_so = f !! Demo.cpu_so).
  apply lookup_insert_ne. unfold Demo.cpu_so. discriminate.
Qed.


(** ** GPU driver discovery and the choice of builder *)

Lemma last_sorted_max (l : list string) (x : string) :
  last (sorted l) = Some x -> x ∈ l /\ forall y, y ∈ l -> String.le y x.
Proof.
  intros L. unfold sorted in L.
  pose proof (StronglySorted_merge_sort String.le l) as S.
  pose proof (merge_sort_Permutation String.le l) as Pm.
  apply last_Some in L as [l' E]. rewrite E in S, Pm.
  split.
  - rewrite <- Pm. apply elem_of_app. right. by apply list_elem_of_singleton.
  - intros y Hy. rewrite <- Pm in Hy. apply elem_of_app in Hy as [Hy | Hy].
    + apply (StronglySorted_app_1_elem_of String.le l' [x]); [exact S | exact Hy |].
      by apply list_elem_of_singleton.
    + apply list_elem_of_singleton in Hy as ->. reflexivity.
Qed.

Lemma last_sorted_none (l : list string) : last (sorted l) = None <-> l = [].
Proof.
  rewrite last_None. unfold sorted. split.
  - intros E. pose proof (merge_sort_Permutation String.le l) as Pm. rewrite E in Pm.
    by apply Permutation_nil_l in Pm.
  - by intros ->.
Qed.

Section Discovery.

Context (H : host).

Lemma get_nvidia_lib_dir_result (w : world) :
  fst (get_nvidia_lib_dir H w)
  = Ok (if negb (has_command H "nvidia-smi") then None
        else if bool_decide (is_Some (fs w !! "/usr/local/nvidia/lib64"))
             then Some "/usr/local/nvidia/lib64"
             else last (sorted (glob_nvidia (fs w)))).
Proof.
  unfold get_nvidia_lib_dir. unfold bind at 1, emit, modify.
  destruct (negb _); [reflexivity |].
  unfold bind at 1, exists_, get. cbn [fs log].
  destruct (bool_decide _); [reflexivity |].
  unfold bind at 1. cbn [fs log].
  destruct (last _) as [latest|]; [| reflexivity].
  unfold bind. by case_bool_decide.
Qed.

Lemma get_nvidia_lib_dir_world (w : world) :
  fs (snd (get_nvidia_lib_dir H w)) = fs w
  /\ environ (snd (get_nvidia_lib_dir H w)) = environ w
  /\ cwd (snd (get_nvidia_lib_dir H w)) = cwd w.
Proof.
  unfold get_nvidia_lib_dir, bind, emit, modify, exists_, get, ret, print.
  cbv beta iota.
  destruct (negb _); cbv beta iota; [repeat split; reflexivity |].
  cbn [fs log].
  destruct (bool_decide _); cbv beta iota; [repeat split; reflexivity |].
  destruct (last _) as [latest|]; cbv beta iota; [| repeat split; reflexivity].
  destruct (bool_decide _); cbv beta iota; repeat split; reflexivity.
Qed.

Lemma ensure_set_env_var_world var lib w : snd (_ensure_set_env_var var lib w) = w.
Proof.
  unfold _ensure_set_env_var, bind, getenv, get. by destruct (negb _).
Qed.

Lemma ensure_set_env_var_indep var lib w w' :
  environ w' = environ w -> cwd w' = cwd w ->
  fst (_ensure_set_env_var var lib w') = fst (_ensure_set_env_var var lib w).
Proof.
  intros Ee Ec. unfold _ensure_set_env_var, bind, getenv, get. rewrite Ee, Ec.
  by destruct (negb _).
Qed.

(** C4, as the code has it.  get_nvidia_lib_dir returns None when the
    shell finds no nvidia-smi; otherwise it returns /usr/local/nvidia/lib64
    when that exists; otherwise it returns the last of the sorted entries
    matching /usr/lib/nvidia-[0-9][0-9][0-9], which is one of them and not
    below any other in string order, and None when there is none.  On linux,
    once LD_LIBRARY_PATH holds the library directory, select_builder binds
    the CPU builder when MUJOCO_PY_FORCE_CPU is set or when
    get_nvidia_lib_dir returns None. *)
Theorem driver_discovery_and_cpu_fallback (mujoco_path : string) (w : world) :
  (has_command H "nvidia-smi" = false -> fst (get_nvidia_lib_dir H w) = Ok None)
  /\ (has_command H "nvidia-smi" = true -> is_Some (fs w !! "/usr/local/nvidia/lib64") ->
      fst (get_nvidia_lib_dir H w) = Ok (Some "/usr/local/nvidia/lib64"))
  /\ (has_command H "nvidia-smi" = true -> fs w !! "/usr/local/nvidia/lib64" = None ->
      fst (get_nvidia_lib_dir H w) = Ok (last (sorted (glob_nvidia (fs w))))
      /\ (glob_nvidia (fs w) = [] -> fst (get_nvidia_lib_dir H w) = Ok None)
      /\ (forall latest,
            fst (get_nvidia_lib_dir H w) = Ok (Some latest) ->
            latest ∈ glob_nvidia (fs w)
            /\ forall p, p ∈ glob_nvidia (fs w) -> String.le p latest))
  /\ (sys_platform H = "linux" ->
      fst (_ensure_set_env_var "LD_LIBRARY_PATH" (Path.join mujoco_path "bin") w) = Ok tt ->
      is_Some (environ w !! "MUJOCO_PY_FORCE_CPU") \/ fst (get_nvidia_lib_dir H w) = Ok None ->
      fst (select_builder H mujoco_path w) = Ok LinuxCPUExtensionBuilder).
Proof.
  pose proof (get_nvidia_lib_dir_result w) as R.
  split; [| split; [| split]].
  - intros Hs. rewrite R, Hs. reflexivity.
  - intros Hs Hd. rewrite R, Hs. cbn [negb]. by rewrite bool_decide_eq_true_2.
  - intros Hs Hd. rewrite Hs in R. cbn [negb] in R.
    rewrite bool_decide_eq_false_2 in R by (rewrite Hd; by intros [? ?]).
    split; [exact R |]. split.
    + intros E. rewrite R, E. reflexivity.
    + intros latest E. rewrite R in E. injection E as E. by apply last_sorted_max.
  - intros Hl He Hcpu. unfold select_builder. rewrite Hl.
    change (("linux" =? "darwin")%string) with false.
    change (("linux" =? "linux")%string) with true. cbv iota.
    unfold bind at 1.
    pose proof (ensure_set_env_var_world "LD_LIBRARY_PATH" (Path.join mujoco_path "bin") w) as Ew.
    destruct (_ensure_set_env_var "LD_LIBRARY_PATH" (Path.join mujoco_path "bin") w)
      as [[[]|e] w0]; cbn in He, Ew; [| discriminate He]. subst w0.
    unfold bind at 1, getenv, get.
    destruct (environ w !! "MUJOCO_PY_FORCE_CPU") as [v|] eqn:Ef.
    + reflexivity.
    + destruct Hcpu as [[v Hv] | Hn]; [discriminate Hv |].
      unfold bind at 1. unfold bind at 1.
      destruct (get_nvidia_lib_dir H w) as [[d|e] w1]; cbn in Hn; [| discriminate Hn].
      injection Hn as ->. reflexivity.
Qed.

End Discovery.

Lemma driver_discovery_and_cpu_fallback_witness :
  fst (get_nvidia_lib_dir Demo.linux (Demo.world_of Demo.three_drivers Demo.ld_env))
  = Ok (Some "/usr/lib/nvidia-450")
  /\ fst (select_builder Demo.linux_no_smi "/opt/mujoco200"
            (Demo.world_of Demo.three_drivers Demo.ld_env))
     = Ok LinuxCPUExtensionBuilder
  /\ fst (select_builder Demo.linux "/opt/mujoco200"
            (Demo.world_of Demo.three_drivers Demo.cpu_env))
     = Ok LinuxCPUExtensionBuilder.
Proof.
  split; [| split].
  - destruct (driver_discovery_and_cpu_fallback Demo.linux "/opt/mujoco200"
                (Demo.world_of Demo.three_drivers Demo.ld_env)) as (_ & _ & Sorted & _).
    destruct Sorted as (E & _); [reflexivity | vm_compute; reflexivity |].
    rewrite E. vm_compute. reflexivity.
  - destruct (driver_discovery_and_cpu_fallback Demo.linux_no_smi "/opt/mujoco200"
                (Demo.world_of Demo.three_drivers Demo.ld_env)) as (No & _ & _ & Cpu).
    apply Cpu; [reflexivity | vm_compute; reflexivity |].
    right. apply No. reflexivity.
  - destruct (driver_discovery_and_cpu_fallback Demo.linux "/opt/mujoco200"
                (Demo.world_of Demo.three_drivers Demo.cpu_env)) as (_ & _ & _ & Cpu).
    apply Cpu; [reflexivity | vm_compute; reflexivity |].
    left. vm_compute. eexists. reflexivity.
Defined.

(** C4 as claimed fails: with nvidia-410, nvidia-415 and nvidia-450 in
    /usr/lib, no driver is returned when the shell has no nvidia-smi, and the
    container path is returned instead of nvidia-450 when it exists. *)
Lemma drivers_present_but_not_chosen :
  fst (get_nvidia_lib_dir Demo.linux_no_smi (Demo.world_of Demo.three_drivers Demo.ld_env))
  = Ok None
  /\ fst (get_nvidia_lib_dir Demo.linux
            (Demo.world_of (<["/usr/local/nvidia/lib64" := Dir 1]> Demo.three_drivers)
               Demo.ld_env))
     = Ok (Some "/usr/local/nvidia/lib64")
  /\ glob_nvidia Demo.three_drivers <> [].
Proof.
  split; [vm_compute; reflexivity |]. split; [vm_compute; reflexivity |].
  vm_compute. discriminate.
Qed.

(** ** Compiler flags *)

Lemma list_remove_absent (x : string) (l : list string) :
  x ∉ l -> list_remove x l = None.
Proof.
  induction l as [|y l IH]; intros Hx; [done |].
  apply not_elem_of_cons in Hx as [Hne Hl]. cbn [list_remove].
  destruct (String.eqb_spec y x) as [-> | _]; [done |]. by rewrite IH.
Qed.

Lemma list_remove_first (x : string) (a b : list string) :
  x ∉ a -> list_remove x (a ++ x :: b) = Some (a ++ b).
Proof.
  induction a as [|y a IH]; intros Hx.
  - cbn [app list_remove]. by rewrite String.eqb_refl.
  - apply not_elem_of_cons in Hx as [Hne Ha]. cbn [app list_remove].
    destruct (String.eqb_spec y x) as [-> | _]; [done |]. by rewrite IH.
Qed.

(** The flag dropped from the compiler command is the first
    -Wstrict-prototypes only: the words before it and after it keep their
    order, a second occurrence stays, and a command without the flag, or a
    compiler without a command list, is left as it is. *)
Theorem strip_strict_prototypes_first_only (compiler_so : option (list string)) :
  (compiler_so = None -> strip_strict_prototypes compiler_so = None)
  /\ (forall flags, compiler_so = Some flags -> "-Wstrict-prototypes" ∉ flags ->
        strip_strict_prototypes compiler_so = Some flags)
  /\ (forall a b, compiler_so = Some (a ++ "-Wstrict-prototypes" :: b) ->
        "-Wstrict-prototypes" ∉ a ->
        strip_strict_prototypes compiler_so = Some (a ++ b)).
Proof.
  split; [by intros -> |]. split.
  - intros flags -> Hn. unfold strip_strict_prototypes. by rewrite list_remove_absent.
  - intros a b -> Hn. unfold strip_strict_prototypes. by rewrite list_remove_first.
Qed.

Lemma strip_strict_prototypes_first_only_witness :
  strip_strict_prototypes
    (Some ["gcc"; "-Wall"; "-Wstrict-prototypes"; "-fPIC"; "-Wstrict-prototypes"])
  = Some ["gcc"; "-Wall"; "-fPIC"; "-Wstrict-prototypes"]
  /\ strip_strict_prototypes (Some ["cl.exe"; "/O2"]) = Some ["cl.exe"; "/O2"]
  /\ strip_strict_prototypes None = None.
Proof.
  split; [| split].
  - apply (proj2 (proj2 (strip_strict_prototypes_first_only
             (Some (["gcc"; "-Wall"] ++ "-Wstrict-prototypes" :: ["-fPIC"; "-Wstrict-prototypes"]))))
             ["gcc"; "-Wall"] ["-fPIC"; "-Wstrict-prototypes"]); [reflexivity |].
    intros Hin. apply elem_of_cons in Hin as [Hin | Hin]; [discriminate Hin |].
    apply elem_of_cons in Hin as [Hin | Hin]; [discriminate Hin |].
    by apply elem_of_nil in Hin.
  - apply (proj1 (proj2 (strip_strict_prototypes_first_only (Some ["cl.exe"; "/O2"])))
             ["cl.exe"; "/O2"]); [reflexivity |].
    intros Hin. apply elem_of_cons in Hin as [Hin | Hin]; [discriminate Hin |].
    apply elem_of_cons in Hin as [Hin | Hin]; [discriminate Hin |].
    by apply elem_of_nil in Hin.
  - apply (proj1 (strip_strict_prototypes_first_only None)). reflexivity.
Defined.

(** ** Warnings *)

Lemma prefix_app (a b : string) : String.prefix a (a +:+ b) = true.
Proof.
  induction a as [|c a IH]; [by destruct b |].
  rewrite str_app_cons. cbn [String.prefix].
  destruct (ascii_dec c c) as [_ | N]; [exact IH | by destruct N].
Qed.

Lemma contains_app_l (a b : string) : Str.contains a (a +:+ b) = true.
Proof.
  destruct (a +:+ b) eqn:E; cbn [Str.contains]; rewrite <- E, prefix_app; reflexivity.
Qed.

Lemma contains_app_r (p a : string) : Str.contains a (p +:+ a) = true.
Proof.
  induction p as [|c p IH].
  - change ("" +:+ a) with a. rewrite <- (str_app_nil_r a) at 2. apply contains_app_l.
  - rewrite str_app_cons. cbn [Str.contains]. rewrite IH. apply orb_true_r.
Qed.

(** Bytes that are not UTF-8 end the callback with UnicodeDecodeError
    before any pattern is looked for.  Otherwise a MujocoException is raised
    whose message holds the warning text itself; a full constraint buffer is
    answered with the njmax advice even when the text also reports a full
    contact buffer or an unknown warning type; and a text with none of the
    three patterns gets the general prefix. *)
Theorem user_warning_keeps_the_text (warn_bytes : list Byte.byte) :
  (decode warn_bytes = None ->
     user_warning_raise_exception warn_bytes = UnicodeDecodeError)
  /\ (forall warn, decode warn_bytes = Some warn ->
        (exists msg, user_warning_raise_exception warn_bytes = MujocoException msg
                     /\ Str.contains warn msg = true)
        /\ (Str.contains "Pre-allocated constraint buffer is full" warn = true ->
            user_warning_raise_exception warn_bytes
            = MujocoException (warn +:+ "Increase njmax in mujoco XML"))
        /\ (Str.contains "Pre-allocated constraint buffer is full" warn = false ->
            Str.contains "Pre-allocated contact buffer is full" warn = false ->
            Str.contains "Unknown warning type" warn = false ->
            user_warning_raise_exception warn_bytes
            = MujocoException ("Got MuJoCo Warning: " +:+ warn))).
Proof.
  unfold user_warning_raise_exception. split; [by intros -> |].
  intros warn ->. split; [| split].
  - destruct (Str.contains "Pre-allocated constraint buffer is full" warn);
      [eexists; split; [reflexivity | apply contains_app_l] |].
    destruct (Str.contains "Pre-allocated contact buffer is full" warn);
      [eexists; split; [reflexivity | apply contains_app_l] |].
    destruct (Str.contains "Unknown warning type" warn);
      eexists; (split; [reflexivity |]); [apply contains_app_l | apply contains_app_r].
  - by intros ->.
  - by intros -> -> ->.
Qed.

Lemma user_warning_keeps_the_text_witness :
  user_warning_raise_exception
    (list_byte_of_string
       "WARNING: Pre-allocated constraint buffer is full. Pre-allocated contact buffer is full.")
  = MujocoException
      ("WARNING: Pre-allocated constraint buffer is full. Pre-allocated contact buffer is full."
       +:+ "Increase njmax in mujoco XML")
  /\ user_warning_raise_exception (list_byte_of_string "Nan, Inf or huge value in QACC")
     = MujocoException "Got MuJoCo Warning: Nan, Inf or huge value in QACC"
  /\ user_warning_raise_exception (list_byte_of_string "Unknown warning type" ++ [xff])
     = UnicodeDecodeError.
Proof.
  split; [| split].
  - apply (proj1 (proj2 (proj2 (user_warning_keeps_the_text
      (list_byte_of_string
         "WARNING: Pre-allocated constraint buffer is full. Pre-allocated contact buffer is full."))
      "WARNING: Pre-allocated constraint buffer is full. Pre-allocated contact buffer is full."
      ltac:(vm_compute; reflexivity)))).
    vm_compute. reflexivity.
  - apply (proj2 (proj2 (proj2 (user_warning_keeps_the_text
                                  (list_byte_of_string "Nan, Inf or huge value in QACC"))
                                "Nan, Inf or huge value in QACC"
                                ltac:(vm_compute; reflexivity))));
      vm_compute; reflexivity.
  - apply (proj1 (user_warning_keeps_the_text _)). vm_compute. reflexivity.
Defined.

(** Leaving a [with ignore_mujoco_warnings()] block puts back the
    callback that was installed when the block was entered: whatever the body
    installed meanwhile, and whether the body returned or raised; the body
    itself starts with the ignoring callback. *)
Theorem ignore_mujoco_warnings_restores {A} (C : callback_slot)
    (body : slot_state C -> result A * slot_state C) (s : slot_state C) :
  (forall c s0, get_warning_callback C (set_warning_callback C c s0) = c) ->
  get_warning_callback C (snd (with_ignore_mujoco_warnings C body s))
  = get_warning_callback C s
  /\ fst (with_ignore_mujoco_warnings C body s)
     = fst (body (set_warning_callback C user_warning_ignore_exception_cb s))
  /\ get_warning_callback C (set_warning_callback C user_warning_ignore_exception_cb s)
     = user_warning_ignore_exception_cb.
Proof.
  intros Law. unfold with_ignore_mujoco_warnings.
  destruct (body _) as [r s2]. cbn [fst snd]. by rewrite !Law.
Qed.

(** ** The functions table *)

Lemma startswith_underscore_mj (x : string) :
  Str.startswith "_mj" x = true ->
  x = "_" +:+ Str.from 1 x /\ Str.startswith "mj" (Str.from 1 x) = true.
Proof.
  destruct x as [|c x]; [discriminate |].
  unfold Str.startswith. cbn [String.prefix].
  destruct (ascii_dec "_" c) as [<- | _]; [| discriminate].
  intros Hp.
  assert (E : Str.from 1 (String "_" x) = x) by apply of_chars_chars.
  rewrite E. by split.
Qed.

Lemma expose_fold {V} (cymj : gmap string V) (l : list string) : forall n,
  foldl (expose_step cymj) ∅ l !! n
  = if Str.startswith "mj" n && bool_decide ("_" +:+ n ∈ l)
    then cymj !! ("_" +:+ n) else None.
Proof.
  induction l as [|x l IH] using rev_ind; intros n.
  - cbn [foldl]. rewrite lookup_empty.
    rewrite bool_decide_eq_false_2 by apply not_elem_of_nil. by rewrite andb_false_r.
  - rewrite foldl_app. cbn [foldl]. unfold expose_step at 1.
    assert (Hmem : "_" +:+ n <> x ->
              bool_decide ("_" +:+ n ∈ l ++ [x]) = bool_decide ("_" +:+ n ∈ l)).
    { intros Hne. apply bool_decide_ext. rewrite elem_of_app, list_elem_of_singleton. tauto. }
    destruct (Str.startswith "_mj" x) eqn:Hx.
    + apply startswith_underscore_mj in Hx as [Ex Hmj].
      destruct (cymj !! x) as [f|] eqn:Ef.
      * destruct (decide (n = Str.from 1 x)) as [-> | Hne].
        -- rewrite lookup_insert_eq, Hmj, <- Ex.
           rewrite bool_decide_eq_true_2 by (apply elem_of_app; right; by left).
           by rewrite Ef.
        -- rewrite lookup_insert_ne by done. rewrite IH, Hmem; [done |].
           intros E. rewrite Ex in E. by apply (inj (String.app "_")) in E.
      * rewrite IH. destruct (decide ("_" +:+ n = x)) as [E | Hne]; [| by rewrite Hmem].
        rewrite E, Ef. by repeat case_match.
    + rewrite IH. destruct (decide ("_" +:+ n = x)) as [E | Hne]; [| by rewrite Hmem].
      assert (Hn : Str.startswith "mj" n = false).
      { rewrite <- E in Hx. exact Hx. }
      by rewrite Hn.
Qed.

(** Every attribute of cymj whose name starts with _mj is reachable in
    the functions table under the name without the underscore, with the same
    value, and the table holds nothing else: a name that does not start with
    mj is never in it, and no exposed function hides another. *)
Theorem expose_functions_lookup {V} (cymj : gmap string V) (n : string) :
  expose_functions cymj !! n
  = if Str.startswith "mj" n then cymj !! ("_" +:+ n) else None.
Proof.
  unfold expose_functions. rewrite expose_fold.
  destruct (Str.startswith "mj" n); [| done]. cbn [andb].
  case_bool_decide as Hin; [done |].
  rewrite elem_of_elements, elem_of_dom in Hin.
  destruct (cymj !! ("_" +:+ n)) as [f|]; [| done]. destruct Hin. by eexists.
Qed.

(** ** Components of the world that the program leaves alone *)

Section Keeps.

Context {X : Type} (proj : world -> X).
Hypothesis Hapart : apart proj.

Lemma apart_log w ev : proj (log ev w) = proj w.
Proof. by destruct Hapart as (L & _ & _). Qed.

Lemma apart_fs w f : proj (set_fs f w) = proj w.
Proof. by destruct Hapart as (_ & F & _). Qed.

Lemma apart_environ w e : proj (set_environ e w) = proj w.
Proof. by destruct Hapart as (_ & _ & E). Qed.

Lemma keeps_ret {A} (a : A) : keeps proj (ret a).
Proof. by intros w. Qed.

Lemma keeps_raise {A} e : keeps proj (@raise A e).
Proof. by intros w. Qed.

Lemma keeps_get {A} (f : world -> A) : keeps proj (get f).
Proof. by intros w. Qed.

Lemma keeps_bind {A B} (m : M A) (k : A -> M B) :
  keeps proj m -> (forall a, keeps proj (k a)) -> keeps proj (bind m k).
Proof.
  intros Hm Hk w. unfold bind. specialize (Hm w).
  destruct (m w) as [[a|e] w']; cbn [snd] in *; [| done]. by rewrite Hk.
Qed.

Lemma keeps_try_except {A} (m : M A) c h :
  keeps proj m -> (forall e, keeps proj (h e)) -> keeps proj (try_except m c h).
Proof.
  intros Hm Hh w. unfold try_except. specialize (Hm w).
  destruct (m w) as [[a|e] w']; cbn [snd] in *; [done |].
  destruct (c e); [| done]. by rewrite Hh.
Qed.

Lemma keeps_emit ev : keeps proj (emit ev).
Proof. intros w. apply apart_log. Qed.

Lemma keeps_modify_env (f : world -> gmap string string) :
  keeps proj (modify (fun w => set_environ (f w) w)).
Proof. intros w. apply apart_environ. Qed.

Lemma keeps_for_each {A} (l : list A) (body : A -> M unit) :
  (forall x, keeps proj (body x)) -> keeps proj (for_each l body).
Proof.
  intros Hb. induction l as [|x l IH]; cbn [for_each]; [apply keeps_ret |].
  apply keeps_bind; auto.
Qed.

Lemma keeps_getmtime p : keeps proj (getmtime p).
Proof. intros w. unfold getmtime. by destruct (fs w !! p). Qed.

Lemma keeps_copyfile a b : keeps proj (copyfile a b).
Proof.
  intros w. unfold copyfile. destruct (String.eqb a b); [done |].
  destruct (fs w !! a) as [[d t g|t]|]; [| done | done].
  destruct (fs w !! b) as [[d' t' g'|t']|]; cbn [snd]; [| done |]; apply apart_fs.
Qed.

Lemma keeps_os_rename a b : keeps proj (os_rename a b).
Proof.
  intros w. unfold os_rename.
  destruct (fs w !! a) as [[d t g|t]|]; [| | done];
    destruct (fs w !! b) as [[d' t' g'|t']|]; cbn [snd]; try done; apply apart_fs.
Qed.

Lemma keeps_move a b : keeps proj (move a b).
Proof.
  unfold move. apply keeps_bind; [apply keeps_get |]. intros o. destruct (is_dir o).
  - apply keeps_bind; [apply keeps_get |]. intros [|]; [apply keeps_raise |].
    apply keeps_bind; [apply keeps_os_rename | intros; apply keeps_ret].
  - apply keeps_bind; [apply keeps_os_rename | intros; apply keeps_ret].
Qed.

Lemma keeps_os_remove p : keeps proj (os_remove p).
Proof.
  intros w. unfold os_remove.
  destruct (fs w !! p) as [[d t [e|]|t]|]; cbn [snd]; rewrite apart_log; try done.
  apply apart_fs.
Qed.

Lemma keeps_os_makedirs p : keeps proj (os_makedirs p).
Proof.
  unfold os_makedirs. apply keeps_bind; [apply keeps_emit |]. intros _ w.
  destruct (makedirs_only_fs (String.length p) p w) as [f ->]. apply apart_fs.
Qed.

Context (H : host).

Lemma keeps_check_call argv : keeps proj (check_call H argv).
Proof.
  unfold check_call. apply keeps_bind; [apply keeps_emit |]. intros _ w.
  destruct (negb _); [done |].
  destruct (fs w !! List.last argv "") as [[d t g|t]|]; [| done | done].
  destruct (edit_tool H _ d); cbn [snd]; [apply apart_fs | done].
Qed.

Lemma keeps_check_output argv : keeps proj (check_output H argv).
Proof.
  unfold check_output. apply keeps_bind; [apply keeps_emit |]. intros _ w.
  destruct (negb _); [done |].
  destruct (fs w !! List.last argv "") as [[d t g|t]|]; [| done | done].
  by destruct (query_tool H _ d).
Qed.

Lemma keeps_load_dynamic_ext name path : keeps proj (load_dynamic_ext H name path).
Proof.
  unfold load_dynamic_ext. apply keeps_bind; [apply keeps_emit |]. by intros _ w.
Qed.

Lemma keeps_fix_shared_library so name lib : keeps proj (fix_shared_library H so name lib).
Proof.
  unfold fix_shared_library.
  apply keeps_bind; [apply keeps_check_call |]. intros _.
  apply keeps_bind; [apply keeps_check_output |]. intros out.
  apply keeps_bind; [| intros _; apply keeps_check_call].
  destruct (Str.contains name out); [apply keeps_check_call | apply keeps_ret].
Qed.

Lemma keeps_manually_link_libraries mp raw : keeps proj (manually_link_libraries H mp raw).
Proof.
  unfold manually_link_libraries.
  apply keeps_bind; [apply keeps_get |]. intros present.
  apply keeps_bind.
  { destruct present; [| apply keeps_ret].
    apply keeps_bind; [apply keeps_getmtime |]. intros tf.
    apply keeps_bind; [apply keeps_getmtime |]. intros tr. apply keeps_ret. }
  intros [|]; [apply keeps_ret |].
  apply keeps_bind; [apply keeps_copyfile |]. intros _.
  apply keeps_bind; [apply keeps_check_call |]. intros _.
  apply keeps_bind; [apply keeps_check_call |]. intros _.
  apply keeps_bind; [apply keeps_os_rename |]. intros _. apply keeps_ret.
Qed.

Lemma keeps_base_build_impl b : keeps proj (base_build_impl H b).
Proof.
  unfold base_build_impl. apply keeps_bind; [apply keeps_emit |]. intros _ w.
  destruct (run_commands _ _ _ _ _) as [f' r]. cbn [snd]. apply apart_fs.
Qed.

Lemma keeps__build_impl b : keeps proj (_build_impl H b).
Proof.
  unfold _build_impl. destruct (klass b).
  - apply keeps_bind; [apply keeps_get |]. intros cc.
    apply keeps_bind; [| intros; apply keeps_manually_link_libraries].
    destruct (negb (truthy cc)); [| apply keeps_base_build_impl].
    apply keeps_bind; [apply keeps_get |]. intros files.
    destruct (find _ _); [| apply keeps_raise].
    apply keeps_bind; [apply (keeps_modify_env (fun w => <["CC" := s]> (environ w))) |].
    intros _. apply keeps_bind; [apply keeps_base_build_impl |]. intros so.
    apply keeps_bind; [apply (keeps_modify_env (fun w => delete "CC" (environ w))) |].
    intros; apply keeps_ret.
  - apply keeps_bind; [apply keeps_base_build_impl |]. intros so.
    do 2 (apply keeps_bind; [apply keeps_fix_shared_library |]; intros _).
    apply keeps_ret.
  - apply keeps_bind; [apply keeps_base_build_impl |]. intros so.
    do 4 (apply keeps_bind; [apply keeps_fix_shared_library |]; intros _).
    apply keeps_ret.
  - apply keeps_base_build_impl.
Qed.

Lemma keeps_build b : keeps proj (build H b).
Proof.
  unfold build. apply keeps_bind; [apply keeps__build_impl |]. intros p.
  apply keeps_bind; [apply keeps_move | intros; apply keeps_ret].
Qed.

Lemma keeps_get_nvidia_lib_dir : keeps proj (get_nvidia_lib_dir H).
Proof.
  unfold get_nvidia_lib_dir. apply keeps_bind; [apply keeps_emit |]. intros _.
  destruct (negb _); [apply keeps_ret |].
  apply keeps_bind; [apply keeps_get |]. intros [|]; [apply keeps_ret |].
  apply keeps_bind; [apply keeps_get |]. intros paths.
  destruct (last (sorted paths)); [| apply keeps_ret].
  apply keeps_bind; [| intros; apply keeps_ret].
  case_bool_decide; [apply keeps_emit | apply keeps_ret].
Qed.

Lemma keeps_ensure_set_env_var var lib : keeps proj (_ensure_set_env_var var lib).
Proof. intros w. by rewrite ensure_set_env_var_world. Qed.

Lemma keeps_select_builder mp : keeps proj (select_builder H mp).
Proof.
  unfold select_builder.
  destruct (String.eqb _ "darwin"); [apply keeps_ret |].
  destruct (String.eqb _ "linux").
  { apply keeps_bind; [apply keeps_ensure_set_env_var |]. intros _.
    apply keeps_bind; [apply keeps_get |]. intros force_cpu.
    apply keeps_bind.
    { destruct force_cpu; [apply keeps_ret |].
      apply keeps_bind; [apply keeps_get_nvidia_lib_dir | intros; apply keeps_ret]. }
    intros [|]; [| apply keeps_ret].
    apply keeps_bind; [apply keeps_get_nvidia_lib_dir |]. intros d.
    apply keeps_bind; [apply keeps_ensure_set_env_var | intros; apply keeps_ret]. }
  destruct (Str.startswith _ _); [| apply keeps_raise].
  apply keeps_bind; [apply keeps_get |]. intros v.
  destruct (match v with Some _ => _ | None => _ end); [apply keeps_raise | apply keeps_ret].
Qed.

Lemma keeps_new_builder c mp : keeps proj (new_builder H c mp).
Proof.
  unfold new_builder. destruct c; try apply keeps_ret.
  apply keeps_bind; [apply keeps_get |]. intros [p|]; [| apply keeps_raise].
  apply keeps_bind; [| intros; apply keeps_ret].
  apply (keeps_modify_env (fun w => <["PATH" := p +:+ ";" +:+ Path.join mp "bin"]> (environ w))).
Qed.

Lemma keeps_resolve_builder mp : keeps proj (resolve_builder H mp).
Proof.
  unfold resolve_builder. apply keeps_bind; [apply keeps_get |]. intros here.
  apply keeps_bind.
  { destruct (glfw_file H); [| apply keeps_ret].
    destruct (Str.contains _ _); [apply keeps_emit | apply keeps_ret]. }
  intros _. apply keeps_bind; [apply keeps_select_builder |]. intros c.
  apply keeps_new_builder.
Qed.

End Keeps.

Lemma ignore_mujoco_warnings_restores_witness :
  with_ignore_mujoco_warnings Samples.plain_slot Samples.rude_body
    user_warning_raise_exception_cb
  = (Raise (RuntimeError "simulation diverged"), user_warning_raise_exception_cb).
Proof.
  pose proof (ignore_mujoco_warnings_restores Samples.plain_slot Samples.rude_body
                user_warning_raise_exception_cb (fun c s0 => eq_refl)) as (Hget & Hres & _).
  apply injective_projections; [exact Hres | exact Hget].
Defined.

(** ** The build lock *)

Lemma lock_walk_app (a c : list event) : forall b,
  lock_walk b (a ++ c) = match lock_walk b a with
                          | Some b' => lock_walk b' c
                          | None => None
                          end.
Proof.
  induction a as [|ev a IH]; intros b; [done |].
  cbn [app lock_walk]. destruct ev, b; try apply IH; done.
Qed.

Lemma lock_walk_neutral (evs : list event) (b : bool) :
  Forall (fun ev => is_neutral ev = true) evs -> lock_walk b evs = Some b.
Proof.
  induction 1 as [|ev evs Hev _ IH]; [done |].
  destruct ev; try discriminate Hev; exact IH.
Qed.

Lemma lock_walk_inside (evs : list event) :
  Forall (fun ev => is_lock_event ev = false) evs -> lock_walk true evs = Some true.
Proof.
  induction 1 as [|ev evs Hev _ IH]; [done |].
  destruct ev; try discriminate Hev; exact IH.
Qed.

Lemma walks_neutral {A} (m : M A) (b : bool) :
  emits (fun ev => is_neutral ev = true) m -> walks b b m.
Proof.
  intros Hm w. destruct (Hm w) as (evs & E & F). exists evs.
  split; [exact E | by apply lock_walk_neutral].
Qed.

Lemma walks_bind {A B} (m : M A) (k : A -> M B) (b1 b2 : bool) :
  walks b1 b2 m -> (forall a, walks b2 b2 (k a)) -> walks b1 b2 (bind m k).
Proof.
  intros Hm Hk w. unfold bind. destruct (Hm w) as (evs & E & L).
  destruct (m w) as [[a|e] w']; cbn [snd] in *; [| by exists evs].
  destruct (Hk a w') as (evs' & E' & L'). exists (evs ++ evs').
  rewrite E', E, app_assoc, lock_walk_app, L. by split.
Qed.

Lemma walks_with_LockFile {A} path (m : M A) :
  emits (fun ev => is_lock_event ev = false) m -> walks false false (with_LockFile path m).
Proof.
  intros Hm w. unfold with_LockFile.
  destruct (lock_refusal path w);
    [exists []; cbn [snd]; split; [by rewrite app_nil_r | reflexivity] |].
  destruct (Hm (log (EvAcquire path) (set_held (path :: held w) w))) as (evs & E & F).
  destruct (m _) as [r w2]. cbn [snd] in *.
  exists (EvAcquire path :: evs ++ [EvRelease path]). split.
  - cbn. rewrite E. cbn. by rewrite <- !app_assoc.
  - cbn [lock_walk]. rewrite lock_walk_app, (lock_walk_inside _ F). reflexivity.
Qed.

Lemma held_apart : apart held.
Proof. repeat split. Qed.

Lemma with_LockFile_releases {A} path (m : M A) :
  keeps held m -> keeps held (with_LockFile path m).
Proof.
  intros Hm w. unfold with_LockFile.
  destruct (lock_refusal path w); [reflexivity |].
  specialize (Hm (log (EvAcquire path) (set_held (path :: held w) w))).
  destruct (m _) as [r w2]. cbn [snd] in *. by rewrite Hm.
Qed.

Section Lock_discipline.

Context (H : host).

Lemma keeps_held_force_rebuild_purge so : keeps held (force_rebuild_purge so).
Proof.
  unfold force_rebuild_purge. apply keeps_bind; [apply keeps_get |]. intros flag.
  destruct (truthy flag); [| apply keeps_ret].
  apply keeps_bind; [apply (keeps_os_makedirs held held_apart) |]. intros _.
  apply with_LockFile_releases.
  apply keeps_bind; [apply (keeps_emit held held_apart) |]. intros _.
  apply keeps_try_except; [apply (keeps_os_remove held held_apart) | intros; apply keeps_ret].
Qed.

Lemma keeps_held_rebuild_and_load b : keeps held (rebuild_and_load H b).
Proof.
  unfold rebuild_and_load. apply with_LockFile_releases.
  apply keeps_bind; [apply (keeps_build held held_apart) |]. intros p.
  apply (keeps_load_dynamic_ext held held_apart).
Qed.

Lemma keeps_held_load_or_rebuild b so : keeps held (load_or_rebuild H b so).
Proof.
  unfold load_or_rebuild. apply keeps_bind; [apply keeps_get |]. intros present.
  apply keeps_bind.
  { destruct present; [| apply keeps_ret].
    apply keeps_try_except.
    - apply keeps_bind; [apply (keeps_load_dynamic_ext held held_apart) |].
      intros; apply keeps_ret.
    - intros e. apply keeps_bind; [apply (keeps_emit held held_apart) |].
      intros; apply keeps_ret. }
  intros [m|]; [apply keeps_ret | apply keeps_held_rebuild_and_load].
Qed.

Lemma walks_force_rebuild_purge so : walks false false (force_rebuild_purge so).
Proof.
  unfold force_rebuild_purge.
  apply walks_bind; [apply walks_neutral, emits_get |]. intros flag.
  destruct (truthy flag); [| apply walks_neutral, emits_ret].
  apply walks_bind; [apply walks_neutral; by apply emits_os_makedirs |]. intros _.
  apply walks_with_LockFile.
  apply emits_bind; [by apply emits_emit |]. intros _.
  apply emits_try_except; [by apply emits_os_remove | intros; apply emits_ret].
Qed.

Lemma walks_rebuild_and_load b : walks false false (rebuild_and_load H b).
Proof.
  unfold rebuild_and_load. apply walks_with_LockFile.
  apply emits_bind; [by apply emits_build |]. intros p.
  by apply emits_load_dynamic_ext.
Qed.

Lemma walks_load_or_rebuild b so : walks false false (load_or_rebuild H b so).
Proof.
  unfold load_or_rebuild.
  apply walks_bind; [apply walks_neutral, emits_get |]. intros present.
  apply walks_bind.
  { apply walks_neutral. destruct present; [| apply emits_ret].
    apply emits_try_except.
    - apply emits_bind; [by apply emits_load_dynamic_ext | intros; apply emits_ret].
    - intros e. apply emits_bind; [by apply emits_emit | intros; apply emits_ret]. }
  intros [m|]; [apply walks_neutral, emits_ret | apply walks_rebuild_and_load].
Qed.

(** Whatever load_cython_ext meets, the build lock is handled in pairs:
    it is never taken while already held, every acquire is followed by its
    release even when the build or the load raises, distutils runs and the
    artifact is removed only between an acquire and its release, and the
    locks held when the call ends are those held when it began. *)
Theorem load_cython_ext_lock_discipline (mujoco_path : string) (w : world) :
  held (snd (load_cython_ext H mujoco_path w)) = held w
  /\ exists evs,
       trace (snd (load_cython_ext H mujoco_path w)) = trace w ++ evs
       /\ lock_walk false evs = Some false.
Proof.
  split.
  - revert w. change (keeps held (load_cython_ext H mujoco_path)).
    unfold load_cython_ext.
    apply keeps_bind; [apply (keeps_resolve_builder held held_apart) |]. intros b.
    apply keeps_bind; [apply keeps_held_force_rebuild_purge |]. intros _.
    apply keeps_held_load_or_rebuild.
  - revert w. change (walks false false (load_cython_ext H mujoco_path)).
    unfold load_cython_ext.
    apply walks_bind; [apply walks_neutral; by apply emits_resolve_builder |]. intros b.
    apply walks_bind; [apply walks_force_rebuild_purge |]. intros _.
    apply walks_load_or_rebuild.
Qed.


End Lock_discipline.


(** ** One artifact and one scratch directory per builder class *)

Section Cache_keys.

Context (H : host).

Lemma new_builder_version c mp w b w' :
  new_builder H c mp w = (Ok b, w') ->
  klass b = c /\ mujoco_path b = mp
  /\ version b = get_version H +:+ "_" +:+ python_version H +:+ "_" +:+ build_base c.
Proof.
  unfold new_builder. destruct c.
  - unfold ret. intros E. injection E as <- _. by repeat split.
  - unfold ret. intros E. injection E as <- _. by repeat split.
  - unfold ret. intros E. injection E as <- _. by repeat split.
  - unfold bind at 1, getenv, get. destruct (environ w !! "PATH"); [| discriminate].
    unfold bind, modify, ret. intros E. injection E as <- _. by repeat split.
Qed.

Lemma build_base_inj_suffix (c1 c2 : BuilderClass) (s1 s2 : string) :
  build_base c1 +:+ s1 = build_base c2 +:+ s2 -> String.length s1 = String.length s2 ->
  c1 = c2.
Proof.
  intros E L. apply (f_equal String.length) in E as EL. rewrite !str_app_length in EL.
  destruct c1, c2; try reflexivity; vm_compute in EL; try lia;
    vm_compute in E; discriminate E.
Qed.

(** Builders of two different classes never share the artifact path or
    the scratch directory, so a CPU and a GPU build cannot overwrite each
    other; builders of one class share both whatever MuJoCo directory they
    were made for: the path is made of the package version, the Python
    version and the class name only. *)
Theorem artifact_path_per_builder_class (c1 c2 : BuilderClass) (mp1 mp2 : string)
    (w1 w2 w1' w2' : world) (b1 b2 : builder) :
  new_builder H c1 mp1 w1 = (Ok b1, w1') ->
  new_builder H c2 mp2 w2 = (Ok b2, w2') ->
  (c1 <> c2 ->
     get_so_file_path H b1 <> get_so_file_path H b2 /\ pyxbld_dir H b1 <> pyxbld_dir H b2)
  /\ (c1 = c2 ->
        get_so_file_path H b1 = get_so_file_path H b2 /\ pyxbld_dir H b1 = pyxbld_dir H b2).
Proof.
  intros E1 E2.
  apply new_builder_version in E1 as (_ & _ & V1).
  apply new_builder_version in E2 as (_ & _ & V2).
  rewrite !get_so_file_path_shape, !pyxbld_dir_shape, V1, V2. split.
  - intros Hne. split; intros E; apply Hne.
    + rewrite !str_app_assoc in E. do 6 apply (inj (String.app _)) in E.
      by apply build_base_inj_suffix in E.
    + rewrite ?str_app_assoc in E. do 6 apply (inj (String.app _)) in E.
      rewrite <- (str_app_nil_r (build_base c1)), <- (str_app_nil_r (build_base c2)) in E.
      by apply build_base_inj_suffix in E.
  - by intros ->.
Qed.

End Cache_keys.

Lemma artifact_path_per_builder_class_witness :
  get_so_file_path Demo.linux Demo.cpu_builder
  <> get_so_file_path Demo.linux Samples.gpu_builder
  /\ pyxbld_dir Demo.linux Demo.cpu_builder <> pyxbld_dir Demo.linux Samples.gpu_builder.
Proof.
  refine (proj1 (artifact_path_per_builder_class Demo.linux
                   LinuxCPUExtensionBuilder LinuxGPUExtensionBuilder
                   "/opt/mujoco200" "/opt/mujoco210"
                   (Demo.world_of ∅ ∅) (Demo.world_of ∅ ∅)
                   (Demo.world_of ∅ ∅) (Demo.world_of ∅ ∅) _ _ _ _) _).
  - vm_compute. reflexivity.
  - vm_compute. reflexivity.
  - discriminate.
Defined.

(** ** A fixup that fails *)

Lemma bind_inv_raise {A B} (m : M A) (k : A -> M B) w e w' :
  bind m k w = (Raise e, w') ->
  m w = (Raise e, w') \/ exists a w1, m w = (Ok a, w1) /\ k a w1 = (Raise e, w').
Proof.
  unfold bind. destruct (m w) as [[a|e0] w1]; intros E; [right; by exists a, w1 |].
  left. injection E as <- <-. reflexivity.
Qed.

Section Fixup_failure.

Context (H : host) (mujoco_path raw : string).

Lemma relink_raise_keeps_final w e w' :
  relink H mujoco_path raw w = (Raise e, w') ->
  fs w' !! final_path raw = fs w !! final_path raw.
Proof.
  destruct (final_path_fresh raw) as (Nfr & Ntr & Ntf).
  assert (Nft : final_path raw <> final_path raw +:+ "~") by (intros E; by apply Ntf).
  unfold relink. intros E.
  apply bind_inv_raise in E as [E | ([] & w1 & E1 & E)].
  { pose proof (preserves_copyfile (final_path raw) raw _ Nft w) as P. by rewrite E in P. }
  pose proof (preserves_copyfile (final_path raw) raw _ Nft w) as P1. rewrite E1 in P1.
  cbn [snd] in P1. rewrite <- P1. clear P1 E1.
  apply bind_inv_raise in E as [E | ([] & w2 & E2 & E)].
  { match type of E with check_call H ?argv w1 = _ =>
      pose proof (preserves_check_call H (final_path raw) argv) as P end.
    rewrite List.last_last in P. specialize (P Nft w1). by rewrite E in P. }
  match type of E2 with check_call H ?argv w1 = _ =>
    pose proof (preserves_check_call H (final_path raw) argv) as P2 end.
  rewrite List.last_last in P2. specialize (P2 Nft w1). rewrite E2 in P2.
  cbn [snd] in P2. rewrite <- P2. clear P2 E2.
  apply bind_inv_raise in E as [E | ([] & w3 & E3 & E)].
  { match type of E with check_call H ?argv w2 = _ =>
      pose proof (preserves_check_call H (final_path raw) argv) as P end.
    rewrite List.last_last in P. specialize (P Nft w2). by rewrite E in P. }
  match type of E3 with check_call H ?argv w2 = _ =>
    pose proof (preserves_check_call H (final_path raw) argv) as P3 end.
  rewrite List.last_last in P3. specialize (P3 Nft w2). rewrite E3 in P3.
  cbn [snd] in P3. rewrite <- P3. clear P3 E3.
  apply bind_inv_raise in E as [E | ([] & w4 & E4 & E)].
  - apply os_rename_raise in E. by rewrite E.
  - discriminate E.
Qed.

(** A fixup that raises has not produced or altered the final artifact:
    the final name is written by the last rename only, so a failed copy or a
    failed install_name_tool leaves at most the staging file behind.  A raw
    artifact that does not exist is answered with "no such file" and an
    unchanged world. *)
Theorem manually_link_libraries_fails_cleanly (w : world) :
  (forall e w', manually_link_libraries H mujoco_path raw w = (Raise e, w') ->
     fs w' !! final_path raw = fs w !! final_path raw
     /\ fs w' !! raw = fs w !! raw)
  /\ (fs w !! raw = None ->
      manually_link_libraries H mujoco_path raw w = (Raise (OSError ENOENT), w)).
Proof.
  destruct (final_path_fresh raw) as (Nfr & Ntr & Ntf).
  split.
  - intros e w' E. split.
    + rewrite manually_link_libraries_unfold in E.
      destruct (fs w !! final_path raw) as [nf|] eqn:Ef.
      * destruct (fs w !! raw) as [nr|]; [| injection E as _ <-; by rewrite Ef].
        case_bool_decide; [discriminate E |].
        rewrite <- Ef. by apply relink_raise_keeps_final in E.
      * rewrite <- Ef. by apply relink_raise_keeps_final in E.
    + pose proof (preserves_manually_link_libraries H raw mujoco_path raw) as P.
      specialize (P (fun E0 => Nfr (eq_sym E0)) (fun E0 => Ntr (eq_sym E0)) w).
      by rewrite E in P.
  - intros Hraw. rewrite manually_link_libraries_unfold, Hraw.
    destruct (fs w !! final_path raw); [reflexivity |].
    unfold relink. apply bind_raise. unfold copyfile.
    assert (Hne : String.eqb raw (final_path raw +:+ "~") = false).
    { apply String.eqb_neq. intros E0. by apply Ntr. }
    by rewrite Hne, Hraw.
Qed.

End Fixup_failure.

Lemma manually_link_libraries_fails_cleanly_witness :
  manually_link_libraries Demo.mac "/opt/mujoco200" "/b/lib/absent.so" Demo.raw_world
  = (Raise (OSError ENOENT), Demo.raw_world).
Proof.
  apply (proj2 (manually_link_libraries_fails_cleanly Demo.mac "/opt/mujoco200"
                  "/b/lib/absent.so" Demo.raw_world)).
  vm_compute. reflexivity.
Defined.

(** ** What a cleanup can touch *)

Lemma remove_or_log_step (f : string) (w : world) :
  environ (snd (remove_or_log f w)) = environ w
  /\ (fs (snd (remove_or_log f w)) = fs w
      \/ fs (snd (remove_or_log f w)) = delete f (fs w)).
Proof.
  unfold remove_or_log, try_except, os_remove.
  destruct (fs w !! f) as [[d t [e|]|t]|]; cbv beta iota.
  - destruct (is_PermissionError (OSError e)); split; try reflexivity; by left.
  - split; [reflexivity | by right].
  - change (is_PermissionError (OSError EISDIR)) with false. cbv iota.
    split; [reflexivity | by left].
  - change (is_PermissionError (OSError ENOENT)) with false. cbv iota.
    split; [reflexivity | by left].
Qed.

Lemma cleanup_loop_frame (l : list string) : forall w,
  environ (snd (for_each l remove_or_log w)) = environ w
  /\ (forall k, k ∉ l -> fs (snd (for_each l remove_or_log w)) !! k = fs w !! k)
  /\ (forall k, fs (snd (for_each l remove_or_log w)) !! k = fs w !! k
                \/ fs (snd (for_each l remove_or_log w)) !! k = None).
Proof.
  induction l as [|f l IH]; intros w.
  - cbn [for_each]. split; [reflexivity |]. split; [intros; reflexivity | intros; by left].
  - cbn [for_each]. unfold bind.
    destruct (remove_or_log_step f w) as (Env & Fs).
    destruct (remove_or_log f w) as [[[]|e] w1]; cbn [snd] in *.
    + destruct (IH w1) as (Env' & Out & Sh). split; [by rewrite Env', Env |]. split.
      * intros k Hk. apply not_elem_of_cons in Hk as [Hne Hl]. rewrite Out by done.
        destruct Fs as [-> | ->]; [done | by rewrite lookup_delete_ne].
      * intros k. destruct (Sh k) as [E | E]; [| by right]. rewrite E.
        destruct Fs as [-> | ->]; [by left |].
        destruct (decide (k = f)) as [-> | Hne];
          [right; apply lookup_delete_eq | left; by rewrite lookup_delete_ne].
    + split; [exact Env |]. split.
      * intros k Hk. apply not_elem_of_cons in Hk as [Hne Hl].
        destruct Fs as [-> | ->]; [done | by rewrite lookup_delete_ne].
      * intros k. destruct Fs as [-> | ->]; [by left |].
        destruct (decide (k = f)) as [-> | Hne];
          [right; apply lookup_delete_eq | left; by rewrite lookup_delete_ne].
Qed.

(** Whether it returns or raises, build_fn_cleanup only ever deletes, and
    only what glob(name + '*') gave it: every other entry is what it was, no
    entry is created or rewritten, and the environment is not changed.  For
    a plain name (no separator, no glob metacharacter) what glob gives is
    the entries whose name continues the module name within the working
    directory, so every entry that does not continue it is left alone. *)
Theorem build_fn_cleanup_only_deletes_its_files (H : host) (name : string) (w : world) :
  (forall k, k ∉ glob_star H name (fs w) ->
     fs (snd (build_fn_cleanup H name w)) !! k = fs w !! k)
  /\ (plain_name name = true ->
      forall k, glob_match name k = false ->
        fs (snd (build_fn_cleanup H name w)) !! k = fs w !! k)
  /\ (forall k, fs (snd (build_fn_cleanup H name w)) !! k = fs w !! k
                \/ fs (snd (build_fn_cleanup H name w)) !! k = None)
  /\ environ (snd (build_fn_cleanup H name w)) = environ w.
Proof.
  rewrite build_fn_cleanup_unfold. destruct (truthy _).
  - split; [intros; reflexivity |]. split; [intros; reflexivity |].
    split; [intros; by left | reflexivity].
  - destruct (cleanup_loop_frame (glob_star H name (fs w)) w) as (Env & Out & Sh).
    split; [exact Out |]. split; [| by split].
    intros Plain k Hk. apply Out. rewrite (glob_star_plain H name _ Plain).
    rewrite elem_of_glob_prefix. intros [Hm _].
    rewrite Hk in Hm. discriminate Hm.
Qed.

(** ** The library-path check on linux *)

Section Library_path_check.

Context (H : host).

Lemma ensure_set_env_var_outcome var lib w :
  fst (_ensure_set_env_var var lib w) = Ok tt
  \/ exists msg, fst (_ensure_set_env_var var lib w) = Raise (Exception msg).
Proof.
  unfold _ensure_set_env_var, bind, getenv, get.
  destruct (negb _); [right; by eexists | by left].
Qed.

Lemma ensure_set_env_var_run var lib w :
  _ensure_set_env_var var lib w = (fst (_ensure_set_env_var var lib w), w).
Proof.
  rewrite <- (ensure_set_env_var_world var lib w) at 3. by destruct (_ensure_set_env_var _ _ _).
Qed.

Lemma get_nvidia_lib_dir_again w :
  fst (get_nvidia_lib_dir H (snd (get_nvidia_lib_dir H w))) = fst (get_nvidia_lib_dir H w).
Proof.
  rewrite !get_nvidia_lib_dir_result.
  by destruct (get_nvidia_lib_dir_world H w) as (-> & _ & _).
Qed.

(** On linux the library-path check comes first and the driver check is
    strict.  If LD_LIBRARY_PATH lacks the MuJoCo bin directory, the error is
    raised with the world untouched, before any driver discovery.  If a
    driver directory is found and MUJOCO_PY_FORCE_CPU is unset, the GPU
    builder is chosen when LD_LIBRARY_PATH holds that directory, and
    otherwise an Exception is raised: the missing driver path never falls
    back to the CPU builder. *)
Theorem linux_driver_path_is_required (mujoco_path : string) (w : world) :
  sys_platform H = "linux" ->
  (forall e, fst (_ensure_set_env_var "LD_LIBRARY_PATH" (Path.join mujoco_path "bin") w)
             = Raise e ->
     select_builder H mujoco_path w = (Raise e, w))
  /\ (forall d,
        fst (_ensure_set_env_var "LD_LIBRARY_PATH" (Path.join mujoco_path "bin") w) = Ok tt ->
        environ w !! "MUJOCO_PY_FORCE_CPU" = None ->
        fst (get_nvidia_lib_dir H w) = Ok (Some d) ->
        (fst (_ensure_set_env_var "LD_LIBRARY_PATH" d w) = Ok tt ->
           fst (select_builder H mujoco_path w) = Ok LinuxGPUExtensionBuilder)
        /\ (fst (_ensure_set_env_var "LD_LIBRARY_PATH" d w) <> Ok tt ->
              exists msg, fst (select_builder H mujoco_path w) = Raise (Exception msg))).
Proof.
  intros Hl.
  assert (Sel : select_builder H mujoco_path w
    = (_ensure_set_env_var "LD_LIBRARY_PATH" (Path.join mujoco_path "bin") ;;;
       let* force_cpu := getenv "MUJOCO_PY_FORCE_CPU" in
       let* gpu :=
         (match force_cpu with
          | None => let* d := get_nvidia_lib_dir H in ret (bool_decide (is_Some d))
          | Some _ => ret false
          end) in
       if gpu then
         let* d := get_nvidia_lib_dir H in
         _ensure_set_env_var "LD_LIBRARY_PATH" (default "None" d) ;;;
         ret LinuxGPUExtensionBuilder
       else ret LinuxCPUExtensionBuilder) w).
  { unfold select_builder. rewrite Hl.
    change (("linux" =? "darwin")%string) with false.
    change (("linux" =? "linux")%string) with true. reflexivity. }
  rewrite Sel. clear Sel. split.
  - intros e He. apply bind_raise. rewrite ensure_set_env_var_run. by rewrite He.
  - intros d He Hf Hd.
    assert (Run : forall r,
              fst (_ensure_set_env_var "LD_LIBRARY_PATH" d w) = r ->
              fst ((_ensure_set_env_var "LD_LIBRARY_PATH" (Path.join mujoco_path "bin") ;;;
                    let* force_cpu := getenv "MUJOCO_PY_FORCE_CPU" in
                    let* gpu :=
                      (match force_cpu with
                       | None => let* d := get_nvidia_lib_dir H in ret (bool_decide (is_Some d))
                       | Some _ => ret false
                       end) in
                    if gpu then
                      let* d := get_nvidia_lib_dir H in
                      _ensure_set_env_var "LD_LIBRARY_PATH" (default "None" d) ;;;
                      ret LinuxGPUExtensionBuilder
                    else ret LinuxCPUExtensionBuilder) w)
              = match r with Ok _ => Ok LinuxGPUExtensionBuilder | Raise e => Raise e end).
    { intros r Hr. unfold bind at 1. rewrite ensure_set_env_var_run, He.
      unfold bind at 1, getenv, get. rewrite Hf.
      unfold bind at 1. unfold bind at 1.
      pose proof (get_nvidia_lib_dir_again w) as Again.
      pose proof (get_nvidia_lib_dir_world H w) as (_ & Env1 & Cwd1).
      destruct (get_nvidia_lib_dir H w) as [[d1|e1] w1]; cbn [fst snd] in *;
        [| discriminate Hd].
      injection Hd as ->. unfold ret at 1. cbv iota beta.
      rewrite bool_decide_eq_true_2 by eauto. unfold bind at 1.
      pose proof (get_nvidia_lib_dir_world H w1) as (_ & Env2 & Cwd2).
      destruct (get_nvidia_lib_dir H w1) as [[d2|e2] w2]; cbn [fst snd] in *;
        [| discriminate Again].
      injection Again as ->. cbn [default]. unfold bind at 1.
      rewrite ensure_set_env_var_run. change (id d) with d.
      rewrite (ensure_set_env_var_indep "LD_LIBRARY_PATH" d w w2)
        by (by rewrite ?Env2, ?Cwd2, ?Env1, ?Cwd1).
      rewrite Hr. by destruct r as [[]|e]. }
    split.
    + intros Hok. by rewrite (Run _ Hok).
    + intros Hno. destruct (ensure_set_env_var_outcome "LD_LIBRARY_PATH" d w) as [Hok | [msg Hm]];
        [by destruct Hno |].
      exists msg. by rewrite (Run _ Hm).
Qed.

End Library_path_check.

(** Witness: three driver directories are installed, nvidia-smi answers,
    and LD_LIBRARY_PATH holds only the MuJoCo bin directory. *)
Lemma linux_driver_path_is_required_witness :
  sys_platform Demo.linux = "linux"
  /\ exists msg,
       fst (select_builder Demo.linux "/opt/mujoco200"
              (Demo.world_of Demo.three_drivers Demo.ld_env))
       = Raise (Exception msg).
Proof.
  split; [reflexivity |].
  refine (proj2 (proj2 (linux_driver_path_is_required Demo.linux "/opt/mujoco200"
                          (Demo.world_of Demo.three_drivers Demo.ld_env) _)
                   "/usr/lib/nvidia-450" _ _ _) _).
  - reflexivity.
  - vm_compute. reflexivity.
  - vm_compute. reflexivity.
  - vm_compute. reflexivity.
  - vm_compute. discriminate.
Defined.

(** ** Absolute paths *)

Lemma startswith_slash s :
  Str.startswith "/" s = true <-> exists s', s = String "/"%char s'.
Proof.
  unfold Str.startswith. destruct s as [|c s]; cbn [String.prefix].
  - split; [discriminate | by intros [? ?]].
  - destruct (ascii_dec "/" c) as [E | N].
    + subst c. split; [by eexists | by destruct s].
    + split; [discriminate | intros [s' E]; injection E as E; by destruct N].
Qed.

Lemma startswith_slash_app s t :
  Str.startswith "/" s = true -> Str.startswith "/" (s +:+ t) = true.
Proof.
  intros [s' ->]%startswith_slash. rewrite str_app_cons.
  apply startswith_slash. by eexists.
Qed.

Lemma join_absolute a b :
  Str.startswith "/" a = true -> Str.startswith "/" (Path.join a b) = true.
Proof.
  intros Ha. unfold Path.join, Path.sep.
  destruct (Str.startswith "/" b) eqn:Hb; [exact Hb |].
  destruct (_ || _); by apply startswith_slash_app.
Qed.

Lemma join_stays_relative a b :
  Str.startswith "/" a = false -> Str.startswith "/" b = false ->
  Str.startswith "/" (Path.join a b) = false.
Proof.
  intros Ha Hb. unfold Path.join, Path.sep. rewrite Hb.
  destruct a as [|c a].
  - exact Hb.
  - assert (N : forall t, Str.startswith "/" (String c a +:+ t) = false).
    { intros t. rewrite str_app_cons. unfold Str.startswith in *.
      cbn [String.prefix] in *. destruct (ascii_dec "/" c); [| reflexivity].
      by destruct a. }
    destruct (_ || _); apply N.
Qed.

Lemma normpath_absolute p :
  Str.startswith "/" p = true -> Str.startswith "/" (Path.normpath p) = true.
Proof.
  intros Hp. unfold Path.normpath. rewrite Hp.
  apply startswith_slash in Hp as [p' ->].
  change (String.eqb (String "/" p') "") with false. cbv beta iota.
  assert (Ne : forall c x, String.eqb (String c x) "" = false) by reflexivity.
  destruct (_ && _).
  - change ("//" +:+ ?x) with (String "/"%char (String "/"%char x)).
    rewrite Ne. apply startswith_slash. by eexists.
  - change ("/" +:+ ?x) with (String "/"%char x).
    rewrite Ne. apply startswith_slash. by eexists.
Qed.

Lemma abspath_absolute here p :
  Str.startswith "/" here = true -> Str.startswith "/" (Path.abspath here p) = true.
Proof.
  intros Hh. unfold Path.abspath. apply normpath_absolute.
  destruct (Str.startswith "/" p) eqn:Hp; [exact Hp | by apply join_absolute].
Qed.

Section Relative_path.

Context (H : host).

Lemma ensure_set_env_var_relative var lib w :
  Str.startswith "/" (cwd w) = true -> Str.startswith "/" lib = false ->
  exists msg, _ensure_set_env_var var lib w = (Raise (Exception msg), w).
Proof.
  intros Hc Hr. unfold _ensure_set_env_var, bind, getenv, get.
  assert (Str.mem lib (map (Path.abspath (cwd w))
                          (Str.split ":" (default "" (environ w !! var)))) = false) as ->.
  { unfold Str.mem. apply bool_decide_eq_false. intros (x & -> & _)%list_elem_of_fmap.
    rewrite abspath_absolute in Hr by exact Hc. discriminate. }
  by eexists.
Qed.

(** LD_LIBRARY_PATH entries are made absolute before the comparison, the
    MuJoCo directory is not.  So in a process whose working directory is
    absolute, a relative mujoco_path is refused on linux whatever
    LD_LIBRARY_PATH holds, with nothing done: no message, no driver
    discovery, no file touched. *)
Theorem relative_mujoco_path_is_refused (mujoco_path : string) (w : world) :
  sys_platform H = "linux" ->
  Str.startswith "/" (cwd w) = true ->
  Str.startswith "/" mujoco_path = false ->
  exists msg, select_builder H mujoco_path w = (Raise (Exception msg), w).
Proof.
  intros Hl Hc Hr.
  destruct (ensure_set_env_var_relative "LD_LIBRARY_PATH" (Path.join mujoco_path "bin") w Hc)
    as [msg E]; [by apply join_stays_relative |].
  exists msg. unfold select_builder. rewrite Hl.
  change (("linux" =? "darwin")%string) with false.
  change (("linux" =? "linux")%string) with true. cbv beta iota.
  by apply bind_raise.
Qed.

End Relative_path.

(** Witness: the same directory is given relative to the working
    directory on both sides. *)
Lemma relative_mujoco_path_is_refused_witness :
  exists msg,
    select_builder Demo.linux "mujoco200"
      (Demo.world_of ∅ {[ "LD_LIBRARY_PATH" := "mujoco200/bin" ]})
    = (Raise (Exception msg), Demo.world_of ∅ {[ "LD_LIBRARY_PATH" := "mujoco200/bin" ]}).
Proof.
  apply (relative_mujoco_path_is_refused Demo.linux "mujoco200"
           (Demo.world_of ∅ {[ "LD_LIBRARY_PATH" := "mujoco200/bin" ]}));
    reflexivity.
Defined.


(** ** The compiler choice on macOS *)

Section Mac_compiler.

Context (H : host).

Lemma base_build_impl_run b w :
  base_build_impl H b w
  = (snd (run_commands H (extension b) (pyxbld_dir H b) (environ w) (fs w)),
     set_fs (fst (run_commands H (extension b) (pyxbld_dir H b) (environ w) (fs w)))
            (log (EvToolchain (pyxbld_dir H b)) w)).
Proof.
  unfold base_build_impl, bind, emit, modify. cbn [environ fs log].
  by destruct (run_commands _ _ _ _ _).
Qed.

Lemma mac_build_impl_run b w c :
  klass b = MacExtensionBuilder ->
  truthy (environ w !! "CC") = false ->
  List.find (find_executable (fs w)) c_compilers = Some c ->
  _build_impl H b w
  = let R := run_commands H (extension b) (pyxbld_dir H b)
               (<["CC" := c]> (environ w)) (fs w) in
    let w2 := set_fs (fst R) (log (EvToolchain (pyxbld_dir H b))
                                (set_environ (<["CC" := c]> (environ w)) w)) in
    match snd R with
    | Raise e => (Raise e, w2)
    | Ok so => manually_link_libraries H (mujoco_path b) so
                 (set_environ (delete "CC" (environ w2)) w2)
    end.
Proof.
  intros K T F. unfold _build_impl. rewrite K.
  unfold bind at 1, getenv, get. rewrite T. cbn [negb].
  unfold bind at 1. unfold bind at 1, get. rewrite F.
  unfold bind at 1, modify. unfold bind at 1. rewrite base_build_impl_run.
  cbn [environ fs log set_environ set_fs]. cbv zeta.
  destruct (snd (run_commands _ _ _ _ _)) as [so|e]; [| reflexivity].
  unfold bind at 1. reflexivity.
Qed.

(** MacExtensionBuilder._build_impl and the CC variable.  A CC set by the
    user is left as it is, whatever the outcome.  With CC unset or empty,
    the first of the six known compilers that is a file is chosen; if there
    is none, RuntimeError is raised with nothing done.  The toolchain runs
    with CC set to the choice; when it fails, its error propagates and CC
    stays set to the choice; when it succeeds, CC is deleted, whether or
    not the relinking that follows succeeds. *)
Theorem mac_compiler_choice (b : builder) (w : world) :
  klass b = MacExtensionBuilder ->
  (truthy (environ w !! "CC") = true ->
     environ (snd (_build_impl H b w)) = environ w)
  /\ (truthy (environ w !! "CC") = false ->
      match List.find (find_executable (fs w)) c_compilers with
      | None => exists msg, _build_impl H b w = (Raise (RuntimeError msg), w)
      | Some c =>
          c ∈ c_compilers /\ is_file (fs w !! c) = true
          /\ match snd (run_commands H (extension b) (pyxbld_dir H b)
                          (<["CC" := c]> (environ w)) (fs w)) with
             | Raise e =>
                 fst (_build_impl H b w) = Raise e
                 /\ environ (snd (_build_impl H b w)) = <["CC" := c]> (environ w)
             | Ok _ =>
                 environ (snd (_build_impl H b w)) = delete "CC" (environ w)
             end
      end).
Proof.
  intros K. split.
  - intros T. unfold _build_impl. rewrite K.
    unfold bind at 1, getenv, get. rewrite T. cbn [negb].
    apply (keeps_environ_bind (base_build_impl H b)).
    + intros w0. rewrite base_build_impl_run. reflexivity.
    + intros so. apply keeps_environ_manually_link_libraries.
  - intros T. destruct (List.find _ _) as [c|] eqn:F.
    + rewrite (mac_build_impl_run b w c K T F). cbv zeta.
      apply find_some in F as [In F]. split; [by apply list_elem_of_In |].
      split; [exact F |].
      destruct (snd (run_commands _ _ _ _ _)) as [so|e].
      * rewrite keeps_environ_manually_link_libraries.
        cbn [environ set_environ set_fs log]. apply delete_insert_eq.
      * split; reflexivity.
    + unfold _build_impl. rewrite K.
      unfold bind at 1, getenv, get. rewrite T. cbn [negb].
      unfold bind at 1. unfold bind at 1, get. rewrite F. by eexists.
Qed.

End Mac_compiler.

(** Witness: gcc-7 is chosen, the toolchain succeeds, and CC is unset again
    afterwards. *)
Lemma mac_compiler_choice_witness :
  List.find (find_executable (fs Samples.mac_world)) c_compilers = Some "/usr/local/bin/gcc-7"
  /\ environ (snd (_build_impl Demo.mac Samples.mac_builder Samples.mac_world))
     = delete "CC" (environ Samples.mac_world).
Proof.
  split; [vm_compute; reflexivity |].
  pose proof (proj2 (mac_compiler_choice Demo.mac Samples.mac_builder Samples.mac_world
                       eq_refl) eq_refl) as P.
  vm_compute in P. destruct P as (_ & _ & P).
  vm_compute. exact P.
Defined.

(** ** Driver discovery and the ELF fixup, seen from the file system *)

Section Read_only.

Context (H : host).

Lemma sorted_length (l : list string) : length (sorted l) = length l.
Proof. unfold sorted. by rewrite merge_sort_Permutation. Qed.

Lemma glob_nvidia_exists (f : gmap string node) (d : string) :
  d ∈ glob_nvidia f -> is_Some (f !! d) /\ nvidia_pattern d = true.
Proof.
  unfold glob_nvidia. intros [P In]%list_elem_of_filter.
  apply elem_of_elements, elem_of_dom in In. split; [exact In |].
  by apply Is_true_true.
Qed.

(** get_nvidia_lib_dir only looks.  It never raises, a directory it
    returns exists, and files and environment are as before.  It runs one
    shell command, and prints at most one line after it, which happens only
    when nvidia-smi is there, the docker directory is not, and more than one
    driver directory matches. *)
Theorem driver_discovery_only_looks (w : world) :
  (exists r, fst (get_nvidia_lib_dir H w) = Ok r
             /\ forall d, r = Some d -> is_Some (fs w !! d))
  /\ fs (snd (get_nvidia_lib_dir H w)) = fs w
  /\ environ (snd (get_nvidia_lib_dir H w)) = environ w
  /\ (trace (snd (get_nvidia_lib_dir H w)) = trace w ++ [EvSubprocess ["type nvidia-smi"]]
      \/ (exists msg,
            trace (snd (get_nvidia_lib_dir H w))
            = trace w ++ [EvSubprocess ["type nvidia-smi"]; EvPrint msg])
         /\ has_command H "nvidia-smi" = true
         /\ fs w !! "/usr/local/nvidia/lib64" = None
         /\ (1 < length (glob_nvidia (fs w)))%nat).
Proof.
  split; [| split; [apply get_nvidia_lib_dir_world | split; [apply get_nvidia_lib_dir_world |]]].
  - rewrite get_nvidia_lib_dir_result. eexists. split; [reflexivity |].
    intros d. destruct (negb _); [discriminate |].
    destruct (bool_decide _) eqn:D.
    + intros [= <-]. by apply bool_decide_eq_true in D.
    + intros L. apply last_sorted_max in L as [In _].
      by apply glob_nvidia_exists in In as [? _].
  - unfold get_nvidia_lib_dir, bind, print, emit, modify, exists_, get, ret.
    cbv beta iota.
    destruct (has_command H "nvidia-smi") eqn:S; cbn [negb]; cbv beta iota;
      [| by left].
    cbn [fs log trace].
    destruct (bool_decide _) eqn:D; cbv beta iota; [by left |].
    apply bool_decide_eq_false in D.
    destruct (last _) as [latest|]; cbv beta iota; [| by left].
    destruct (bool_decide _) eqn:Len; cbv beta iota; [| by left].
    right. apply bool_decide_eq_true in Len. rewrite sorted_length in Len.
    cbn [fs log] in Len.
    split; [| split; [reflexivity | split; [| exact Len]]].
    + eexists. cbn [snd trace log fs]. by rewrite <- app_assoc.
    + destruct (fs w !! "/usr/local/nvidia/lib64") eqn:E; [| reflexivity].
      destruct D. by eexists.
Qed.

Lemma check_call_trace argv w w' :
  check_call H argv w = (Ok tt, w') -> trace w' = trace w ++ [EvSubprocess argv].
Proof. intros E. by apply check_call_inv in E as (d & t & g & d' & _ & _ & _ & ->). Qed.

Lemma check_output_inv argv w out w' :
  check_output H argv w = (Ok out, w') -> w' = log (EvSubprocess argv) w.
Proof.
  unfold check_output, bind, emit, modify. cbv beta iota. cbn [fs log].
  destruct (negb _); [discriminate |].
  destruct (fs w !! List.last argv "") as [[d t g|t]|]; try discriminate.
  destruct (query_tool H _ d); [| discriminate]. by intros [= _ <-].
Qed.

(** What fix_shared_library asks of the system.  It starts with patchelf
    --remove-rpath whatever follows, and when patchelf is not installed
    that first call ends it with FileNotFoundError and nothing done.  When
    it returns, it has run exactly: patchelf --remove-rpath, ldd, patchelf
    --remove-needed name if and only if the output of that ldd run mentions
    name, and patchelf --add-needed, in this order. *)
Theorem fix_shared_library_commands (so_file name library_path : string) (w : world) :
  (exists evs,
     trace (snd (fix_shared_library H so_file name library_path w))
     = trace w ++ EvSubprocess ["patchelf"; "--remove-rpath"; so_file] :: evs)
  /\ (has_command H "patchelf" = false ->
      fix_shared_library H so_file name library_path w
      = (Raise (OSError ENOENT), log (EvSubprocess ["patchelf"; "--remove-rpath"; so_file]) w))
  /\ (fst (fix_shared_library H so_file name library_path w) = Ok tt ->
      exists w1 out,
        check_call H ["patchelf"; "--remove-rpath"; so_file] w = (Ok tt, w1)
        /\ fst (check_output H ["ldd"; so_file] w1) = Ok out
        /\ trace (snd (fix_shared_library H so_file name library_path w))
           = trace w ++ map EvSubprocess
                          (fix_commands so_file name library_path (Str.contains name out))).
Proof.
  split; [| split].
  - unfold fix_shared_library. unfold bind at 1.
    assert (First : exists w1 r,
              check_call H ["patchelf"; "--remove-rpath"; so_file] w = (r, w1)
              /\ trace w1 = trace w ++ [EvSubprocess ["patchelf"; "--remove-rpath"; so_file]]).
    { unfold check_call, bind, emit, modify. cbv beta iota. cbn [fs log].
      destruct (negb _); [by eexists _, _ |].
      destruct (fs w !! _) as [[d t g|t]|]; try (by eexists _, _).
      destruct (edit_tool H _ d); by eexists _, _. }
    destruct First as (w1 & r & -> & T1). destruct r as [[]|e].
    + assert (Rest : emits (fun _ => True)
                (let* ldd_output := check_output H ["ldd"; so_file] in
                 (if Str.contains name ldd_output
                  then check_call H ["patchelf"; "--remove-needed"; name; so_file]
                  else ret tt) ;;;
                 check_call H ["patchelf"; "--add-needed"; library_path; so_file])).
      { apply emits_bind; [by apply emits_check_output |]. intros out.
        apply emits_bind; [| intros; by apply emits_check_call].
        destruct (Str.contains name out); [by apply emits_check_call | apply emits_ret]. }
      destruct (Rest w1) as (evs & E & _).
      exists evs. rewrite E, T1, <- app_assoc. reflexivity.
    + exists []. exact T1.
  - intros Hc. unfold fix_shared_library. apply bind_raise.
    unfold check_call, bind, emit, modify. cbv beta iota.
    change (hd "" ["patchelf"; "--remove-rpath"; so_file]) with "patchelf".
    by rewrite Hc.
  - intros Ok_. destruct (fix_shared_library H so_file name library_path w) as [r w'] eqn:F.
    cbn [fst snd] in *. subst r. unfold fix_shared_library in F.
    apply bind_inv_ok in F as ([] & w1 & E1 & F).
    apply bind_inv_ok in F as (out & w2 & E2 & F).
    apply bind_inv_ok in F as ([] & w3 & E3 & F).
    exists w1, out. split; [exact E1 |]. split; [by rewrite E2 |].
    apply check_call_trace in E1, F. apply check_output_inv in E2. subst w2.
    rewrite F. unfold fix_commands. destruct (Str.contains name out).
    + apply check_call_trace in E3. rewrite E3. cbn [trace log]. rewrite E1.
      rewrite <- !app_assoc. reflexivity.
    + unfold ret in E3. injection E3 as <-. cbn [trace log]. rewrite E1.
      rewrite <- !app_assoc. reflexivity.
Qed.

End Read_only.

(** ** A callback library that does not load *)

Section Load_failure.

Context (H : host).

Lemma raise_before_rest {A B} (pre : M unit) (m : M A) (k : A -> M B) w e :
  fst ((pre ;;; m) w) = Raise e ->
  (pre ;;; (let* a := m in k a)) w = (Raise e, snd ((pre ;;; m) w)).
Proof.
  unfold bind. destruct (pre w) as [[[]|e0] w2]; cbn [fst snd].
  - destruct (m w2) as [[a|e1] w3]; cbn [fst snd]; [discriminate | by intros [= ->]].
  - by intros [= ->].
Qed.

Lemma fix_and_load_raise_skips_cleanup name p w1 e :
  fst (fix_and_load H name p w1) = Raise e ->
  load_and_clean H name p w1 = (Raise e, snd (fix_and_load H name p w1)).
Proof. unfold fix_and_load, load_and_clean. apply raise_before_rest. Qed.

(** Only the compilation is guarded.  When the compiler has produced the
    library and fixing or loading it then raises, build_callback_fn raises
    that error at once and build_fn_cleanup is not called: off macOS every
    file the compiler wrote is still there. *)
Theorem load_failure_skips_cleanup (function_string : string) (names : list string)
    (w : world) (library_path : string) (e : exn) :
  fst (compiled H function_string names w) = Ok library_path ->
  fst (fix_and_load H (fresh_name H (rng w)) library_path
         (snd (compiled H function_string names w))) = Raise e ->
  build_callback_fn H function_string (PyList names) w
  = (Raise e, snd (fix_and_load H (fresh_name H (rng w)) library_path
                     (snd (compiled H function_string names w))))
  /\ (sys_platform H <> "darwin" ->
      fs (snd (build_callback_fn H function_string (PyList names) w))
      = fs (snd (compiled H function_string names w))
      /\ trace (snd (build_callback_fn H function_string (PyList names) w))
         = trace (snd (compiled H function_string names w))
           ++ [EvLoad (fresh_name H (rng w)) library_path]).
Proof.
  intros C F.
  assert (E : build_callback_fn H function_string (PyList names) w
              = (Raise e, snd (fix_and_load H (fresh_name H (rng w)) library_path
                                 (snd (compiled H function_string names w))))).
  { rewrite (build_callback_fn_unfold H function_string (PyList names) names w eq_refl).
    destruct (compiled H function_string names w) as [[p|e0] w1]; cbn [fst snd] in *;
      [| discriminate C].
    injection C as ->. by apply fix_and_load_raise_skips_cleanup. }
  split; [exact E |].
  intros N. rewrite E. cbn [snd]. unfold fix_and_load.
  apply String.eqb_neq in N. rewrite N. unfold bind at 1 2, ret at 1 2.
  unfold load_dynamic_ext, bind, emit, modify. cbn [fs trace log]. by split.
Qed.

End Load_failure.

(** Witness: the compiler writes a library that is cut short. *)
Lemma load_failure_skips_cleanup_witness :
  build_callback_fn Samples.linux_bad_lib "void fun(const mjModel* m, mjData* d) {}"
    (PyList []) (Demo.world_of ∅ ∅)
  = (Raise (ImportError "file too short"),
     snd (fix_and_load Samples.linux_bad_lib (fresh_name Samples.linux_bad_lib 0)
            (fresh_name Samples.linux_bad_lib 0 +:+ ".so")
            (snd (compiled Samples.linux_bad_lib "void fun(const mjModel* m, mjData* d) {}"
                    [] (Demo.world_of ∅ ∅))))).
Proof.
  apply (load_failure_skips_cleanup Samples.linux_bad_lib
           "void fun(const mjModel* m, mjData* d) {}" [] (Demo.world_of ∅ ∅)
           (fresh_name Samples.linux_bad_lib 0 +:+ ".so")
           (ImportError "file too short")).
  - vm_compute. reflexivity.
  - vm_compute. reflexivity.
Defined.

(** ** The module name of a callback *)

Section Module_name.

Context (H : host).

(** Whatever the random source draws, the module name is _fn_ followed by
    fifteen lowercase letters.  So it holds no path separator and no glob
    metacharacter: the pattern name* of build_fn_cleanup matches by prefix,
    in the working directory. *)
Theorem fresh_name_shape (n : nat) :
  exists letters,
    fresh_name H n = "_fn_" +:+ Str.of_chars letters
    /\ length letters = 15%nat
    /\ Forall (fun c => c ∈ ascii_lowercase) letters
    /\ Forall (fun c => c ∉ Str.chars "/*?[") letters.
Proof.
  unfold fresh_name. eexists. split; [reflexivity |].
  assert (L : Forall (fun c => c ∈ ascii_lowercase)
                (map (fun k => nth (random_draw H (n + k) mod 26)%nat ascii_lowercase "a"%char)
                     (seq 0 15))).
  { apply Forall_fmap, Forall_forall. intros k _. cbn [compose].
    apply list_elem_of_In, nth_In.
    change (length ascii_lowercase) with 26%nat.
    apply Nat.mod_upper_bound. discriminate. }
  split; [by rewrite length_map, length_seq |].
  split; [exact L |].
  eapply Forall_impl; [exact L |]. intros c Hc Bad.
  revert Hc. apply list_elem_of_In in Bad. cbn in Bad.
  intros Hc. apply list_elem_of_In in Hc. cbn in Hc.
  destruct Bad as [<- | [<- | [<- | [<- | []]]]];
    repeat (destruct Hc as [Hc | Hc]; [discriminate Hc |]); exact Hc.
Qed.

End Module_name.
